(** * OpenTRV V0p2 control core (Control.cpp): a shallow embedding

    The C++ of [V0p2_Main/Control.cpp] is translated function by function.
    Integers are [Z]; every conversion to a fixed-width C type that the
    source performs (a [uint8_t] initialiser, a cast, a return through a
    [uint8_t] result type) is written out with the wrap-around of the AVR
    target ([int] is 16 bits wide there). *)

From Stdlib Require Import ZArith List Bool Lia.
Import ListNotations.
Local Open Scope Z_scope.

(** ** Fixed-width integer conversions of the target *)

Module CInt.

Definition to_u8 (z : Z) : Z := z mod 256.
Definition to_u16 (z : Z) : Z := z mod 65536.
Definition to_i8 (z : Z) : Z := (z + 128) mod 256 - 128.
Definition to_i16 (z : Z) : Z := (z + 32768) mod 65536 - 32768.

Definition is_u8 (z : Z) : Prop := 0 <= z < 256.
Definition is_i16 (z : Z) : Prop := -32768 <= z < 32768.

End CInt.

Import CInt.

(** Modelled from the spec: the project's utility header (not part of this
    file) supplies [fnmin]/[fnmax]; the spec uses them as "clamped to" an
    upper bound and "floored at" a lower bound, that is, binary minimum and
    maximum. *)
Definition fnmin (a b : Z) : Z := Z.min a b.
Definition fnmax (a b : Z) : Z := Z.max a b.

(** Modelled from the spec: the Arduino core's [constrain(amt,low,high)]
    macro, "clamped to [low, high]", written with the macro's order of tests:
    [(amt)<(low)?(low):((amt)>(high)?(high):(amt))]. *)
Definition constrain (amt low high : Z) : Z :=
  if amt <? low then low else if amt >? high then high else amt.

(** Modelled from the spec: the statistics sentinel "UNSET(0xFF)", the macro
    [STATS_UNSET_INT] of the project's headers. *)
Definition STATS_UNSET_INT : Z := 255.

(** ** Temperature codec: [compressTempC16] / [expandTempC16] *)

Module Codec.

Definition COMPRESSION_C16_FLOOR_VAL : Z := 0.
Definition COMPRESSION_C16_LOW_THRESHOLD : Z := Z.shiftl 16 4.
Definition COMPRESSION_C16_LOW_THR_AFTER : Z :=
  Z.shiftr COMPRESSION_C16_LOW_THRESHOLD 3.
Definition COMPRESSION_C16_HIGH_THRESHOLD : Z := Z.shiftl 24 4.
Definition COMPRESSION_C16_HIGH_THR_AFTER : Z :=
  COMPRESSION_C16_LOW_THR_AFTER +
  Z.shiftr (COMPRESSION_C16_HIGH_THRESHOLD - COMPRESSION_C16_LOW_THRESHOLD) 1.
Definition COMPRESSION_C16_CEIL_VAL : Z := Z.shiftl 100 4.
Definition COMPRESSION_C16_CEIL_VAL_AFTER : Z :=
  COMPRESSION_C16_HIGH_THR_AFTER +
  Z.shiftr (COMPRESSION_C16_CEIL_VAL - COMPRESSION_C16_HIGH_THRESHOLD) 3.

(** [uint8_t compressTempC16(int tempC16)]: every [return] converts its
    [int] expression to the [uint8_t] result type. *)
Definition compressTempC16 (tempC16 : Z) : Z :=
  if tempC16 <=? 0 then to_u8 0
  else if tempC16 <? COMPRESSION_C16_LOW_THRESHOLD
       then to_u8 (Z.shiftr tempC16 3)
  else if tempC16 <? COMPRESSION_C16_HIGH_THRESHOLD
       then to_u8 (Z.shiftr (tempC16 - COMPRESSION_C16_LOW_THRESHOLD) 1
                   + COMPRESSION_C16_LOW_THR_AFTER)
  else if tempC16 <? COMPRESSION_C16_CEIL_VAL
       then to_u8 (Z.shiftr (tempC16 - COMPRESSION_C16_HIGH_THRESHOLD) 3
                   + COMPRESSION_C16_HIGH_THR_AFTER)
  else to_u8 COMPRESSION_C16_CEIL_VAL_AFTER.

(** [int expandTempC16(uint8_t cTemp)]. *)
Definition expandTempC16 (cTemp : Z) : Z :=
  if cTemp <? COMPRESSION_C16_LOW_THR_AFTER then Z.shiftl cTemp 3
  else if cTemp <? COMPRESSION_C16_HIGH_THR_AFTER
       then Z.shiftl (cTemp - COMPRESSION_C16_LOW_THR_AFTER) 1
            + COMPRESSION_C16_LOW_THRESHOLD
  else if cTemp <=? COMPRESSION_C16_CEIL_VAL_AFTER
       then Z.shiftl (cTemp - COMPRESSION_C16_HIGH_THR_AFTER) 3
            + COMPRESSION_C16_HIGH_THRESHOLD
  else STATS_UNSET_INT.

(** The width of one code of the band an input falls in, in 16ths of a
    degree: half a degree outside [16C, 24C), an eighth of a degree inside. *)
Definition band_step (tempC16 : Z) : Z :=
  if (COMPRESSION_C16_LOW_THRESHOLD <=? tempC16)
     && (tempC16 <? COMPRESSION_C16_HIGH_THRESHOLD)
  then 2 else 8.

End Codec.

(** ** Statistics smoothing: [smoothStatsValue] *)

Module Smooth.

Definition STATS_SMOOTH_SHIFT : Z := 3.

(** [uint8_t smoothStatsValue(uint8_t oldSmoothed, uint8_t newValue)].
    [rnd] is the byte that the call of [randRNG8()] yields; the addend is
    its low [STATS_SMOOTH_SHIFT] bits. The sum is formed in 16 bits. *)
Definition smoothStatsValue (oldSmoothed newValue rnd : Z) : Z :=
  if oldSmoothed =? newValue then oldSmoothed
  else
    let stocAdd := to_u8 (Z.land rnd (Z.shiftl 1 STATS_SMOOTH_SHIFT - 1)) in
    let shifted := to_u16 (Z.shiftl (to_u16 oldSmoothed) STATS_SMOOTH_SHIFT) in
    let less := to_u16 (shifted - to_u16 oldSmoothed) in
    let plus := to_u16 (less + to_u16 newValue) in
    let sum := to_u16 (plus + stocAdd) in
    to_u8 (Z.shiftr sum STATS_SMOOTH_SHIFT).

End Smooth.

(** ** Build configuration

    The constants below are macros and class members of the project's
    headers ([Control.h] and friends), which this file does not define.
    They are taken as parameters; the theorems state which relations between
    them they rely on. The build modelled has [SUPPORT_BAKE] and
    [OCCUPANCY_SUPPORT] defined and [TRV_SLEW_GLACIAL] undefined. *)

Record Config := {
  MIN_TARGET_C : Z;
  MAX_TARGET_C : Z;
  BIASECO_WARM : Z;
  BIASCOM_WARM : Z;
  BAKE_UPLIFT : Z;
  SETBACK_DEFAULT : Z;
  SETBACK_ECO : Z;
  SETBACK_FULL : Z;
  isEcoTemperature : Z -> bool;
  DEFAULT_VALVE_PC_MODERATELY_OPEN : Z;
  DEFAULT_MAX_RUN_ON_TIME_M : Z;
  DEFAULT_ANTISEEK_VALVE_REOPEN_DELAY_M : Z;
  DEFAULT_ANTISEEK_VALVE_RECLOSE_DELAY_M : Z;
  OCCUPATION_TIMEOUT_M : Z;
  OCCUPATION_TIMEOUT_1_M : Z;
  filterLength : nat;
  smallIntMean : list Z -> Z;
  EE_STATS_SETS : Z;
  EE_START_STATS : Z;
  EE_STATS_SET_SIZE : Z;
  EE_STATS_SET_OCCPC_BY_HOUR_SMOOTHED : Z
}.

(** ** Statistics store: quartile membership *)

Module Stats.

(** The EEPROM as [eeprom_read_byte] sees it: a byte at every address. *)
Definition EEPROM := Z -> Z.

(** The body of [for(int8_t hh = 24; --hh >= 0; ++sE)] in
    [inBottomQuartile], with [n] iterations left. *)
Fixpoint inBottomQuartile_loop (n : nat) (ee : EEPROM)
         (sE sample valuesHigher : Z) : bool :=
  match n with
  | O => false
  | S n' =>
      let v := ee sE in
      if STATS_UNSET_INT =? v then false
      else if v >? sample then
        let valuesHigher' := to_u8 (valuesHigher + 1) in
        if valuesHigher' >=? 18 then true
        else inBottomQuartile_loop n' ee (sE + 1) sample valuesHigher'
      else inBottomQuartile_loop n' ee (sE + 1) sample valuesHigher
  end.

Definition inBottomQuartile (ee : EEPROM) (sE sample : Z) : bool :=
  inBottomQuartile_loop 24 ee sE sample 0.

Fixpoint inTopQuartile_loop (n : nat) (ee : EEPROM)
         (sE sample valuesLower : Z) : bool :=
  match n with
  | O => false
  | S n' =>
      let v := ee sE in
      if STATS_UNSET_INT =? v then false
      else if v <? sample then
        let valuesLower' := to_u8 (valuesLower + 1) in
        if valuesLower' >=? 18 then true
        else inTopQuartile_loop n' ee (sE + 1) sample valuesLower'
      else inTopQuartile_loop n' ee (sE + 1) sample valuesLower
  end.

Definition inTopQuartile (ee : EEPROM) (sE sample : Z) : bool :=
  inTopQuartile_loop 24 ee sE sample 0.

(** The address macro [EE_STATS_START_ADDR(set)], as [getByHourStat]
    spells it out. *)
Definition EE_STATS_START_ADDR (cfg : Config) (statsSet : Z) : Z :=
  EE_START_STATS cfg + statsSet * EE_STATS_SET_SIZE cfg.

(** [bool inOutlierQuartile(uint8_t inTop, uint8_t statsSet, uint8_t hour)];
    [hoursLT] is what [getHoursLT()] returns. *)
Definition inOutlierQuartile (cfg : Config) (ee : EEPROM) (hoursLT : Z)
           (inTop : bool) (statsSet hour : Z) : bool :=
  if statsSet >=? EE_STATS_SETS cfg then false
  else
    let hh := if hour >? 23 then hoursLT else hour in
    let ss := EE_STATS_START_ADDR cfg statsSet in
    let sample := ee (ss + hh) in
    if STATS_UNSET_INT =? sample then false
    else if inTop then inTopQuartile ee ss sample
    else inBottomQuartile ee ss sample.

(** The [n] bytes read by a quartile loop that starts at address [a]. *)
Definition span (ee : EEPROM) (a : Z) (n : nat) : list Z :=
  map (fun k => ee (a + Z.of_nat k)) (seq 0 n).

(** The 24 hourly entries of the set that starts at [ss]. *)
Definition entries (ee : EEPROM) (ss : Z) : list Z := span ee ss 24.

Definition count_below (sample : Z) (l : list Z) : Z :=
  Z.of_nat (length (filter (fun v => v <? sample) l)).

Definition count_above (sample : Z) (l : list Z) : Z :=
  Z.of_nat (length (filter (fun v => v >? sample) l)).

End Stats.

(** ** Occupancy tracker *)

Module Occupancy.

(** The [uint8_t] members of [OccupancyTracker] that [read] touches. *)
Record OccupancyTracker := {
  value : Z;
  occupationCountdownM : Z;
  activityCountdownM : Z;
  vacancyM : Z;
  vacancyH : Z
}.

(** The [#if] chain that picks [OCCCP_SHIFT] from [OCCUPATION_TIMEOUT_M]
    (a build with a timeout outside [25,100] is rejected by [#error]). *)
Definition OCCCP_SHIFT (cfg : Config) : Z :=
  if OCCUPATION_TIMEOUT_M cfg <=? 25 then 2
  else if OCCUPATION_TIMEOUT_M cfg <=? 50 then 1
  else 0.

Definition timeout_supported (cfg : Config) : Prop :=
  25 <= OCCUPATION_TIMEOUT_M cfg <= 100.

(** [uint8_t OccupancyTracker::read()]: the returned byte and the tracker
    afterwards. *)
Definition read (cfg : Config) (o : OccupancyTracker)
  : Z * OccupancyTracker :=
  let newValue :=
    if 0 =? occupationCountdownM o then 0
    else fnmin (to_u8 (to_u8 100
                       - to_u8 (Z.shiftl (to_u8 (OCCUPATION_TIMEOUT_M cfg)
                                          - occupationCountdownM o)
                                         (OCCCP_SHIFT cfg))))
               (to_u8 100) in
  let '(occ, vM, vH) :=
    if occupationCountdownM o >? 0
    then (to_u8 (occupationCountdownM o - 1), 0, 0)
    else if vacancyH o <? 255 then
      let vM' := to_u8 (vacancyM o + 1) in
      if vM' >=? 60 then (occupationCountdownM o, 0, to_u8 (vacancyH o + 1))
      else (occupationCountdownM o, vM', vacancyH o)
    else (occupationCountdownM o, vacancyM o, vacancyH o) in
  let act :=
    if activityCountdownM o >? 0 then to_u8 (activityCountdownM o - 1)
    else activityCountdownM o in
  (newValue,
   {| value := newValue; occupationCountdownM := occ;
      activityCountdownM := act; vacancyM := vM; vacancyH := vH |}).

(** [void OccupancyTracker::markAsPossiblyOccupied()] (the LED side effect
    is outside the model). *)
Definition markAsPossiblyOccupied (cfg : Config) (o : OccupancyTracker)
  : OccupancyTracker :=
  {| value := value o;
     occupationCountdownM :=
       fnmax (to_u8 (occupationCountdownM o))
             (to_u8 (OCCUPATION_TIMEOUT_1_M cfg));
     activityCountdownM := 2;
     vacancyM := vacancyM o; vacancyH := vacancyH o |}.

(** The confidence formula in the words of the spec:
    [100 - (timeoutMinutes - remaining) * scaleFactor], clamped to [0,100]. *)
Definition spec_confidence (cfg : Config) (remaining : Z) : Z :=
  Z.max 0 (Z.min 100
             (100 - (OCCUPATION_TIMEOUT_M cfg - remaining)
                    * 2 ^ OCCCP_SHIFT cfg)).

(** Total vacancy time in minutes held by the two vacancy counters. *)
Definition vacancy_minutes (o : OccupancyTracker) : Z :=
  vacancyH o * 60 + vacancyM o.

(** States the tracker can be in: bytes, with the countdown never above the
    timeout it is loaded with and the minute counter below one hour. *)
Definition wf (cfg : Config) (o : OccupancyTracker) : Prop :=
  is_u8 (value o) /\ 0 <= occupationCountdownM o <= OCCUPATION_TIMEOUT_M cfg
  /\ is_u8 (activityCountdownM o) /\ 0 <= vacancyM o < 60
  /\ is_u8 (vacancyH o).

End Occupancy.

(** ** Target temperature policy *)

Module Target.

(** What the collaborators of the control core report when the per-minute
    routines run: mode flags, user targets, occupancy, light, schedule, the
    stored statistics, the temperature sensor and the valve limits. *)
Record Env := {
  isWarmMode : bool;
  bakeCountdownM : Z;
  getWARMTargetC : Z;
  getFROSTTargetC : Z;
  Occupancy_longVacant : bool;
  Occupancy_longLongVacant : bool;
  Occupancy_isLikelyUnoccupied : bool;
  Occupancy_isLikelyOccupied : bool;
  isAnyScheduleOnWARMSoon : bool;
  isAnyScheduleOnWARMNow : bool;
  recentUIControlUse : bool;
  AmbLight_getDarkMinutes : Z;
  AmbLight_isRoomLit : bool;
  AmbLight_isRoomDark : bool;
  eeprom : Stats.EEPROM;
  getHoursLT : Z;
  TemperatureC16_get : Z;
  getMinPercentOpen : Z;
  getMaxPercentageOpenAllowed : Z;
  glacial_setting : bool
}.

Definition inWarmMode (env : Env) : bool := isWarmMode env.

Definition inBakeMode (env : Env) : bool :=
  isWarmMode env && negb (0 =? bakeCountdownM env).

Definition TEMP_SCALE_MID (cfg : Config) : Z :=
  Z.quot (BIASECO_WARM cfg + BIASCOM_WARM cfg + 1) 2.

Definition hasEcoBias (cfg : Config) (env : Env) : bool :=
  getWARMTargetC env <=? TEMP_SCALE_MID cfg.

(** [inOutlierQuartile(inTop, EE_STATS_SET_OCCPC_BY_HOUR_SMOOTHED)] with
    the defaulted hour argument ([~0], hence the current hour). *)
Definition occupancyOutlier (cfg : Config) (env : Env) (inTop : bool)
  : bool :=
  Stats.inOutlierQuartile cfg (eeprom env) (getHoursLT env) inTop
    (EE_STATS_SET_OCCPC_BY_HOUR_SMOOTHED cfg) 255.

Definition notLikelyOccupiedSoon (cfg : Config) (env : Env) : bool :=
  Occupancy_longLongVacant env
  || (Occupancy_isLikelyUnoccupied env && occupancyOutlier cfg env false).

(** The test of the WARM branch of [computeTargetTemp] that decides whether
    a setback is applied. *)
Definition setbackApplies (cfg : Config) (env : Env) : bool :=
  let longLongVacant := Occupancy_longLongVacant env in
  let longVacant := longLongVacant || Occupancy_longVacant env in
  longVacant
  || ((notLikelyOccupiedSoon cfg env || (AmbLight_getDarkMinutes env >? 10))
      && negb (isAnyScheduleOnWARMNow env)
      && negb (recentUIControlUse env)).

(** The setback tier chosen in that branch. *)
Definition setbackChosen (cfg : Config) (env : Env) : Z :=
  let wt := getWARMTargetC env in
  let longLongVacant := Occupancy_longLongVacant env in
  let longVacant := longLongVacant || Occupancy_longVacant env in
  to_u8
    (if negb (hasEcoBias cfg env)
        || Occupancy_isLikelyOccupied env
        || (negb longLongVacant && AmbLight_isRoomLit env)
        || (negb longLongVacant && occupancyOutlier cfg env true)
        || (negb longVacant && isAnyScheduleOnWARMSoon env)
     then SETBACK_DEFAULT cfg
     else if longLongVacant
             || (notLikelyOccupiedSoon cfg env && isEcoTemperature cfg wt)
          then SETBACK_FULL cfg
          else SETBACK_ECO cfg).

(** [uint8_t ModelledRadValve::computeTargetTemp()]. *)
Definition computeTargetTemp (cfg : Config) (env : Env) : Z :=
  if negb (inWarmMode env) then
    let frostC := getFROSTTargetC env in
    if negb (Occupancy_longVacant env)
       && isAnyScheduleOnWARMSoon env
       && negb (recentUIControlUse env)
    then
      let warmTarget := getWARMTargetC env in
      let preWarmTempC :=
        fnmax (to_u8 (warmTarget
                      - (if hasEcoBias cfg env then SETBACK_ECO cfg
                         else SETBACK_DEFAULT cfg)))
              frostC in
      if (frostC <? preWarmTempC) && negb (isEcoTemperature cfg warmTarget)
      then preWarmTempC
      else frostC
    else frostC
  else if inBakeMode env then
    fnmin (to_u8 (getWARMTargetC env + BAKE_UPLIFT cfg))
          (to_u8 (MAX_TARGET_C cfg))
  else
    let wt := getWARMTargetC env in
    if setbackApplies cfg env
    then fnmax (to_u8 (wt - setbackChosen cfg env)) (getFROSTTargetC env)
    else wt.

End Target.

(** ** Modelled radiator valve *)

Module Valve.

Definition TRV_MIN_SLEW_PC : Z := 7.
Definition TRV_MIN_SLEW_PC_PER_MIN : Z := 1.
Definition TRV_MAX_SLEW_PC_PER_MIN : Z := 5.
Definition TRV_SLEW_PC_PER_MIN_VFAST : Z :=
  Z.min 34 (4 * TRV_MAX_SLEW_PC_PER_MIN).
Definition TRV_SLEW_PC_PER_MIN_FAST : Z :=
  Z.min 20 (2 * TRV_MAX_SLEW_PC_PER_MIN).

Definition refTempOffsetC16 : Z := 8.
Definition MAX_TEMP_JUMP_C16 : Z := 3.

(** The members of [struct ModelledRadValveInputState] that the source
    reads and writes: bytes, flags and the [int] reference temperature. *)
Record ModelledRadValveInputState := {
  targetTempC : Z;
  minPCOpen : Z;
  maxPCOpen : Z;
  widenDeadband : bool;
  glacial : bool;
  hasEcoBias : bool;
  inBakeMode : bool;
  refTempC16 : Z
}.

(** The members of [struct ModelledRadValveState] that the source reads
    and writes: the two byte countdowns, the movement counter (16 bits) and
    the array [prevRawTempC16] of [filterLength] raw temperatures, newest
    first. *)
Record ModelledRadValveState := {
  initialised : bool;
  isFiltering : bool;
  valveMoved : bool;
  cumulativeMovementPC : Z;
  valveTurndownCountdownM : Z;
  valveTurnupCountdownM : Z;
  prevRawTempC16 : list Z
}.

(** [void ModelledRadValveInputState::setReferenceTemperatures(int)]. *)
Definition setReferenceTemperatures (inp : ModelledRadValveInputState)
           (currentTempC16 : Z) : ModelledRadValveInputState :=
  let referenceTempC16 := to_i16 (currentTempC16 + refTempOffsetC16) in
  {| targetTempC := targetTempC inp; minPCOpen := minPCOpen inp;
     maxPCOpen := maxPCOpen inp; widenDeadband := widenDeadband inp;
     glacial := glacial inp; hasEcoBias := hasEcoBias inp;
     inBakeMode := inBakeMode inp; refTempC16 := referenceTempC16 |}.

(** [int ModelledRadValveState::getSmoothedRecent()]. *)
Definition getSmoothedRecent (cfg : Config) (rs : ModelledRadValveState)
  : Z :=
  smallIntMean cfg (prevRawTempC16 rs).

(** Modelled from the spec: [getRawDelta()], the "raw trend", is declared in
    the class header: the latest raw sample minus the one before it. *)
Definition getRawDelta (rs : ModelledRadValveState) : Z :=
  to_i16 (nth 0 (prevRawTempC16 rs) 0 - nth 1 (prevRawTempC16 rs) 0).

(** Modelled from the spec: the hysteresis members are declared in the class
    header. 'Hysteresis timers ("dontTurnup"/"dontTurndown") are set for a
    fixed number of ticks whenever a move inp made in the opposite
    direction': a turn-down loads the countdown that defers turning up, a
    turn-up the one that defers turning down, and each query is true while
    its countdown runs. *)
Definition valveTurndown (cfg : Config) (rs : ModelledRadValveState)
  : ModelledRadValveState :=
  {| initialised := initialised rs; isFiltering := isFiltering rs;
     valveMoved := valveMoved rs;
     cumulativeMovementPC := cumulativeMovementPC rs;
     valveTurndownCountdownM :=
       to_u8 (DEFAULT_ANTISEEK_VALVE_REOPEN_DELAY_M cfg);
     valveTurnupCountdownM := valveTurnupCountdownM rs;
     prevRawTempC16 := prevRawTempC16 rs |}.

Definition valveTurnup (cfg : Config) (rs : ModelledRadValveState)
  : ModelledRadValveState :=
  {| initialised := initialised rs; isFiltering := isFiltering rs;
     valveMoved := valveMoved rs;
     cumulativeMovementPC := cumulativeMovementPC rs;
     valveTurndownCountdownM := valveTurndownCountdownM rs;
     valveTurnupCountdownM :=
       to_u8 (DEFAULT_ANTISEEK_VALVE_RECLOSE_DELAY_M cfg);
     prevRawTempC16 := prevRawTempC16 rs |}.

Definition dontTurnup (rs : ModelledRadValveState) : bool :=
  negb (0 =? valveTurndownCountdownM rs).

Definition dontTurndown (rs : ModelledRadValveState) : bool :=
  negb (0 =? valveTurnupCountdownM rs).

(** The temperature that [computeRequiredTRVPercentOpen] steers by, in
    16ths and in whole degrees ([int8_t]). *)
Definition adjustedTempC16 (cfg : Config) (inp : ModelledRadValveInputState)
           (rs : ModelledRadValveState) : Z :=
  if isFiltering rs
  then to_i16 (getSmoothedRecent cfg rs + refTempOffsetC16)
  else refTempC16 inp.

Definition adjustedTempC (cfg : Config) (inp : ModelledRadValveInputState)
           (rs : ModelledRadValveState) : Z :=
  to_i8 (Z.shiftr (adjustedTempC16 cfg inp rs) 4).


(** [uint8_t ModelledRadValve::computeRequiredTRVPercentOpen(valvePCOpen,
    inputState, retainedState)]. The retained state is only read. *)
Definition computeRequiredTRVPercentOpen (cfg : Config) (valvePCOpen : Z)
           (inp : ModelledRadValveInputState) (rs : ModelledRadValveState)
  : Z :=
  let adjustedTempC16 := adjustedTempC16 cfg inp rs in
  let adjustedTempC := adjustedTempC cfg inp rs in
  if adjustedTempC <? targetTempC inp then
    (* (Well) under temp target: open valve up. *)
    if valvePCOpen <? maxPCOpen inp then
      if inBakeMode inp then maxPCOpen inp
      else if dontTurnup rs then valvePCOpen
      else
        let beGlacial :=
          glacial inp
          || ((valvePCOpen >=? minPCOpen inp)
              && ((widenDeadband inp && hasEcoBias inp
                   && (adjustedTempC >=?
                       to_u8 (fnmax (targetTempC inp - SETBACK_FULL cfg)
                                    (MIN_TARGET_C cfg))))
                  || (isFiltering rs && (getRawDelta rs >? 0)))) in
        if beGlacial then to_u8 (valvePCOpen + 1)
        else
          let slewRate :=
            to_u8 (if (valvePCOpen >=? DEFAULT_VALVE_PC_MODERATELY_OPEN cfg)
                      || (adjustedTempC =? targetTempC inp - 1)
                   then TRV_MAX_SLEW_PC_PER_MIN
                   else TRV_SLEW_PC_PER_MIN_FAST) in
          let minOpenFromCold := fnmax slewRate (minPCOpen inp) in
          if valvePCOpen <? minOpenFromCold then minOpenFromCold
          else fnmin (to_u8 (valvePCOpen + slewRate)) (maxPCOpen inp)
    else maxPCOpen inp
  else if adjustedTempC >? targetTempC inp then
    (* (Well) over temp target: close valve down. *)
    if negb (0 =? valvePCOpen) then
      if dontTurndown rs then valvePCOpen
      else
        let justOverTemp := adjustedTempC =? targetTempC inp + 1 in
        if justOverTemp && widenDeadband inp && (getRawDelta rs <? 0)
        then valvePCOpen
        else if justOverTemp && isFiltering rs then to_u8 (valvePCOpen - 1)
        else
          let minReallyOpen := minPCOpen inp in
          let lingerThreshold :=
            to_u8 (if minReallyOpen >? 0 then minReallyOpen - 1 else 0) in
          if valvePCOpen <? minReallyOpen then
            if (DEFAULT_MAX_RUN_ON_TIME_M cfg <? minReallyOpen)
               && (valvePCOpen
                   <? minReallyOpen - DEFAULT_MAX_RUN_ON_TIME_M cfg)
            then 0
            else to_u8 (valvePCOpen - 1)
          else if (negb (hasEcoBias inp) || justOverTemp || isFiltering rs)
                  && (valvePCOpen >?
                      constrain (lingerThreshold + TRV_SLEW_PC_PER_MIN_FAST)
                                TRV_SLEW_PC_PER_MIN_FAST (maxPCOpen inp))
          then to_u8 (valvePCOpen - TRV_SLEW_PC_PER_MIN_FAST)
          else lingerThreshold
    else 0
  else
    (* Close to (or at) temp target: proportional band. *)
    let lsbits := to_u8 (Z.land adjustedTempC16 15) in
    let tmp := to_u8 (16 - lsbits) in
    let ulpStep := 6 in
    let targetPORaw := to_u8 (tmp * ulpStep) in
    let targetPO :=
      to_u8 (constrain targetPORaw (minPCOpen inp) (maxPCOpen inp)) in
    if negb (targetPO =? valvePCOpen) then
      let tooOpen := targetPO <? valvePCOpen in
      let realMinUlp := to_u8 (1 + ulpStep) in
      let minAbsSlew :=
        fnmax realMinUlp
          (to_u8 (if widenDeadband inp
                  then Z.max
                         (Z.min
                            (Z.quot (DEFAULT_VALVE_PC_MODERATELY_OPEN cfg) 2)
                            (Z.max TRV_MAX_SLEW_PC_PER_MIN
                                   (2 * TRV_MIN_SLEW_PC)))
                         (2 + TRV_MIN_SLEW_PC)
                  else TRV_MIN_SLEW_PC)) in
      if tooOpen then
        let slew := to_u8 (valvePCOpen - targetPO) in
        if slew <? minAbsSlew then valvePCOpen
        else if dontTurndown rs then valvePCOpen
        else if getRawDelta rs <=? 0 then valvePCOpen
        else
          let beGlacial :=
            glacial inp
            || ((widenDeadband inp || isFiltering rs)
                && (valvePCOpen <=? DEFAULT_VALVE_PC_MODERATELY_OPEN cfg))
            || (lsbits <? 8) in
          if beGlacial then to_u8 (valvePCOpen - 1)
          else if slew >? TRV_SLEW_PC_PER_MIN_FAST
               then to_u8 (valvePCOpen - TRV_SLEW_PC_PER_MIN_FAST)
               else targetPO
      else
        if inBakeMode inp then maxPCOpen inp
        else
          let slew := to_u8 (targetPO - valvePCOpen) in
          if slew <? minAbsSlew then valvePCOpen
          else if dontTurnup rs then valvePCOpen
          else
            let rise := getRawDelta rs in
            if rise >? 0 then valvePCOpen
            else if lsbits >=? (if widenDeadband inp then 8 else 12)
                 then valvePCOpen
            else
              let beGlacial :=
                glacial inp || widenDeadband inp || (lsbits >=? 8)
                || ((lsbits >=? 4)
                    && (valvePCOpen
                        >=? DEFAULT_VALVE_PC_MODERATELY_OPEN cfg)) in
              if beGlacial then to_u8 (valvePCOpen + 1)
              else
                let maxSlew :=
                  to_u8 (if negb (hasEcoBias inp)
                         then TRV_SLEW_PC_PER_MIN_FAST
                         else TRV_MAX_SLEW_PC_PER_MIN) in
                if slew >? maxSlew then to_u8 (valvePCOpen + maxSlew)
                else targetPO
    else valvePCOpen.

(** The controller object: the valve position [value], the retained state,
    the input state and the calling-for-heat flag. *)
Record ModelledRadValve := {
  value : Z;
  inputState : ModelledRadValveInputState;
  retainedState : ModelledRadValveState;
  callingForHeat : bool
}.

(** [void ModelledRadValve::computeTargetTemperature()]. *)
Definition computeTargetTemperature (cfg : Config) (env : Target.Env)
           (rv : ModelledRadValve) : ModelledRadValve :=
  let newTarget := Target.computeTargetTemp cfg env in
  let inp0 :=
    {| targetTempC := newTarget;
       minPCOpen := Target.getMinPercentOpen env;
       maxPCOpen := Target.getMaxPercentageOpenAllowed env;
       glacial := Target.glacial_setting env;
       inBakeMode := Target.inBakeMode env;
       hasEcoBias := Target.hasEcoBias cfg env;
       widenDeadband :=
         Target.AmbLight_isRoomDark env
         || Target.Occupancy_longVacant env
         || negb (Target.inWarmMode env)
         || isFiltering (retainedState rv);
       refTempC16 := refTempC16 (inputState rv) |} in
  let inp1 := setReferenceTemperatures inp0 (Target.TemperatureC16_get env) in
  {| value := value rv;
     inputState := inp1;
     retainedState := retainedState rv;
     callingForHeat := newTarget >=? Z.shiftr (refTempC16 inp1) 4 |}.

(** The three loops of [tick] over the raw-temperature history. *)
Definition fillHistory (cfg : Config) (rawTempC16 : Z) : list Z :=
  repeat rawTempC16 (filterLength cfg).

Definition shiftIn (rawTempC16 : Z) (prev : list Z) : list Z :=
  match prev with
  | [] => []
  | _ :: _ => rawTempC16 :: removelast prev
  end.

Fixpoint anyAdjacentJump (prev : list Z) : bool :=
  match prev with
  | a :: ((b :: _) as rest) =>
      if Z.abs (to_i16 (b - a)) >? MAX_TEMP_JUMP_C16 then true
      else anyAdjacentJump rest
  | _ => false
  end.

(** The first part of [ModelledRadValveState::tick]: lazy initialisation,
    shifting in the latest raw temperature, switching the filter and
    running down the two hysteresis countdowns. The result is the state
    that [computeRequiredTRVPercentOpen] is then called with. *)
Definition tickPrepare (cfg : Config) (rs : ModelledRadValveState)
           (inp : ModelledRadValveInputState) : ModelledRadValveState :=
  let rawTempC16 := to_i16 (refTempC16 inp - refTempOffsetC16) in
  let prev0 :=
    if negb (initialised rs) then fillHistory cfg rawTempC16
    else prevRawTempC16 rs in
  let prev1 := shiftIn rawTempC16 prev0 in
  let shifted :=
    {| initialised := true; isFiltering := isFiltering rs;
       valveMoved := valveMoved rs;
       cumulativeMovementPC := cumulativeMovementPC rs;
       valveTurndownCountdownM := valveTurndownCountdownM rs;
       valveTurnupCountdownM := valveTurnupCountdownM rs;
       prevRawTempC16 := prev1 |} in
  let filt1 :=
    if isFiltering rs then
      if Z.abs (to_i16 (getSmoothedRecent cfg shifted - rawTempC16))
         <=? MAX_TEMP_JUMP_C16
      then false else true
    else false in
  let filt2 := if negb filt1 then anyAdjacentJump prev1 else filt1 in
  let down1 :=
    if valveTurndownCountdownM rs >? 0
    then to_u8 (valveTurndownCountdownM rs - 1)
    else valveTurndownCountdownM rs in
  let up1 :=
    if valveTurnupCountdownM rs >? 0
    then to_u8 (valveTurnupCountdownM rs - 1)
    else valveTurnupCountdownM rs in
  {| initialised := true; isFiltering := filt2;
     valveMoved := valveMoved rs;
     cumulativeMovementPC := cumulativeMovementPC rs;
     valveTurndownCountdownM := down1;
     valveTurnupCountdownM := up1;
     prevRawTempC16 := prev1 |}.

(** [void ModelledRadValveState::tick(volatile uint8_t &valvePCOpenRef,
    const ModelledRadValveInputState &inputState)]: the valve position and
    the retained state afterwards. *)
Definition tick (cfg : Config) (valvePCOpenRef : Z)
           (rs : ModelledRadValveState) (inp : ModelledRadValveInputState)
  : Z * ModelledRadValveState :=
  let rs1 := tickPrepare cfg rs inp in
  let newValvePC := computeRequiredTRVPercentOpen cfg valvePCOpenRef inp rs1 in
  let changed := negb (newValvePC =? valvePCOpenRef) in
  let moved (r : ModelledRadValveState) (cumulative : Z) :=
    {| initialised := initialised r; isFiltering := isFiltering r;
       valveMoved := changed;
       cumulativeMovementPC := cumulative;
       valveTurndownCountdownM := valveTurndownCountdownM r;
       valveTurnupCountdownM := valveTurnupCountdownM r;
       prevRawTempC16 := prevRawTempC16 r |} in
  if changed then
    if newValvePC >? valvePCOpenRef
    then (newValvePC,
          moved (valveTurnup cfg rs1)
                (to_u16 (cumulativeMovementPC rs1
                         + (newValvePC - valvePCOpenRef))))
    else (newValvePC,
          moved (valveTurndown cfg rs1)
                (to_u16 (cumulativeMovementPC rs1
                         + (valvePCOpenRef - newValvePC))))
  else (valvePCOpenRef, moved rs1 (cumulativeMovementPC rs1)).

(** Inputs that [computeRequiredTRVPercentOpen] is documented to expect
    ("all inputState values should be set to sensible values", the valve
    position "in range [0,100]"): percentages, with the limits in order and
    the upper limit no smaller than the fast slew rate. *)
Definition limits (inp : ModelledRadValveInputState) : Prop :=
  0 <= minPCOpen inp <= maxPCOpen inp
  /\ TRV_SLEW_PC_PER_MIN_FAST <= maxPCOpen inp <= 100.

Definition sensible (valvePCOpen : Z) (inp : ModelledRadValveInputState)
  : Prop :=
  0 <= valvePCOpen <= 100 /\ limits inp.

(** The input states of a run: sensible limits, one common upper limit. *)
Definition steady (M : Z) (inp : ModelledRadValveInputState) : Prop :=
  limits inp /\ maxPCOpen inp = M.

(** Successive ticks, one per input state: no tick of the run closes
    (resp. opens) the valve. *)
Fixpoint never_closes (cfg : Config) (valvePCOpen : Z)
         (rs : ModelledRadValveState)
         (inps : list ModelledRadValveInputState) : Prop :=
  match inps with
  | [] => True
  | inp :: rest =>
      valvePCOpen <= fst (tick cfg valvePCOpen rs inp)
      /\ never_closes cfg (fst (tick cfg valvePCOpen rs inp))
                      (snd (tick cfg valvePCOpen rs inp)) rest
  end.

Fixpoint never_opens (cfg : Config) (valvePCOpen : Z)
         (rs : ModelledRadValveState)
         (inps : list ModelledRadValveInputState) : Prop :=
  match inps with
  | [] => True
  | inp :: rest =>
      fst (tick cfg valvePCOpen rs inp) <= valvePCOpen
      /\ never_opens cfg (fst (tick cfg valvePCOpen rs inp))
                     (snd (tick cfg valvePCOpen rs inp)) rest
  end.

(** The valve positions after each tick of a run. *)
Fixpoint positions (cfg : Config) (valvePCOpen : Z)
         (rs : ModelledRadValveState)
         (inps : list ModelledRadValveInputState) : list Z :=
  match inps with
  | [] => []
  | inp :: rest =>
      fst (tick cfg valvePCOpen rs inp)
      :: positions cfg (fst (tick cfg valvePCOpen rs inp))
                   (snd (tick cfg valvePCOpen rs inp)) rest
  end.

End Valve.

(** ** Concrete data for running the model

    A configuration with the customary values of a V0p2 build, and a
    statistics store, used to evaluate the definitions on explicit inputs. *)

Module Sample.

(** Rounded mean of the samples, in 16-bit [int] arithmetic. *)
Definition mean (l : list Z) : Z :=
  let n := Z.of_nat (length l) in
  to_i16 (Z.quot (to_i16 (fold_left (fun a x => to_i16 (a + x)) l 0
                          + Z.quot n 2)) n).

Definition cfg : Config :=
  {| MIN_TARGET_C := 5; MAX_TARGET_C := 95;
     BIASECO_WARM := 17; BIASCOM_WARM := 21;
     BAKE_UPLIFT := 5;
     SETBACK_DEFAULT := 1; SETBACK_ECO := 2; SETBACK_FULL := 3;
     isEcoTemperature := fun t => t <=? 17;
     DEFAULT_VALVE_PC_MODERATELY_OPEN := 35;
     DEFAULT_MAX_RUN_ON_TIME_M := 5;
     DEFAULT_ANTISEEK_VALVE_REOPEN_DELAY_M := 10;
     DEFAULT_ANTISEEK_VALVE_RECLOSE_DELAY_M := 5;
     OCCUPATION_TIMEOUT_M := 50; OCCUPATION_TIMEOUT_1_M := 33;
     filterLength := 16;
     smallIntMean := mean;
     EE_STATS_SETS := 12; EE_START_STATS := 256; EE_STATS_SET_SIZE := 24;
     EE_STATS_SET_OCCPC_BY_HOUR_SMOOTHED := 5 |}.

(** A statistics store that holds only 19 of the 24 hourly values of set 5
    (hours 0..17 read 0, hour 18 reads 5); every other byte of the EEPROM is
    erased (0xFF). *)
Definition partial_store : Stats.EEPROM :=
  fun a => if (376 <=? a) && (a <? 394) then 0
           else if a =? 394 then 5 else 255.

(** The same with high values: hours 0..17 read 200, hour 18 reads 7. *)
Definition partial_store_high : Stats.EEPROM :=
  fun a => if (376 <=? a) && (a <? 394) then 200
           else if a =? 394 then 7 else 255.

(** WARM mode, no BAKE, WARM target 20 C, FROST target 5 C, room long
    vacant, no statistics yet. *)
Definition env : Target.Env :=
  {| Target.isWarmMode := true; Target.bakeCountdownM := 0;
     Target.getWARMTargetC := 20; Target.getFROSTTargetC := 5;
     Target.Occupancy_longVacant := true;
     Target.Occupancy_longLongVacant := false;
     Target.Occupancy_isLikelyUnoccupied := true;
     Target.Occupancy_isLikelyOccupied := false;
     Target.isAnyScheduleOnWARMSoon := false;
     Target.isAnyScheduleOnWARMNow := false;
     Target.recentUIControlUse := false;
     Target.AmbLight_getDarkMinutes := 30;
     Target.AmbLight_isRoomLit := false;
     Target.AmbLight_isRoomDark := true;
     Target.eeprom := fun _ => 255;
     Target.getHoursLT := 7;
     Target.TemperatureC16_get := 300;
     Target.getMinPercentOpen := 10;
     Target.getMaxPercentageOpenAllowed := 100;
     Target.glacial_setting := false |}.

(** A tracker half-way through its occupation countdown. *)
Definition tracker : Occupancy.OccupancyTracker :=
  {| Occupancy.value := 0; Occupancy.occupationCountdownM := 20;
     Occupancy.activityCountdownM := 0;
     Occupancy.vacancyM := 0; Occupancy.vacancyH := 0 |}.

(** A valve at rest: history not yet initialised, no timers running. *)
Definition rest : Valve.ModelledRadValveState :=
  {| Valve.initialised := false; Valve.isFiltering := false;
     Valve.valveMoved := false; Valve.cumulativeMovementPC := 0;
     Valve.valveTurndownCountdownM := 0;
     Valve.valveTurnupCountdownM := 0;
     Valve.prevRawTempC16 := [] |}.

(** Input state with the usual limits (10% and 100%) and an eco bias;
    [target] is in whole degrees, [ref] the reference temperature in
    16ths. *)
Definition input (target ref : Z) (bake : bool)
  : Valve.ModelledRadValveInputState :=
  {| Valve.targetTempC := target; Valve.minPCOpen := 10;
     Valve.maxPCOpen := 100;
     Valve.widenDeadband := false; Valve.glacial := false;
     Valve.hasEcoBias := true; Valve.inBakeMode := bake;
     Valve.refTempC16 := ref |}.

Definition valve : Valve.ModelledRadValve :=
  {| Valve.value := 0; Valve.inputState := input 0 0 false;
     Valve.retainedState := rest; Valve.callingForHeat := false |}.

End Sample.

(** ** Further constants of the headers

    Addresses, defaults and set numbers that the remaining functions of
    [Control.cpp] use and that the headers define; parameters like those of
    [Config]. *)

Record Settings := {
  EE_END_STATS : Z;
  EE_START_FROST_C : Z;
  EE_START_WARM_C : Z;
  EE_START_MIN_BOILER_ON_MINS_INV : Z;
  EE_START_MIN_VALVE_PC_REALLY_OPEN : Z;
  DEFAULT_MIN_VALVE_PC_REALLY_OPEN : Z;
  FROST : Z;
  WARM : Z;
  BAKE_MAX_M : Z;
  EE_STATS_SET_AMBLIGHT_BY_HOUR_SMOOTHED : Z;
  EE_STATS_SET_WARMMODE_BY_HOUR_OF_WK : Z;
  EE_STATS_SET_TEMP_BY_HOUR_SMOOTHED : Z
}.

(** ** EEPROM writes *)

Module Eeprom.

Import Stats.

(** Modelled from the spec: [eeprom_smart_update_byte] of the EEPROM helper
    header, "updateByteIfChanged(address, value)": afterwards the byte at
    the address holds the value, every other byte is as before. *)
Definition eeprom_smart_update_byte (ee : EEPROM) (p value : Z) : EEPROM :=
  fun a => if a =? p then to_u8 value else ee a.

(** Modelled from the spec: [eeprom_smart_erase_byte] of the EEPROM helper
    header, "eraseByte(address) -> bool": the byte is erased to 0xFF, and
    the result tells whether an erase was needed (the byte "actually needs
    erasing", in the words of [zapStats]). *)
Definition eeprom_smart_erase_byte (ee : EEPROM) (p : Z) : bool * EEPROM :=
  (negb (ee p =? 255), fun a => if a =? p then 255 else ee a).

End Eeprom.

(** ** Statistics: recording and erasing *)

Module StatsStore.

Import Stats Eeprom.

(** [static uint8_t smartDivToU8(uint16_t total, uint8_t sampleCount)] in
    the build with [STATS_MAX_2_SAMPLES]. *)
Definition smartDivToU8 (total sampleCount : Z) : Z :=
  if 1 =? sampleCount then to_u8 total
  else to_u8 (Z.shiftr (to_u16 (total + 1)) 1).

(** [static void simpleUpdateStatsPair_(uint8_t *lastEEPtr, uint8_t value)];
    [rnd] is the random byte drawn if the smoothed value is folded. *)
Definition simpleUpdateStatsPair_ (ee : EEPROM) (lastEEPtr value rnd : Z)
  : EEPROM :=
  let ee1 := eeprom_smart_update_byte ee lastEEPtr value in
  let pS := lastEEPtr + 24 in
  let smoothed := ee1 pS in
  if 255 =? smoothed then eeprom_smart_update_byte ee1 pS value
  else eeprom_smart_update_byte ee1 pS
         (Smooth.smoothStatsValue smoothed value rnd).

(** [uint8_t getByHourStat(uint8_t hh, uint8_t statsSet)]. *)
Definition getByHourStat (cfg : Config) (st : Settings) (ee : EEPROM)
           (hh statsSet : Z) : Z :=
  if statsSet >? Z.quot (EE_END_STATS st - EE_START_STATS cfg)
                        (EE_STATS_SET_SIZE cfg)
  then to_u8 255
  else if hh >? 23 then to_u8 255
  else ee (EE_START_STATS cfg + statsSet * EE_STATS_SET_SIZE cfg + hh).

(** The loop of [zapStats] from address [p] with [n] addresses to go:
    whether it ran to the end, and the EEPROM afterwards. *)
Fixpoint zapStats_loop (n : nat) (ee : EEPROM) (p maxBytesToErase : Z)
  : bool * EEPROM :=
  match n with
  | O => (true, ee)
  | S n' =>
      let '(erased, ee1) := eeprom_smart_erase_byte ee p in
      if erased then
        let budget := to_u16 (maxBytesToErase - 1) in
        if budget =? 0 then (false, ee1)
        else zapStats_loop n' ee1 (p + 1) budget
      else zapStats_loop n' ee1 (p + 1) maxBytesToErase
  end.

(** Number of addresses in [EE_START_STATS .. EE_END_STATS]. *)
Definition stats_bytes (cfg : Config) (st : Settings) : nat :=
  Z.to_nat (EE_END_STATS st - EE_START_STATS cfg + 1).

(** [bool zapStats(uint16_t maxBytesToErase)]. *)
Definition zapStats (cfg : Config) (st : Settings) (ee : EEPROM)
           (maxBytesToErase : Z) : bool * EEPROM :=
  zapStats_loop (stats_bytes cfg st) ee (EE_START_STATS cfg) maxBytesToErase.

(** How many of the [n] bytes from [a] still need erasing. *)
Definition set_bytes (ee : EEPROM) (a : Z) (n : nat) : Z :=
  Z.of_nat (length (filter (fun v => negb (v =? 255)) (span ee a n))).

(** The erase allowance that an argument stands for: "strictly positive,
    else 0 to allow 65536". *)
Definition allowance (maxBytesToErase : Z) : Z :=
  if maxBytesToErase =? 0 then 65536 else maxBytesToErase.

(** Calling [zapStats] [k] times in a row with the same allowance: the
    result of the last call (or [false] if none was made) and the EEPROM. *)
Fixpoint zapStats_repeat (cfg : Config) (st : Settings) (k : nat)
         (ee : EEPROM) (maxBytesToErase : Z) : bool * EEPROM :=
  match k with
  | O => (false, ee)
  | S O => zapStats cfg st ee maxBytesToErase
  | S k' =>
      zapStats_repeat cfg st k'
        (snd (zapStats cfg st ee maxBytesToErase)) maxBytesToErase
  end.

(** [bool shouldBeWarmedAtHour(uint_least8_t hh)], with both the light and
    the occupancy tests compiled in; [warmTargetC] is what
    [getWARMTargetC()] returns and [hoursLT] what [getHoursLT()] returns. *)
Definition shouldBeWarmedAtHour (cfg : Config) (st : Settings) (ee : EEPROM)
           (hoursLT warmTargetC hh : Z) : bool :=
  if inOutlierQuartile cfg ee hoursLT false
       (EE_STATS_SET_AMBLIGHT_BY_HOUR_SMOOTHED st) hh
  then false
  else if inOutlierQuartile cfg ee hoursLT false
            (EE_STATS_SET_OCCPC_BY_HOUR_SMOOTHED cfg) hh
  then false
  else
    let warmHistory :=
      ee (EE_STATS_START_ADDR cfg (EE_STATS_SET_WARMMODE_BY_HOUR_OF_WK st)
          + hh) in
    if (0 =? Z.land 128 warmHistory)
       && negb (0 =? Z.land 65 warmHistory)
       && negb (0 =? Z.land 62 warmHistory)
    then true
    else
      let smoothedTempHHNext :=
        Codec.expandTempC16
          (ee (EE_STATS_START_ADDR cfg
                 (EE_STATS_SET_TEMP_BY_HOUR_SMOOTHED st) + hh)) in
      if negb (STATS_UNSET_INT =? smoothedTempHHNext)
         && (Z.shiftr (to_i16 (smoothedTempHHNext + 8)) 4 >=? warmTargetC)
      then true
      else false.

End StatsStore.

(** ** Persistent settings *)

Module Persist.

Import Stats Eeprom.

(** [uint8_t getMinBoilerOnMinutes()]: the byte is stored inverted. *)
Definition getMinBoilerOnMinutes (st : Settings) (ee : EEPROM) : Z :=
  to_u8 (Z.lnot (ee (EE_START_MIN_BOILER_ON_MINS_INV st))).

(** [void setMinBoilerOnMinutes(uint8_t mins)]. *)
Definition setMinBoilerOnMinutes (st : Settings) (ee : EEPROM) (mins : Z)
  : EEPROM :=
  eeprom_smart_update_byte ee (EE_START_MIN_BOILER_ON_MINS_INV st)
    (Z.lnot mins).

(** The stored override of the minimum really-open percentage, or the
    default when the byte is out of range: the value that
    [getMinValvePcReallyOpen] computes when its cache is empty. *)
Definition storedMinValvePc (st : Settings) (ee : EEPROM) : Z :=
  let stored := ee (EE_START_MIN_VALVE_PC_REALLY_OPEN st) in
  to_u8 (if (stored >? 0) && (stored <=? 100) then stored
         else DEFAULT_MIN_VALVE_PC_REALLY_OPEN st).

(** [uint8_t ModelledRadValve::getMinValvePcReallyOpen()]: the result and
    the cache [mVPRO_cache] afterwards. *)
Definition getMinValvePcReallyOpen (st : Settings) (ee : EEPROM)
           (mVPRO_cache : Z) : Z * Z :=
  if negb (0 =? mVPRO_cache) then (mVPRO_cache, mVPRO_cache)
  else (storedMinValvePc st ee, storedMinValvePc st ee).

(** [void ModelledRadValve::setMinValvePcReallyOpen(uint8_t percent)]: the
    EEPROM and the cache afterwards (the previous cache is overwritten on
    both paths). *)
Definition setMinValvePcReallyOpen (st : Settings) (ee : EEPROM)
           (percent : Z) : EEPROM * Z :=
  if (percent >? 100) || (percent =? 0)
     || (percent =? DEFAULT_MIN_VALVE_PC_REALLY_OPEN st)
  then (snd (eeprom_smart_erase_byte ee
               (EE_START_MIN_VALVE_PC_REALLY_OPEN st)),
        to_u8 (DEFAULT_MIN_VALVE_PC_REALLY_OPEN st))
  else (eeprom_smart_update_byte ee (EE_START_MIN_VALVE_PC_REALLY_OPEN st)
          percent,
        percent).

(** The target getters and setters of the build with
    [SETTABLE_TARGET_TEMPERATURES] and without [TEMP_POT_AVAILABLE]
    (and without the unit-test override). *)
Definition getFROSTTargetC (cfg : Config) (st : Settings) (ee : EEPROM)
  : Z :=
  let stored := ee (EE_START_FROST_C st) in
  if (stored <? MIN_TARGET_C cfg) || (stored >? MAX_TARGET_C cfg)
  then to_u8 (FROST st)
  else stored.

Definition getWARMTargetC (cfg : Config) (st : Settings) (ee : EEPROM)
  : Z :=
  let stored := ee (EE_START_WARM_C st) in
  if (stored <? MIN_TARGET_C cfg) || (stored >? MAX_TARGET_C cfg)
  then fnmax (to_u8 (WARM st)) (getFROSTTargetC cfg st ee)
  else fnmax stored (getFROSTTargetC cfg st ee).

(** [bool setFROSTTargetC(uint8_t tempC)]. *)
Definition setFROSTTargetC (cfg : Config) (st : Settings) (ee : EEPROM)
           (tempC : Z) : bool * EEPROM :=
  if (tempC <? MIN_TARGET_C cfg) || (tempC >? MAX_TARGET_C cfg)
  then (false, ee)
  else if tempC >? getWARMTargetC cfg st ee then (false, ee)
  else (true, eeprom_smart_update_byte ee (EE_START_FROST_C st) tempC).

(** [bool setWARMTargetC(uint8_t tempC)]. *)
Definition setWARMTargetC (cfg : Config) (st : Settings) (ee : EEPROM)
           (tempC : Z) : bool * EEPROM :=
  if (tempC <? MIN_TARGET_C cfg) || (tempC >? MAX_TARGET_C cfg)
  then (false, ee)
  else if tempC <? getFROSTTargetC cfg st ee then (false, ee)
  else (true, eeprom_smart_update_byte ee (EE_START_WARM_C st) tempC).

End Persist.

(** ** WARM target from the temperature pot ([TEMP_POT_AVAILABLE]) *)

Module Pot.

Definition TEMP_SCALE_MIN (cfg : Config) : Z := BIASECO_WARM cfg - 1.
Definition TEMP_SCALE_MAX (cfg : Config) : Z := BIASCOM_WARM cfg + 1.

(** The loop [for(uint8_t ppot = band<<1; ppot < pot; ++result)
    { ppot += band; }] from the state [(ppot, result)]; [None] if it is
    still running when the fuel is used up. *)
Fixpoint warmLoop (fuel : nat) (band pot ppot result : Z) : option Z :=
  if ppot <? pot then
    match fuel with
    | O => None
    | S fuel' =>
        warmLoop fuel' band pot (to_u8 (ppot + band)) (to_u8 (result + 1))
    end
  else Some result.

(** [uint8_t computeWARMTargetC(const uint8_t pot)]. A byte counter cannot
    take more than 256 values, so 256 units of fuel are enough whenever
    the loop ends at all. *)
Definition computeWARMTargetC (cfg : Config) (pot : Z) : option Z :=
  let range := to_u8 (TEMP_SCALE_MAX cfg - TEMP_SCALE_MIN cfg + 1) in
  let band := to_u8 (Z.quot 256 range) in
  if pot >=? 256 - band then Some (to_u8 (TEMP_SCALE_MAX cfg))
  else if pot <? band then Some (to_u8 (TEMP_SCALE_MIN cfg))
  else if range <? 10 then
    warmLoop 256 band pot (to_u8 (Z.shiftl band 1))
             (to_u8 (TEMP_SCALE_MIN cfg + 1))
  else Some (to_u8 (Z.quot pot band + TEMP_SCALE_MIN cfg)).

(** [uint8_t getWARMTargetC()] of the pot build (without the unit-test
    override): [pot] is what [TempPot.get()] returns, the pair is the
    static cache [(potLast, resultLast)]. *)
Definition getWARMTargetC (cfg : Config) (pot : Z) (cache : Z * Z)
  : option (Z * (Z * Z)) :=
  let '(potLast, resultLast) := cache in
  if negb (potLast =? pot) || (0 =? resultLast) then
    match computeWARMTargetC cfg pot with
    | Some result => Some (result, (pot, result))
    | None => None
    end
  else Some (resultLast, cache).

(** The scales this mapping is sound for: a byte scale of at most 19
    degrees, comfort end above eco end. *)
Definition scale_ok (cfg : Config) : Prop :=
  1 <= BIASECO_WARM cfg /\ BIASECO_WARM cfg <= BIASCOM_WARM cfg
  /\ BIASCOM_WARM cfg <= BIASECO_WARM cfg + 16
  /\ BIASCOM_WARM cfg <= 254.

End Pot.

(** ** Operating mode and the per-minute entry point *)

Module Heat.

Import Target Valve.

(** The environment with the two mode variables [isWarmMode] and
    [bakeCountdownM] replaced. *)
Definition withMode (env : Env) (warm : bool) (bake : Z) : Env :=
  {| isWarmMode := warm;
     bakeCountdownM := bake;
     getWARMTargetC := getWARMTargetC env;
     getFROSTTargetC := getFROSTTargetC env;
     Occupancy_longVacant := Occupancy_longVacant env;
     Occupancy_longLongVacant := Occupancy_longLongVacant env;
     Occupancy_isLikelyUnoccupied := Occupancy_isLikelyUnoccupied env;
     Occupancy_isLikelyOccupied := Occupancy_isLikelyOccupied env;
     isAnyScheduleOnWARMSoon := isAnyScheduleOnWARMSoon env;
     isAnyScheduleOnWARMNow := isAnyScheduleOnWARMNow env;
     recentUIControlUse := recentUIControlUse env;
     AmbLight_getDarkMinutes := AmbLight_getDarkMinutes env;
     AmbLight_isRoomLit := AmbLight_isRoomLit env;
     AmbLight_isRoomDark := AmbLight_isRoomDark env;
     eeprom := eeprom env;
     getHoursLT := getHoursLT env;
     TemperatureC16_get := TemperatureC16_get env;
     getMinPercentOpen := getMinPercentOpen env;
     getMaxPercentageOpenAllowed := getMaxPercentageOpenAllowed env;
     glacial_setting := glacial_setting env |}.

(** [void cancelBakeDebounced()]. *)
Definition cancelBakeDebounced (env : Env) : Env :=
  withMode env (isWarmMode env) 0.

(** [void setWarmModeDebounced(const bool warm)]. *)
Definition setWarmModeDebounced (env : Env) (warm : bool) : Env :=
  let env1 := withMode env warm (bakeCountdownM env) in
  if negb warm then cancelBakeDebounced env1 else env1.

(** [void startBakeDebounced()]. *)
Definition startBakeDebounced (st : Settings) (env : Env) : Env :=
  withMode env true (to_u8 (BAKE_MAX_M st)).

(** [void ModelledRadValve::computeCallForHeat()]: the mode variables and
    the controller afterwards. *)
Definition computeCallForHeat (cfg : Config) (env : Env)
           (rv : ModelledRadValve) : Env * ModelledRadValve :=
  let env1 :=
    if negb (callingForHeat rv) then withMode env (isWarmMode env) 0
    else if bakeCountdownM env >? 0
         then withMode env (isWarmMode env) (to_u8 (bakeCountdownM env - 1))
         else env in
  let rv1 := computeTargetTemperature cfg env1 rv in
  let t := tick cfg (value rv1) (retainedState rv1) (inputState rv1) in
  (env1,
   {| value := fst t; inputState := inputState rv1;
      retainedState := snd t; callingForHeat := callingForHeat rv1 |}).

(** Successive minutes: each element of [readings] is what the
    collaborators report in that minute; the mode variables and the
    controller are carried from one call of [computeCallForHeat] to the
    next. *)
Fixpoint runMinutes (cfg : Config) (readings : list Env) (warm : bool)
         (bake : Z) (rv : ModelledRadValve)
  : (bool * Z) * ModelledRadValve :=
  match readings with
  | [] => ((warm, bake), rv)
  | e :: rest =>
      let r := computeCallForHeat cfg (withMode e warm bake) rv in
      runMinutes cfg rest (isWarmMode (fst r)) (bakeCountdownM (fst r))
                 (snd r)
  end.

(** Readings under which the valve limits are sensible and the upper limit
    is [M]. *)
Definition limits_reported (M : Z) (env : Env) : Prop :=
  0 <= getMinPercentOpen env <= getMaxPercentageOpenAllowed env
  /\ TRV_SLEW_PC_PER_MIN_FAST <= getMaxPercentageOpenAllowed env <= 100
  /\ getMaxPercentageOpenAllowed env = M.

End Heat.

(** ** The valve under a steady temperature *)

Module Steady.

Import Valve.

(** The proportional target of the last branch of
    [computeRequiredTRVPercentOpen] ([targetPO]). *)
Definition targetPO (cfg : Config) (inp : ModelledRadValveInputState)
           (rs : ModelledRadValveState) : Z :=
  let lsbits := to_u8 (Z.land (adjustedTempC16 cfg inp rs) 15) in
  let tmp := to_u8 (16 - lsbits) in
  let targetPORaw := to_u8 (tmp * 6) in
  to_u8 (constrain targetPORaw (minPCOpen inp) (maxPCOpen inp)).

(** [n] ticks in a row with one and the same input state. *)
Fixpoint ticks (cfg : Config) (n : nat) (valvePCOpen : Z)
         (rs : ModelledRadValveState) (inp : ModelledRadValveInputState)
  : Z * ModelledRadValveState :=
  match n with
  | O => (valvePCOpen, rs)
  | S n' =>
      ticks cfg n' (fst (tick cfg valvePCOpen rs inp))
            (snd (tick cfg valvePCOpen rs inp)) inp
  end.

(** A retained state whose whole history is the raw temperature of the
    input state, with the filter off: the state a steady room leads to. *)
Definition settled (cfg : Config) (inp : ModelledRadValveInputState)
           (rs : ModelledRadValveState) : Prop :=
  initialised rs = true /\ isFiltering rs = false
  /\ prevRawTempC16 rs
     = repeat (to_i16 (refTempC16 inp - refTempOffsetC16)) (filterLength cfg)
  /\ is_u8 (valveTurndownCountdownM rs)
  /\ is_u8 (valveTurnupCountdownM rs).

End Steady.

(** ** Invariants used in the statements below *)

Module Inv.

(** The cache [mVPRO_cache] is either empty (0) or agrees with the
    EEPROM. *)
Definition cache_coherent (st : Settings) (ee : Stats.EEPROM) (cache : Z)
  : Prop :=
  cache = 0 \/ cache = Persist.storedMinValvePc st ee.

(** The cache of the pot build's [getWARMTargetC] is either empty (result
    0) or holds the result for the pot position it holds. *)
Definition pot_cache_coherent (cfg : Config) (cache : Z * Z) : Prop :=
  snd cache = 0 \/ Pot.computeWARMTargetC cfg (fst cache) = Some (snd cache).

(** Default targets of a build within the allowed band, FROST not above
    WARM. *)
Definition targets_ok (cfg : Config) (st : Settings) : Prop :=
  0 <= MIN_TARGET_C cfg /\ MAX_TARGET_C cfg < 256
  /\ MIN_TARGET_C cfg <= FROST st /\ FROST st <= WARM st
  /\ WARM st <= MAX_TARGET_C cfg.

End Inv.

(** ** Minutes without activity *)

Module Runs.

(** [n] calls of [OccupancyTracker::read] in a row, with no call of
    [markAsPossiblyOccupied] in between: the tracker afterwards. *)
Fixpoint reads (cfg : Config) (n : nat) (o : Occupancy.OccupancyTracker)
  : Occupancy.OccupancyTracker :=
  match n with
  | O => o
  | S n' => reads cfg n' (snd (Occupancy.read cfg o))
  end.

End Runs.

(** ** More concrete data *)

Module SampleMore.

(** Addresses and defaults to go with [Sample.cfg]: twelve statistics sets
    of 24 bytes from address 256, the settings bytes below them. *)
Definition settings : Settings :=
  {| EE_END_STATS := 543;
     EE_START_FROST_C := 14; EE_START_WARM_C := 15;
     EE_START_MIN_BOILER_ON_MINS_INV := 16;
     EE_START_MIN_VALVE_PC_REALLY_OPEN := 17;
     DEFAULT_MIN_VALVE_PC_REALLY_OPEN := 10;
     FROST := 5; WARM := 17; BAKE_MAX_M := 30;
     EE_STATS_SET_AMBLIGHT_BY_HOUR_SMOOTHED := 3;
     EE_STATS_SET_WARMMODE_BY_HOUR_OF_WK := 6;
     EE_STATS_SET_TEMP_BY_HOUR_SMOOTHED := 1 |}.

(** An erased EEPROM. *)
Definition erased : Stats.EEPROM := fun _ => 255.

(** A complete set 5 whose hourly values rise from 0 to 23. *)
Definition ramp_store : Stats.EEPROM :=
  fun a => if (376 <=? a) && (a <? 400) then a - 376 else 255.

(** A retained state settled at the raw temperature of
    [Sample.input target ref bake], with the given countdowns. *)
Definition settled_at (ref down up : Z) : Valve.ModelledRadValveState :=
  {| Valve.initialised := true; Valve.isFiltering := false;
     Valve.valveMoved := false; Valve.cumulativeMovementPC := 0;
     Valve.valveTurndownCountdownM := down;
     Valve.valveTurnupCountdownM := up;
     Valve.prevRawTempC16 := repeat (to_i16 (ref - 8)) 16 |}.

End SampleMore.

(** * Properties *)

(** Arithmetic goals with division by a literal: expose quotient and
    remainder, then linear arithmetic. *)
Ltac divlia := Z.to_euclidean_division_equations; lia.

(** Case analysis on every boolean comparison of the goal. *)
Ltac cases_cmp :=
  repeat match goal with
    | |- context [?a <? ?b] => destruct (Z.ltb_spec a b)
    | |- context [?a <=? ?b] => destruct (Z.leb_spec a b)
    | |- context [?a >? ?b] => rewrite (Z.gtb_ltb a b)
    | |- context [?a >=? ?b] => rewrite (Z.geb_leb a b)
    | |- context [?a =? ?b] => destruct (Z.eqb_spec a b)
    end.

Section FixedWidth.

Lemma to_u8_range z : 0 <= to_u8 z < 256.
Proof. unfold to_u8. apply Z.mod_pos_bound. lia. Qed.

Lemma to_u8_small z : 0 <= z < 256 -> to_u8 z = z.
Proof. intros H. unfold to_u8. now apply Z.mod_small. Qed.

Lemma to_u16_small z : 0 <= z < 65536 -> to_u16 z = z.
Proof. intros H. unfold to_u16. now apply Z.mod_small. Qed.

Lemma to_i8_small z : -128 <= z < 128 -> to_i8 z = z.
Proof. intros H. unfold to_i8. rewrite Z.mod_small; lia. Qed.

Lemma to_i16_small z : -32768 <= z < 32768 -> to_i16 z = z.
Proof. intros H. unfold to_i16. rewrite Z.mod_small; lia. Qed.

Lemma to_i8_range z : -128 <= to_i8 z < 128.
Proof.
  unfold to_i8. pose proof (Z.mod_pos_bound (z + 128) 256). lia.
Qed.

Lemma shiftr3 z : Z.shiftr z 3 = z / 8.
Proof. now rewrite Z.shiftr_div_pow2 by lia. Qed.

Lemma shiftr1 z : Z.shiftr z 1 = z / 2.
Proof. now rewrite Z.shiftr_div_pow2 by lia. Qed.

Lemma shiftr4 z : Z.shiftr z 4 = z / 16.
Proof. now rewrite Z.shiftr_div_pow2 by lia. Qed.

Lemma shiftl3 z : Z.shiftl z 3 = z * 8.
Proof. now rewrite Z.shiftl_mul_pow2 by lia. Qed.

Lemma shiftl1 z : Z.shiftl z 1 = z * 2.
Proof. now rewrite Z.shiftl_mul_pow2 by lia. Qed.

End FixedWidth.

(** ** Temperature codec *)

Section CodecFacts.

Import Codec.

Lemma low_threshold : COMPRESSION_C16_LOW_THRESHOLD = 256.
Proof. reflexivity. Qed.

Lemma low_thr_after : COMPRESSION_C16_LOW_THR_AFTER = 32.
Proof. reflexivity. Qed.

Lemma high_threshold : COMPRESSION_C16_HIGH_THRESHOLD = 384.
Proof. reflexivity. Qed.

Lemma high_thr_after : COMPRESSION_C16_HIGH_THR_AFTER = 96.
Proof. reflexivity. Qed.

Lemma ceil_val : COMPRESSION_C16_CEIL_VAL = 1600.
Proof. reflexivity. Qed.

Lemma ceil_val_after : COMPRESSION_C16_CEIL_VAL_AFTER = 248.
Proof. reflexivity. Qed.

Ltac codec_consts :=
  rewrite ?low_threshold, ?low_thr_after, ?high_threshold, ?high_thr_after,
    ?ceil_val, ?ceil_val_after, ?shiftr3, ?shiftr1, ?shiftl3, ?shiftl1.

(** The compressor without the conversions: what each band returns already
    fits a byte. *)
Lemma compressTempC16_eq t :
  compressTempC16 t =
  if t <=? 0 then 0
  else if t <? 256 then t / 8
  else if t <? 384 then (t - 256) / 2 + 32
  else if t <? 1600 then (t - 384) / 8 + 96
  else 248.
Proof.
  unfold compressTempC16. codec_consts.
  cases_cmp; try lia; apply to_u8_small; divlia.
Qed.

Lemma expandTempC16_eq c :
  expandTempC16 c =
  if c <? 32 then c * 8
  else if c <? 96 then (c - 32) * 2 + 256
  else if c <=? 248 then (c - 96) * 8 + 384
  else STATS_UNSET_INT.
Proof. unfold expandTempC16. now codec_consts. Qed.

Lemma compressTempC16_le_ceiling t :
  0 <= compressTempC16 t <= COMPRESSION_C16_CEIL_VAL_AFTER.
Proof.
  rewrite compressTempC16_eq, ceil_val_after. cases_cmp; divlia.
Qed.

Lemma compressTempC16_monotone t1 t2 :
  t1 <= t2 -> compressTempC16 t1 <= compressTempC16 t2.
Proof.
  intros Hle. rewrite !compressTempC16_eq. cases_cmp; divlia.
Qed.

(** Expanding a compressed temperature rounds it down to the start of its
    code: the error is non-negative and strictly below the band's step. *)
Lemma roundtrip_floor t :
  0 <= t <= COMPRESSION_C16_CEIL_VAL ->
  expandTempC16 (compressTempC16 t) <= t
  < expandTempC16 (compressTempC16 t) + band_step t.
Proof.
  rewrite ceil_val. intros Ht.
  rewrite compressTempC16_eq, expandTempC16_eq. unfold band_step.
  codec_consts. unfold STATS_UNSET_INT.
  destruct (Z.leb_spec t 0);
    [assert (t = 0) by lia; subst t; cbn; lia|].
  destruct (Z.ltb_spec t 256).
  { destruct (Z.ltb_spec (t / 8) 32); [|divlia].
    destruct (Z.leb_spec 256 t); [lia|]. cbn. divlia. }
  destruct (Z.ltb_spec t 384).
  { destruct (Z.ltb_spec ((t - 256) / 2 + 32) 32); [divlia|].
    destruct (Z.ltb_spec ((t - 256) / 2 + 32) 96); [|divlia].
    destruct (Z.leb_spec 256 t); [|lia]. cbn. divlia. }
  destruct (Z.leb_spec 256 t); [|lia]. cbn [andb].
  destruct (Z.ltb_spec t 1600).
  { destruct (Z.ltb_spec ((t - 384) / 8 + 96) 32); [divlia|].
    destruct (Z.ltb_spec ((t - 384) / 8 + 96) 96); [divlia|].
    destruct (Z.leb_spec ((t - 384) / 8 + 96) 248); [|divlia]. divlia. }
  cbn. lia.
Qed.

(** C3: for every temperature [t] in [0, 100*16] sixteenths of a degree,
    [expandTempC16 (compressTempC16 t)] differs from [t] by no more than
    the precision step of [t]'s band (8 sixteenths, i.e. 0.5 C, below 16 C
    and from 24 C up; 2 sixteenths in [16 C, 24 C)), and [compressTempC16]
    is monotonic non-decreasing over all inputs. *)
Theorem codec_roundtrip_and_monotone :
  (forall t, 0 <= t <= 100 * 16 ->
     Z.abs (expandTempC16 (compressTempC16 t) - t) <= band_step t)
  /\ (forall t1 t2, t1 <= t2 -> compressTempC16 t1 <= compressTempC16 t2).
Proof.
  split.
  - intros t Ht. pose proof (roundtrip_floor t) as H.
    rewrite ceil_val in H. specialize (H Ht). lia.
  - exact compressTempC16_monotone.
Qed.

Lemma codec_roundtrip_and_monotone_witness :
  Z.abs (expandTempC16 (compressTempC16 301) - 301) <= band_step 301
  /\ compressTempC16 (-5) <= compressTempC16 301.
Proof.
  destruct codec_roundtrip_and_monotone as [Hrt Hmono].
  split; [apply Hrt; lia | apply Hmono; lia].
Defined.

(** C10: for every input, [compressTempC16] returns a byte no greater than
    the compressed ceiling (the encoding of 100 C, which is 248), hence
    never the 0xFF sentinel; and [expandTempC16] of any output of
    [compressTempC16] is a temperature in [0 C, 100 C], never the UNSET
    result. *)
Theorem compress_never_unset :
  forall t,
    0 <= compressTempC16 t <= COMPRESSION_C16_CEIL_VAL_AFTER
    /\ COMPRESSION_C16_CEIL_VAL_AFTER = 248
    /\ compressTempC16 COMPRESSION_C16_CEIL_VAL = 248
    /\ compressTempC16 t <> 255
    /\ 0 <= expandTempC16 (compressTempC16 t) <= COMPRESSION_C16_CEIL_VAL
    /\ expandTempC16 (compressTempC16 t) <> STATS_UNSET_INT.
Proof.
  intros t. pose proof (compressTempC16_le_ceiling t) as Hc.
  rewrite ceil_val_after in *.
  assert (He : 0 <= expandTempC16 (compressTempC16 t) <= 1600
               /\ expandTempC16 (compressTempC16 t) <> 255).
  { rewrite expandTempC16_eq. cases_cmp; lia. }
  rewrite ceil_val. unfold STATS_UNSET_INT.
  repeat split; try lia; reflexivity.
Qed.

End CodecFacts.

(** ** Statistics smoothing *)

Section SmoothFacts.

Import Smooth.

Lemma land7_range rnd : 0 <= Z.land rnd 7 < 8.
Proof.
  change 7 with (Z.ones 3). rewrite Z.land_ones by lia.
  apply Z.mod_pos_bound. lia.
Qed.

(** With byte arguments the 16-bit sum never wraps. *)
Lemma smoothStatsValue_eq o n rnd :
  is_u8 o -> is_u8 n -> o <> n ->
  smoothStatsValue o n rnd = (7 * o + n + Z.land rnd 7) / 8.
Proof.
  unfold is_u8. intros Ho Hn Hne. unfold smoothStatsValue, STATS_SMOOTH_SHIFT.
  destruct (Z.eqb_spec o n); [contradiction|]. cbv zeta.
  change (Z.shiftl 1 3 - 1) with 7.
  pose proof (land7_range rnd) as Hr.
  rewrite shiftr3, shiftl3.
  rewrite (to_u8_small (Z.land rnd 7)) by lia.
  rewrite !(to_u16_small o), (to_u16_small n) by lia.
  rewrite (to_u16_small (o * 8)) by lia.
  rewrite (to_u16_small (o * 8 - o)) by lia.
  rewrite (to_u16_small (o * 8 - o + n)) by lia.
  rewrite (to_u16_small (o * 8 - o + n + Z.land rnd 7)) by lia.
  rewrite to_u8_small by divlia.
  f_equal. lia.
Qed.

(** C4: for every pair of bytes [(old, new)] and every value of the random
    byte, hence every stochastic addend in [0, 2^3), [smoothStatsValue old
    new] is no greater than [max old new] and no less than [min old new]. *)
Theorem smoothStatsValue_between :
  forall oldSmoothed newValue rnd,
    is_u8 oldSmoothed -> is_u8 newValue ->
    Z.min oldSmoothed newValue
    <= smoothStatsValue oldSmoothed newValue rnd
    <= Z.max oldSmoothed newValue.
Proof.
  intros o n rnd Ho Hn.
  destruct (Z.eq_dec o n) as [->|Hne].
  - unfold smoothStatsValue. rewrite Z.eqb_refl. lia.
  - rewrite smoothStatsValue_eq by assumption.
    pose proof (land7_range rnd). unfold is_u8 in *. divlia.
Qed.

Lemma smoothStatsValue_between_witness :
  Z.min 200 17 <= smoothStatsValue 200 17 5 <= Z.max 200 17.
Proof.
  apply (smoothStatsValue_between 200 17 5); unfold is_u8; lia.
Defined.

End SmoothFacts.

(** ** Quartile membership *)

Section QuartileFacts.

Import Stats.

Lemma span_S ee a n : span ee a (S n) = ee a :: span ee (a + 1) n.
Proof.
  unfold span. cbn [seq map]. rewrite Z.add_0_r. f_equal.
  rewrite <- seq_shift, map_map. apply map_ext. intros k.
  f_equal. lia.
Qed.

Lemma entries_span ee ss : entries ee ss = span ee ss 24.
Proof. reflexivity. Qed.

Lemma count_below_cons s v l :
  count_below s (v :: l) = (if v <? s then 1 else 0) + count_below s l.
Proof.
  unfold count_below. cbn [filter]. destruct (v <? s); cbn [length]; lia.
Qed.

Lemma count_above_cons s v l :
  count_above s (v :: l) = (if v >? s then 1 else 0) + count_above s l.
Proof.
  unfold count_above. cbn [filter]. destruct (v >? s); cbn [length]; lia.
Qed.

Lemma count_below_nonneg s l : 0 <= count_below s l.
Proof. unfold count_below. lia. Qed.

Lemma count_above_nonneg s l : 0 <= count_above s l.
Proof. unfold count_above. lia. Qed.

(** On a run of set entries the loop counts the qualifying ones and answers
    whether the running total reaches 18. *)
Lemma inTopQuartile_loop_complete ee sample :
  forall n a k,
    0 <= k < 18 ->
    Forall (fun v => v <> STATS_UNSET_INT) (span ee a n) ->
    inTopQuartile_loop n ee a sample k
    = (18 <=? k + count_below sample (span ee a n)).
Proof.
  induction n as [|n IH]; intros a k Hk Hset.
  - cbn. unfold count_below. cbn. symmetry. apply Z.leb_gt. lia.
  - rewrite span_S in *. inversion Hset as [|v l Hv Hl]; subst.
    cbn [inTopQuartile_loop]. rewrite count_below_cons.
    destruct (Z.eqb_spec STATS_UNSET_INT (ee a)); [congruence|].
    pose proof (count_below_nonneg sample (span ee (a + 1) n)).
    destruct (Z.ltb_spec (ee a) sample).
    + rewrite to_u8_small by lia. rewrite Z.geb_leb.
      destruct (Z.leb_spec 18 (k + 1)).
      * symmetry. apply Z.leb_le. lia.
      * rewrite IH by (assumption || lia). f_equal. lia.
    + rewrite IH by (assumption || lia). f_equal.
Qed.

Lemma inBottomQuartile_loop_complete ee sample :
  forall n a k,
    0 <= k < 18 ->
    Forall (fun v => v <> STATS_UNSET_INT) (span ee a n) ->
    inBottomQuartile_loop n ee a sample k
    = (18 <=? k + count_above sample (span ee a n)).
Proof.
  induction n as [|n IH]; intros a k Hk Hset.
  - cbn. unfold count_above. cbn. symmetry. apply Z.leb_gt. lia.
  - rewrite span_S in *. inversion Hset as [|v l Hv Hl]; subst.
    cbn [inBottomQuartile_loop]. rewrite count_above_cons.
    destruct (Z.eqb_spec STATS_UNSET_INT (ee a)); [congruence|].
    pose proof (count_above_nonneg sample (span ee (a + 1) n)).
    destruct (ee a >? sample) eqn:Hgt.
    + rewrite to_u8_small by lia. rewrite Z.geb_leb.
      destruct (Z.leb_spec 18 (k + 1)).
      * symmetry. apply Z.leb_le. lia.
      * rewrite IH by (assumption || lia). f_equal. lia.
    + rewrite IH by (assumption || lia). f_equal.
Qed.

(** With a complete set the two queries are exactly the 18-of-24 tests. *)
Lemma inTopQuartile_complete ee ss sample :
  Forall (fun v => v <> STATS_UNSET_INT) (entries ee ss) ->
  inTopQuartile ee ss sample
  = (18 <=? count_below sample (entries ee ss)).
Proof.
  intros H. unfold inTopQuartile.
  rewrite inTopQuartile_loop_complete by (lia || exact H). reflexivity.
Qed.

Lemma inBottomQuartile_complete ee ss sample :
  Forall (fun v => v <> STATS_UNSET_INT) (entries ee ss) ->
  inBottomQuartile ee ss sample
  = (18 <=? count_above sample (entries ee ss)).
Proof.
  intros H. unfold inBottomQuartile.
  rewrite inBottomQuartile_loop_complete by (lia || exact H). reflexivity.
Qed.

Lemma count_below_all_equal s l :
  Forall (fun v => v = s) l -> count_below s l = 0.
Proof.
  induction 1 as [|v l Hv _ IH]; [reflexivity|].
  rewrite count_below_cons, IH. subst v. now rewrite Z.ltb_irrefl.
Qed.

Lemma count_above_all_equal s l :
  Forall (fun v => v = s) l -> count_above s l = 0.
Proof.
  induction 1 as [|v l Hv _ IH]; [reflexivity|].
  rewrite count_above_cons, IH. subst v.
  now rewrite Z.gtb_ltb, Z.ltb_irrefl.
Qed.

(** A complete set whose values all equal the sample is in neither
    quartile. *)
Lemma quartile_all_equal ee ss sample :
  sample <> STATS_UNSET_INT ->
  Forall (fun v => v = sample) (entries ee ss) ->
  inTopQuartile ee ss sample = false
  /\ inBottomQuartile ee ss sample = false.
Proof.
  intros Hs Hall.
  assert (Hset : Forall (fun v => v <> STATS_UNSET_INT) (entries ee ss)).
  { eapply Forall_impl; [|exact Hall]. cbn. intros v ->. exact Hs. }
  rewrite inTopQuartile_complete, inBottomQuartile_complete by exact Hset.
  rewrite count_below_all_equal, count_above_all_equal by exact Hall.
  split; reflexivity.
Qed.

(** An UNSET entry met before the 18th qualifying value ends the loop with
    [false]. *)
Lemma inTopQuartile_unset_first_18 ee ss sample :
  In STATS_UNSET_INT (span ee ss 18) -> inTopQuartile ee ss sample = false.
Proof.
  unfold inTopQuartile.
  assert (G : forall n a k,
             0 <= k -> k + Z.of_nat n < 18 + 1 ->
             In STATS_UNSET_INT (span ee a n) ->
             forall m, inTopQuartile_loop (n + m) ee a sample k = false).
  { induction n as [|n IH]; intros a k Hk Hn Hin m; [destruct Hin|].
    rewrite span_S in Hin. cbn [Nat.add inTopQuartile_loop].
    destruct (Z.eqb_spec STATS_UNSET_INT (ee a)); [reflexivity|].
    destruct Hin as [Heq|Hin]; [congruence|].
    assert (Hn' : (0 < n)%nat) by (destruct n; [destruct Hin | lia]).
    destruct (ee a <? sample).
    - rewrite to_u8_small by lia. rewrite Z.geb_leb.
      destruct (Z.leb_spec 18 (k + 1)); [lia|]. apply IH; [lia|lia|exact Hin].
    - apply IH; [lia|lia|exact Hin]. }
  intros Hin. exact (G 18%nat ss 0 ltac:(lia) ltac:(lia) Hin 6%nat).
Qed.

(** C5 (the code at the failing input): with hours 0..17 holding 0 (resp.
    200), hour 18 holding 5 (resp. 7) and hours 19..23 UNSET, the top
    (resp. bottom) quartile query for hour 18 answers [true], although the
    set is incomplete: the loop returns at the 18th qualifying value and
    never reads the unset entries. *)
Theorem quartile_true_on_incomplete_set :
  In STATS_UNSET_INT (entries Sample.partial_store 376)
  /\ EE_STATS_START_ADDR Sample.cfg 5 = 376
  /\ inOutlierQuartile Sample.cfg Sample.partial_store 0 true 5 18 = true
  /\ inTopQuartile Sample.partial_store 376 5 = true
  /\ In STATS_UNSET_INT (entries Sample.partial_store_high 376)
  /\ inOutlierQuartile Sample.cfg Sample.partial_store_high 0 false 5 18
     = true
  /\ inBottomQuartile Sample.partial_store_high 376 7 = true.
Proof.
  repeat split; try reflexivity.
  - unfold entries. cbn. do 19 right. left. reflexivity.
  - unfold entries. cbn. do 19 right. left. reflexivity.
Qed.

End QuartileFacts.

(** ** Occupancy tracker *)

Section OccupancyFacts.

Import Occupancy.

Variable cfg : Config.
Hypothesis Htimeout : timeout_supported cfg.

Lemma shift_factor :
  2 ^ OCCCP_SHIFT cfg = 4 /\ OCCUPATION_TIMEOUT_M cfg <= 25
  \/ 2 ^ OCCCP_SHIFT cfg = 2 /\ 25 < OCCUPATION_TIMEOUT_M cfg <= 50
  \/ 2 ^ OCCCP_SHIFT cfg = 1 /\ 50 < OCCUPATION_TIMEOUT_M cfg.
Proof.
  unfold OCCCP_SHIFT.
  destruct (Z.leb_spec (OCCUPATION_TIMEOUT_M cfg) 25); [left; now split|].
  destruct (Z.leb_spec (OCCUPATION_TIMEOUT_M cfg) 50); right;
    [left | right]; split; (reflexivity || lia).
Qed.

Lemma OCCCP_SHIFT_nonneg : 0 <= OCCCP_SHIFT cfg.
Proof. unfold OCCCP_SHIFT. cases_cmp; lia. Qed.

(** While the countdown is within the timeout, the byte arithmetic of
    [read] never wraps and the clamp never bites. *)
Lemma confidence_no_wrap c :
  0 < c <= OCCUPATION_TIMEOUT_M cfg ->
  fnmin (to_u8 (to_u8 100
                - to_u8 (Z.shiftl (to_u8 (OCCUPATION_TIMEOUT_M cfg) - c)
                                  (OCCCP_SHIFT cfg))))
        (to_u8 100)
  = 100 - (OCCUPATION_TIMEOUT_M cfg - c) * 2 ^ OCCCP_SHIFT cfg
  /\ 0 <= 100 - (OCCUPATION_TIMEOUT_M cfg - c) * 2 ^ OCCCP_SHIFT cfg <= 100.
Proof.
  intros Hc. pose proof Htimeout as Ht. unfold timeout_supported in Ht.
  rewrite Z.shiftl_mul_pow2 by exact OCCCP_SHIFT_nonneg.
  rewrite (to_u8_small (OCCUPATION_TIMEOUT_M cfg)) by lia.
  rewrite (to_u8_small 100) by lia.
  assert (Hx : 0 <= (OCCUPATION_TIMEOUT_M cfg - c) * 2 ^ OCCCP_SHIFT cfg
               <= 100).
  { destruct shift_factor as [[-> ?]|[[-> ?]|[-> ?]]]; lia. }
  rewrite (to_u8_small ((OCCUPATION_TIMEOUT_M cfg - c) * _)) by lia.
  rewrite to_u8_small by lia. unfold fnmin. lia.
Qed.

(** What one [read] returns and leaves behind. *)
Lemma read_effect :
  forall o, wf cfg o ->
    let r := fst (read cfg o) in
    let o' := snd (read cfg o) in
    (occupationCountdownM o = 0 -> r = 0)
    /\ (occupationCountdownM o <> 0 ->
        r = spec_confidence cfg (occupationCountdownM o))
    /\ value o' = r
    /\ 0 <= r <= 100
    /\ (0 < occupationCountdownM o ->
        occupationCountdownM o' = occupationCountdownM o - 1
        /\ vacancyM o' = 0 /\ vacancyH o' = 0)
    /\ (occupationCountdownM o = 0 ->
        occupationCountdownM o' = 0
        /\ vacancy_minutes o'
           = (if vacancyH o <? 255 then vacancy_minutes o + 1
              else vacancy_minutes o)
        /\ vacancyH o' <= 255).
Proof.
  intros o (Hv & Hc & Ha & Hm & Hh). unfold is_u8 in *.
  pose proof Htimeout as Ht. unfold timeout_supported in Ht.
  destruct o as [v c a m h]; cbn [value occupationCountdownM
    activityCountdownM vacancyM vacancyH] in *.
  unfold read, spec_confidence, vacancy_minutes;
    cbn [value occupationCountdownM activityCountdownM vacancyM vacancyH].
  destruct (Z.eqb_spec 0 c) as [<-|Hne].
  - (* countdown already at 0 *)
    cbn [Z.gtb Z.compare].
    destruct (Z.ltb_spec h 255).
    + rewrite (to_u8_small (m + 1)) by lia. rewrite Z.geb_leb.
      destruct (Z.leb_spec 60 (m + 1)); cbn [fst snd value
        occupationCountdownM vacancyM vacancyH].
      * rewrite (to_u8_small (h + 1)) by lia.
        repeat split; try lia.
      * repeat split; try lia.
    + cbn [fst snd value occupationCountdownM vacancyM vacancyH].
      repeat split; try lia.
  - (* countdown running *)
    destruct (confidence_no_wrap c ltac:(lia)) as [-> Hr].
    rewrite Z.gtb_ltb. destruct (Z.ltb_spec 0 c); [|lia].
    cbn [fst snd value occupationCountdownM vacancyM vacancyH].
    rewrite (to_u8_small (c - 1)) by lia.
    repeat split; try lia.
Qed.

(** [read] keeps the tracker within its states, and so does marking the
    room as possibly occupied when the partial timeout is within the full
    one. *)
Lemma read_preserves_wf o : wf cfg o -> wf cfg (snd (read cfg o)).
Proof.
  intros Hwf. pose proof (read_effect o Hwf) as H.
  cbv zeta in H. destruct H as (H0 & _ & Hval & Hr & Hpos & Hzero).
  destruct Hwf as (Hv & Hc & Ha & Hm & Hh). unfold is_u8 in *.
  pose proof Htimeout as Ht. unfold timeout_supported in Ht.
  assert (Hact : 0 <= activityCountdownM (snd (read cfg o)) < 256).
  { unfold read. destruct o as [v c a m h]; cbn in *.
    destruct (_ : Z * Z * Z) as [[? ?] ?]. cbn.
    rewrite Z.gtb_ltb. destruct (Z.ltb_spec 0 a); [apply to_u8_range|lia]. }
  assert (Hvac : 0 <= vacancyM (snd (read cfg o)) < 60
                 /\ 0 <= vacancyH (snd (read cfg o)) < 256).
  { unfold read. destruct o as [v c a m h]; cbn in *.
    rewrite Z.gtb_ltb. destruct (Z.ltb_spec 0 c); [cbn; lia|].
    destruct (Z.ltb_spec h 255); [|cbn; lia].
    rewrite (to_u8_small (m + 1)) by lia. rewrite Z.geb_leb.
    destruct (Z.leb_spec 60 (m + 1)); cbn; [|lia].
    rewrite to_u8_small by lia. lia. }
  unfold wf, is_u8. rewrite Hval.
  destruct (Z.eq_dec (occupationCountdownM o) 0) as [E|E].
  - destruct (Hzero E) as (-> & _). repeat split; try lia.
  - destruct (Hpos ltac:(lia)) as (-> & _). repeat split; try lia.
Qed.

Lemma markAsPossiblyOccupied_preserves_wf o :
  0 <= OCCUPATION_TIMEOUT_1_M cfg <= OCCUPATION_TIMEOUT_M cfg ->
  wf cfg o -> wf cfg (markAsPossiblyOccupied cfg o).
Proof.
  intros H1 (Hv & Hc & Ha & Hm & Hh). unfold is_u8 in *.
  pose proof Htimeout as Ht. unfold timeout_supported in Ht.
  unfold wf, markAsPossiblyOccupied, is_u8, fnmax. cbn.
  rewrite !to_u8_small by lia. repeat split; try lia.
Qed.

(** At a countdown of 1 every supported timeout still gives a positive
    confidence. *)
Lemma confidence_at_one_positive : 0 < spec_confidence cfg 1.
Proof.
  pose proof Htimeout as Ht. unfold timeout_supported in Ht.
  unfold spec_confidence.
  destruct shift_factor as [[-> ?]|[[-> ?]|[-> ?]]]; lia.
Qed.

(** C7 (as amended): for every state of the occupancy tracker (bytes, with
    the countdown within the timeout it is loaded with),
    [OccupancyTracker::read] returns 0 if the occupation countdown is 0 at
    entry, and otherwise returns 100 minus (timeout minus the countdown at
    entry) times the fixed scale factor, clamped to [0,100]. The confidence
    is computed before the countdown is run down and stored: it is 0
    whenever the countdown was already 0 at entry, but the read that takes
    the countdown from 1 to 0 leaves a positive confidence beside a
    countdown of 0, and only the next read reports 0. The tick decrements a
    positive countdown and zeroes the vacancy counters, and otherwise adds
    one minute to the vacancy time, which saturates once the hour counter
    is at 255. *)
Theorem occupancy_read_confidence :
  forall o, wf cfg o ->
    let r := fst (read cfg o) in
    let o' := snd (read cfg o) in
    (occupationCountdownM o = 0 -> r = 0)
    /\ (occupationCountdownM o <> 0 ->
        r = spec_confidence cfg (occupationCountdownM o))
    /\ value o' = r
    /\ 0 <= r <= 100
    /\ (0 < occupationCountdownM o ->
        occupationCountdownM o' = occupationCountdownM o - 1
        /\ vacancyM o' = 0 /\ vacancyH o' = 0)
    /\ (occupationCountdownM o = 0 ->
        occupationCountdownM o' = 0
        /\ vacancy_minutes o'
           = (if vacancyH o <? 255 then vacancy_minutes o + 1
              else vacancy_minutes o)
        /\ vacancyH o' <= 255)
    /\ (occupationCountdownM o = 1 ->
        occupationCountdownM o' = 0 /\ 0 < value o')
    /\ (occupationCountdownM o' = 0 ->
        (value o' = 0 \/ occupationCountdownM o = 1)
        /\ fst (read cfg o') = 0
        /\ value (snd (read cfg o')) = 0).
Proof.
  intros o Hwf r o'. subst r o'.
  pose proof (read_effect o Hwf) as H. cbv zeta in H.
  destruct H as (H0 & Hne & Hval & Hr & Hpos & Hzero).
  pose proof (read_effect _ (read_preserves_wf o Hwf)) as H'.
  cbv zeta in H'. destruct H' as (H0' & _ & Hval' & _).
  destruct Hwf as (_ & Hc & _).
  split; [exact H0|]. split; [exact Hne|]. split; [exact Hval|].
  split; [exact Hr|]. split; [exact Hpos|]. split; [exact Hzero|].
  split.
  - intros H1. destruct (Hpos ltac:(lia)) as (Hd & _).
    split; [lia|]. rewrite Hval, Hne, H1 by lia.
    exact confidence_at_one_positive.
  - intros Hz. split; [|split].
    + destruct (Z.eq_dec (occupationCountdownM o) 0) as [E|E].
      * left. rewrite Hval. now apply H0.
      * right. destruct (Hpos ltac:(lia)) as (Hd & _). lia.
    + now apply H0'.
    + rewrite Hval'. now apply H0'.
Qed.

End OccupancyFacts.

Lemma occupancy_read_confidence_witness :
  fst (Occupancy.read Sample.cfg Sample.tracker) = 40
  /\ Occupancy.occupationCountdownM
       (snd (Occupancy.read Sample.cfg Sample.tracker)) = 19.
Proof.
  assert (Ht : Occupancy.timeout_supported Sample.cfg)
    by (unfold Occupancy.timeout_supported; cbn; lia).
  assert (Hwf : Occupancy.wf Sample.cfg Sample.tracker)
    by (unfold Occupancy.wf, is_u8; cbn; lia).
  pose proof (occupancy_read_confidence Sample.cfg Ht Sample.tracker Hwf)
    as H.
  cbv zeta in H. destruct H as (_ & Hr & _ & _ & Hpos & _).
  split.
  - rewrite Hr by (cbn; lia). reflexivity.
  - destruct Hpos as (-> & _); [cbn; lia|]. reflexivity.
Defined.

(** C7 (counterexample): a tracker whose occupation countdown is at its
    last minute (timeout 50, countdown 1). [read] returns 2 and stores it,
    then runs the countdown down to 0: the reported confidence is 2 while
    the occupation countdown is 0. *)
Lemma confidence_nonzero_at_countdown_zero :
  let o := {| Occupancy.value := 4; Occupancy.occupationCountdownM := 1;
              Occupancy.activityCountdownM := 0;
              Occupancy.vacancyM := 0; Occupancy.vacancyH := 0 |} in
  Occupancy.wf Sample.cfg o
  /\ fst (Occupancy.read Sample.cfg o) = 2
  /\ Occupancy.occupationCountdownM (snd (Occupancy.read Sample.cfg o)) = 0
  /\ Occupancy.value (snd (Occupancy.read Sample.cfg o)) = 2
  /\ ~ (Occupancy.occupationCountdownM (snd (Occupancy.read Sample.cfg o))
        = 0
        -> Occupancy.value (snd (Occupancy.read Sample.cfg o)) = 0).
Proof.
  cbv zeta. split; [unfold Occupancy.wf, is_u8; cbn; lia|].
  split; [reflexivity|]. split; [reflexivity|]. split; [reflexivity|].
  intros H. specialize (H eq_refl). vm_compute in H. discriminate.
Qed.

(** A countdown above the timeout, which no operation of the tracker
    produces, would defeat the byte arithmetic: the unclamped value wraps. *)
Example read_outside_states :
  fst (Occupancy.read Sample.cfg
         {| Occupancy.value := 0; Occupancy.occupationCountdownM := 128;
            Occupancy.activityCountdownM := 0;
            Occupancy.vacancyM := 0; Occupancy.vacancyH := 0 |}) = 0
  /\ Occupancy.spec_confidence Sample.cfg 128 = 100.
Proof. split; reflexivity. Qed.

(** ** Target temperature policy *)

Section TargetFacts.

Import Target.

(** C6: every target computed by [computeTargetTemp] in WARM mode (not
    BAKE) with a setback applied is at least the FROST target, whatever the
    occupancy, ambient-light, schedule, statistics and bias inputs. *)
Theorem setback_target_at_least_frost :
  forall cfg env,
    inWarmMode env = true ->
    inBakeMode env = false ->
    setbackApplies cfg env = true ->
    computeTargetTemp cfg env
    = fnmax (to_u8 (getWARMTargetC env - setbackChosen cfg env))
            (getFROSTTargetC env)
    /\ getFROSTTargetC env <= computeTargetTemp cfg env.
Proof.
  intros cfg env Hwarm Hbake Hset. unfold computeTargetTemp.
  rewrite Hwarm, Hbake, Hset. cbn [negb]. unfold fnmax. split; lia.
Qed.

Lemma setback_target_at_least_frost_witness :
  computeTargetTemp Sample.cfg Sample.env = 19
  /\ getFROSTTargetC Sample.env <= computeTargetTemp Sample.cfg Sample.env.
Proof.
  destruct (setback_target_at_least_frost Sample.cfg Sample.env)
    as [Heq Hle]; try reflexivity.
  split; [rewrite Heq; reflexivity | exact Hle].
Defined.

(** The pre-warm target of FROST mode is floored the same way. *)
Lemma frost_mode_target_at_least_frost cfg env :
  inWarmMode env = false ->
  getFROSTTargetC env <= computeTargetTemp cfg env.
Proof.
  intros Hfrost. unfold computeTargetTemp. rewrite Hfrost. cbn [negb].
  unfold fnmax.
  repeat match goal with
         | |- context [if ?b then _ else _] => destruct b
         end; lia.
Qed.

End TargetFacts.

(** ** Modelled radiator valve *)

Section ValveFacts.

Import Valve.

(** C8: after [computeTargetTemperature] the calling-for-heat flag equals
    the test (target temperature in whole degrees >= reference temperature
    in 16ths shifted right by 4), the target being the one just computed
    and the reference temperature the measured temperature plus the fixed
    offset of 8 sixteenths (+0.5 C). *)
Theorem callingForHeat_matches_target :
  forall cfg env rv,
    let rv' := computeTargetTemperature cfg env rv in
    callingForHeat rv'
    = (targetTempC (inputState rv')
       >=? Z.shiftr (refTempC16 (inputState rv')) 4)
    /\ targetTempC (inputState rv') = Target.computeTargetTemp cfg env
    /\ refTempC16 (inputState rv')
       = to_i16 (Target.TemperatureC16_get env + refTempOffsetC16)
    /\ refTempOffsetC16 = 8
    /\ (-32768 <= Target.TemperatureC16_get env < 32760 ->
        refTempC16 (inputState rv') = Target.TemperatureC16_get env + 8).
Proof.
  intros cfg env rv rv'. subst rv'. unfold computeTargetTemperature.
  cbn [callingForHeat inputState targetTempC refTempC16
       setReferenceTemperatures].
  repeat split.
  intros Hrange. apply to_i16_small. unfold refTempOffsetC16. lia.
Qed.

Lemma callingForHeat_matches_target_witness :
  callingForHeat
    (computeTargetTemperature Sample.cfg Sample.env Sample.valve) = true
  /\ refTempC16
       (inputState
          (computeTargetTemperature Sample.cfg Sample.env Sample.valve))
     = 308.
Proof.
  destruct (callingForHeat_matches_target Sample.cfg Sample.env Sample.valve)
    as (Hc & _ & _ & _ & Href).
  split.
  - rewrite Hc. reflexivity.
  - rewrite Href by (cbn; lia). reflexivity.
Defined.

Lemma land15_range x : 0 <= Z.land x 15 < 16.
Proof.
  change 15 with (Z.ones 4). rewrite Z.land_ones by lia.
  apply Z.mod_pos_bound. lia.
Qed.

(** Turn the recorded outcome of a boolean test into arithmetic. *)
Ltac prop_of_bool :=
  repeat match goal with
    | H : (_ <? _) = true |- _ => apply Z.ltb_lt in H
    | H : (_ <? _) = false |- _ => apply Z.ltb_ge in H
    | H : (_ <=? _) = true |- _ => apply Z.leb_le in H
    | H : (_ <=? _) = false |- _ => apply Z.leb_gt in H
    | H : (_ >? _) = _ |- _ => rewrite Z.gtb_ltb in H
    | H : (_ >=? _) = _ |- _ => rewrite Z.geb_leb in H
    | H : (_ =? _) = true |- _ => apply Z.eqb_eq in H
    | H : (_ =? _) = false |- _ => apply Z.eqb_neq in H
    | H : negb _ = true |- _ => apply negb_true_iff in H
    | H : negb _ = false |- _ => apply negb_false_iff in H
    | H : andb _ _ = true |- _ => apply andb_true_iff in H; destruct H
    | H : orb _ _ = false |- _ => apply orb_false_iff in H; destruct H
    end.

(** Split on the innermost undecided conditional of the goal. *)
Ltac break_if :=
  match goal with
  | |- context [if ?b then _ else _] =>
      lazymatch b with
      | context [if _ then _ else _] => fail
      | _ => let E := fresh "E" in destruct b eqn:E
      end
  end.

Ltac valve_arith :=
  prop_of_bool; unfold fnmax, fnmin, to_u8 in *;
  repeat split; divlia.

(** C2: with the BAKE flag set and the adjusted temperature strictly below
    the target, [computeRequiredTRVPercentOpen] returns [maxPCOpen] on that
    call, for every valve position and every state of the hysteresis
    timers. *)
Theorem bake_below_target_opens_to_max :
  forall cfg valvePCOpen inp rs,
    inBakeMode inp = true ->
    adjustedTempC cfg inp rs < targetTempC inp ->
    computeRequiredTRVPercentOpen cfg valvePCOpen inp rs = maxPCOpen inp.
Proof.
  intros cfg v inp rs Hbake Hbelow. unfold computeRequiredTRVPercentOpen.
  cbv zeta. apply Z.ltb_lt in Hbelow. rewrite Hbelow, Hbake.
  now destruct (v <? maxPCOpen inp).
Qed.

Lemma bake_below_target_opens_to_max_witness :
  computeRequiredTRVPercentOpen Sample.cfg 9 (Sample.input 20 300 true)
    (valveTurndown Sample.cfg Sample.rest) = 100.
Proof.
  apply (bake_below_target_opens_to_max Sample.cfg 9 (Sample.input 20 300 true)
           (valveTurndown Sample.cfg Sample.rest)).
  - reflexivity.
  - vm_compute. reflexivity.
Defined.

(** The branch taken strictly below target, on its own. *)
Lemma below_target_branch cfg v inp rs :
  adjustedTempC cfg inp rs < targetTempC inp ->
  computeRequiredTRVPercentOpen cfg v inp rs
  = if v <? maxPCOpen inp then
      if inBakeMode inp then maxPCOpen inp
      else if dontTurnup rs then v
      else
        if glacial inp
           || ((v >=? minPCOpen inp)
               && ((widenDeadband inp && hasEcoBias inp
                    && (adjustedTempC cfg inp rs >=?
                        to_u8 (fnmax (targetTempC inp - SETBACK_FULL cfg)
                                     (MIN_TARGET_C cfg))))
                   || (isFiltering rs && (getRawDelta rs >? 0))))
        then to_u8 (v + 1)
        else
          let slewRate :=
            to_u8 (if (v >=? DEFAULT_VALVE_PC_MODERATELY_OPEN cfg)
                      || (adjustedTempC cfg inp rs =? targetTempC inp - 1)
                   then TRV_MAX_SLEW_PC_PER_MIN
                   else TRV_SLEW_PC_PER_MIN_FAST) in
          if v <? fnmax slewRate (minPCOpen inp)
          then fnmax slewRate (minPCOpen inp)
          else fnmin (to_u8 (v + slewRate)) (maxPCOpen inp)
    else maxPCOpen inp.
Proof.
  intros Hbelow. unfold computeRequiredTRVPercentOpen. cbv zeta.
  apply Z.ltb_lt in Hbelow. now rewrite Hbelow.
Qed.

Lemma slewRate_cases (b : bool) :
  to_u8 (if b then TRV_MAX_SLEW_PC_PER_MIN else TRV_SLEW_PC_PER_MIN_FAST) = 5
  \/ to_u8 (if b then TRV_MAX_SLEW_PC_PER_MIN else TRV_SLEW_PC_PER_MIN_FAST)
     = 10.
Proof. destruct b; [left | right]; reflexivity. Qed.

(** Below target the valve is never closed and never opened past the
    maximum; it may stay below the minimum only while re-opening is
    deferred or a glacial opening is requested. *)
Lemma below_target_bounds cfg v inp rs :
  sensible v inp ->
  adjustedTempC cfg inp rs < targetTempC inp ->
  let r := computeRequiredTRVPercentOpen cfg v inp rs in
  Z.min v (minPCOpen inp) <= r <= maxPCOpen inp
  /\ (minPCOpen inp <= v
      \/ inBakeMode inp = true
      \/ (dontTurnup rs = false /\ glacial inp = false) ->
      minPCOpen inp <= r).
Proof.
  intros (Hv & Hmin & Hmax) Hbelow r. subst r.
  rewrite below_target_branch by exact Hbelow. cbv zeta.
  unfold TRV_SLEW_PC_PER_MIN_FAST, TRV_MAX_SLEW_PC_PER_MIN in Hmax.
  cbn in Hmax.
  destruct (Z.ltb_spec v (maxPCOpen inp)); [|split; [lia|intros _; lia]].
  destruct (inBakeMode inp); [split; [lia|intros _; lia]|].
  destruct (dontTurnup rs).
  { split; [lia|]. intros [?|[?|[? _]]]; (lia || discriminate). }
  match goal with
  | |- context [to_u8 (if ?b then TRV_MAX_SLEW_PC_PER_MIN else _)] =>
      destruct (slewRate_cases b) as [-> | ->]
  end;
  (destruct (glacial inp); cbn [orb];
   [ rewrite to_u8_small by lia; split; [lia|];
     intros [?|[?|[_ ?]]]; (lia || discriminate)
   | destruct (Z.geb_spec v (minPCOpen inp)); cbn [andb];
     [ match goal with
       | |- context [if ?b then to_u8 (v + 1) else _] => destruct b
       end;
       [ rewrite to_u8_small by lia; split; [lia|intros _; lia]
       | unfold fnmax, fnmin; rewrite to_u8_small by lia;
         break_if; prop_of_bool; split; try lia; intros _; lia ]
     | unfold fnmax, fnmin; rewrite to_u8_small by lia;
       break_if; prop_of_bool; split; try lia; intros _; lia ] ]).
Qed.

(** What one call can do to the valve position, for sensible inputs: the
    result is a percentage; it respects the upper limit once the valve
    does; it does not close the valve while closing is deferred; and,
    outside BAKE mode, it does not open the valve while opening is
    deferred. *)
Lemma compute_step_facts cfg v inp rs :
  sensible v inp ->
  let r := computeRequiredTRVPercentOpen cfg v inp rs in
  0 <= r <= 100
  /\ (v <= maxPCOpen inp -> r <= maxPCOpen inp)
  /\ (v <= maxPCOpen inp -> dontTurndown rs = true -> v <= r)
  /\ (inBakeMode inp = false -> dontTurnup rs = true -> r <= v).
Proof.
  intros (Hv & Hmin & Hmax) r. subst r.
  unfold TRV_SLEW_PC_PER_MIN_FAST, TRV_MAX_SLEW_PC_PER_MIN in Hmax.
  cbn in Hmax.
  unfold computeRequiredTRVPercentOpen. cbv zeta.
  pose proof (land15_range (adjustedTempC16 cfg inp rs)) as Hl.
  generalize dependent (Z.land (adjustedTempC16 cfg inp rs) 15). intros l Hl.
  generalize (adjustedTempC cfg inp rs). intros tc.
  generalize (getRawDelta rs). intros rd.
  unfold constrain, TRV_SLEW_PC_PER_MIN_FAST, TRV_MAX_SLEW_PC_PER_MIN,
    TRV_MIN_SLEW_PC.
  change (Z.min 20 (2 * 5)) with 10.
  rewrite (to_u8_small l) by lia.
  rewrite (to_u8_small (16 - l)) by lia.
  rewrite (to_u8_small ((16 - l) * 6)) by lia.
  destruct (dontTurnup rs), (dontTurndown rs), (inBakeMode inp);
    repeat break_if; prop_of_bool; unfold fnmax, fnmin in *;
    repeat split; intros; try discriminate;
    rewrite ?to_u8_small in * by lia; try lia.
  all: unfold to_u8 in *; divlia.
Qed.

(** C1 (as amended): for sensible inputs every call returns a percentage in
    [0,100]. When the adjusted temperature is strictly below the target the
    result never exceeds [maxPCOpen] and is never below the smaller of the
    current position and [minPCOpen]; it is at least [minPCOpen] whenever
    the valve is already that far open, or BAKE mode is set, or neither the
    re-opening deferral nor the glacial flag is active. *)
Theorem valve_percent_bounds :
  forall cfg valvePCOpen inp rs,
    sensible valvePCOpen inp ->
    let r := computeRequiredTRVPercentOpen cfg valvePCOpen inp rs in
    0 <= r <= 100
    /\ (adjustedTempC cfg inp rs < targetTempC inp ->
        Z.min valvePCOpen (minPCOpen inp) <= r <= maxPCOpen inp
        /\ (minPCOpen inp <= valvePCOpen
            \/ inBakeMode inp = true
            \/ (dontTurnup rs = false /\ glacial inp = false) ->
            minPCOpen inp <= r)).
Proof.
  intros cfg v inp rs Hs r. subst r. split.
  - apply (compute_step_facts cfg v inp rs Hs).
  - intros Hbelow. apply (below_target_bounds cfg v inp rs Hs Hbelow).
Qed.

Lemma sample_input_sensible target ref bake v :
  0 <= v <= 100 -> sensible v (Sample.input target ref bake).
Proof. intros Hv. split; [exact Hv|]. unfold limits. cbn. lia. Qed.

Lemma sample_input_steady target ref bake :
  steady 100 (Sample.input target ref bake).
Proof. split; [|reflexivity]. unfold limits. cbn. lia. Qed.

Lemma valve_percent_bounds_witness :
  10 <= computeRequiredTRVPercentOpen Sample.cfg 0
          (Sample.input 20 300 false) Sample.rest <= 100.
Proof.
  pose proof (valve_percent_bounds Sample.cfg 0 (Sample.input 20 300 false)
                Sample.rest (sample_input_sensible 20 300 false 0
                               ltac:(lia))) as H.
  cbv zeta in H. destruct H as (_ & Hbelow).
  destruct Hbelow as ((_ & Hmax) & Hmin); [vm_compute; reflexivity|].
  split; [apply Hmin; right; right; split; reflexivity | exact Hmax].
Defined.

(** C1 (counterexample): a closed valve (0%), limits 10% and 100%, the room
    at 18.75 C under a 20 C target, and the re-opening deferral running
    after a recent turn-down: the call returns 0, below [minPCOpen]. *)
Lemma valve_below_minimum_while_deferred :
  let inp := Sample.input 20 300 false in
  let rs := valveTurndown Sample.cfg Sample.rest in
  sensible 0 inp
  /\ adjustedTempC Sample.cfg inp rs < targetTempC inp
  /\ computeRequiredTRVPercentOpen Sample.cfg 0 inp rs = 0
  /\ ~ (minPCOpen inp <= computeRequiredTRVPercentOpen Sample.cfg 0 inp rs
        <= maxPCOpen inp).
Proof.
  cbv zeta. split; [apply sample_input_sensible; lia|].
  split; [vm_compute; reflexivity|].
  split; [reflexivity|].
  vm_compute. intros [H _]. apply H. reflexivity.
Qed.

(** The same happens when a glacial opening is requested: the valve opens
    from 0% to 1% only. *)
Example valve_below_minimum_when_glacial :
  computeRequiredTRVPercentOpen Sample.cfg 0
    {| targetTempC := 20; minPCOpen := 10; maxPCOpen := 100;
       widenDeadband := false; glacial := true; hasEcoBias := true;
       inBakeMode := false; refTempC16 := 300 |} Sample.rest = 1.
Proof. reflexivity. Qed.

(** Outside the sensible inputs the byte arithmetic can wrap: with an upper
    limit of 3% and the valve at 5%, closing by the fast slew rate yields
    251. *)
Example percent_range_needs_sensible_limits :
  computeRequiredTRVPercentOpen Sample.cfg 5
    {| targetTempC := 20; minPCOpen := 1; maxPCOpen := 3;
       widenDeadband := false; glacial := false; hasEcoBias := false;
       inBakeMode := false; refTempC16 := 400 |} Sample.rest = 251.
Proof. reflexivity. Qed.

(** *** Hysteresis *)

Lemma tick_position cfg v rs inp :
  fst (tick cfg v rs inp)
  = computeRequiredTRVPercentOpen cfg v inp (tickPrepare cfg rs inp).
Proof.
  unfold tick. cbv zeta.
  destruct (Z.eqb_spec
              (computeRequiredTRVPercentOpen cfg v inp
                 (tickPrepare cfg rs inp)) v) as [E|E]; cbn [negb].
  - cbn [fst]. now rewrite E.
  - now destruct (_ >? v).
Qed.

Lemma tick_turnup_countdown cfg v rs inp :
  valveTurnupCountdownM (snd (tick cfg v rs inp))
  = if v <? fst (tick cfg v rs inp)
    then to_u8 (DEFAULT_ANTISEEK_VALVE_RECLOSE_DELAY_M cfg)
    else valveTurnupCountdownM (tickPrepare cfg rs inp).
Proof.
  rewrite tick_position. unfold tick. cbv zeta.
  destruct (Z.eqb_spec
              (computeRequiredTRVPercentOpen cfg v inp
                 (tickPrepare cfg rs inp)) v) as [E|E]; cbn [negb].
  - rewrite E, Z.ltb_irrefl. reflexivity.
  - rewrite Z.gtb_ltb. now destruct (v <? _).
Qed.

Lemma tick_turndown_countdown cfg v rs inp :
  valveTurndownCountdownM (snd (tick cfg v rs inp))
  = if fst (tick cfg v rs inp) <? v
    then to_u8 (DEFAULT_ANTISEEK_VALVE_REOPEN_DELAY_M cfg)
    else valveTurndownCountdownM (tickPrepare cfg rs inp).
Proof.
  rewrite tick_position. unfold tick. cbv zeta.
  destruct (Z.eqb_spec
              (computeRequiredTRVPercentOpen cfg v inp
                 (tickPrepare cfg rs inp)) v) as [E|E]; cbn [negb].
  - rewrite E, Z.ltb_irrefl. reflexivity.
  - rewrite Z.gtb_ltb.
    destruct (Z.ltb_spec v (computeRequiredTRVPercentOpen cfg v inp
                              (tickPrepare cfg rs inp)));
      destruct (Z.ltb_spec (computeRequiredTRVPercentOpen cfg v inp
                              (tickPrepare cfg rs inp)) v);
      (reflexivity || lia).
Qed.

Lemma prepare_turnup_countdown cfg rs inp :
  valveTurnupCountdownM (tickPrepare cfg rs inp)
  = if valveTurnupCountdownM rs >? 0
    then to_u8 (valveTurnupCountdownM rs - 1)
    else valveTurnupCountdownM rs.
Proof. reflexivity. Qed.

Lemma prepare_turndown_countdown cfg rs inp :
  valveTurndownCountdownM (tickPrepare cfg rs inp)
  = if valveTurndownCountdownM rs >? 0
    then to_u8 (valveTurndownCountdownM rs - 1)
    else valveTurndownCountdownM rs.
Proof. reflexivity. Qed.

(** A countdown of at least 2 still defers at the next tick. *)
Lemma still_deferred c :
  1 < c < 256 ->
  (if c >? 0 then to_u8 (c - 1) else c) = c - 1
  /\ negb (0 =? (if c >? 0 then to_u8 (c - 1) else c)) = true.
Proof.
  intros Hc. rewrite Z.gtb_ltb. destruct (Z.ltb_spec 0 c); [|lia].
  rewrite to_u8_small by lia. split; [reflexivity|].
  destruct (Z.eqb_spec 0 (c - 1)); [lia|reflexivity].
Qed.

Section Window.

Variable cfg : Config.
Variable M : Z.

Lemma never_closes_while_deferred :
  forall later v rs,
    0 <= v <= 100 -> v <= M ->
    Forall (steady M) later ->
    Z.of_nat (length later) < valveTurnupCountdownM rs < 256 ->
    Z.of_nat (length later) < DEFAULT_ANTISEEK_VALVE_RECLOSE_DELAY_M cfg
                              < 256 ->
    never_closes cfg v rs later.
Proof.
  induction later as [|inp rest IH]; intros v rs Hv HM Hall Hc HD;
    [exact I|].
  inversion Hall as [|? ? Hst Hrest]; subst.
  destruct Hst as [Hlim HmaxM].
  cbn [length] in Hc, HD. cbn [never_closes].
  pose proof (compute_step_facts cfg v inp (tickPrepare cfg rs inp)
                (conj Hv Hlim)) as F.
  cbv zeta in F. rewrite <- tick_position in F.
  destruct F as (Hr & Hle & Hnc & _).
  destruct (still_deferred (valveTurnupCountdownM rs) ltac:(lia))
    as [Hdec Hdefer].
  assert (Hup : v <= fst (tick cfg v rs inp)).
  { apply Hnc; [lia|]. unfold dontTurndown.
    rewrite prepare_turnup_countdown. exact Hdefer. }
  split; [exact Hup|].
  apply IH; try assumption.
  - rewrite <- HmaxM. apply Hle. lia.
  - rewrite tick_turnup_countdown, prepare_turnup_countdown, Hdec.
    rewrite to_u8_small by lia. destruct (_ <? _); lia.
  - lia.
Qed.

Lemma never_opens_while_deferred :
  forall later v rs,
    0 <= v <= 100 ->
    Forall (fun inp => steady M inp /\ inBakeMode inp = false) later ->
    Z.of_nat (length later) < valveTurndownCountdownM rs < 256 ->
    Z.of_nat (length later) < DEFAULT_ANTISEEK_VALVE_REOPEN_DELAY_M cfg
                              < 256 ->
    never_opens cfg v rs later.
Proof.
  induction later as [|inp rest IH]; intros v rs Hv Hall Hc HD;
    [exact I|].
  inversion Hall as [|? ? Hst Hrest]; subst.
  destruct Hst as [[Hlim HmaxM] Hbake].
  cbn [length] in Hc, HD. cbn [never_opens].
  pose proof (compute_step_facts cfg v inp (tickPrepare cfg rs inp)
                (conj Hv Hlim)) as F.
  cbv zeta in F. rewrite <- tick_position in F.
  destruct F as (Hr & _ & _ & Hno).
  destruct (still_deferred (valveTurndownCountdownM rs) ltac:(lia))
    as [Hdec Hdefer].
  assert (Hdown : fst (tick cfg v rs inp) <= v).
  { apply Hno; [exact Hbake|]. unfold dontTurnup.
    rewrite prepare_turndown_countdown. exact Hdefer. }
  split; [exact Hdown|].
  apply IH; try assumption.
  - rewrite tick_turndown_countdown, prepare_turndown_countdown, Hdec.
    rewrite to_u8_small by lia. destruct (_ <? _); lia.
  - lia.
Qed.

End Window.

(** C9 (as amended): when a tick moves the valve in one direction, the
    countdown deferring the opposite direction is loaded with its fixed
    delay [D], and none of the following ticks inside that window (up to
    [D - 1] of them) moves the valve in the opposite direction: after a
    turn-up no tick closes it, and after a turn-down no tick opens it
    unless BAKE mode is set. This is for sensible inputs with an unchanged
    upper limit; moves in the same direction remain possible at every
    tick. *)
Theorem hysteresis_window :
  forall cfg v rs inp,
    sensible v inp -> v <= maxPCOpen inp ->
    is_u8 (DEFAULT_ANTISEEK_VALVE_RECLOSE_DELAY_M cfg) ->
    is_u8 (DEFAULT_ANTISEEK_VALVE_REOPEN_DELAY_M cfg) ->
    let v1 := fst (tick cfg v rs inp) in
    let rs1 := snd (tick cfg v rs inp) in
    (v < v1 ->
     valveTurnupCountdownM rs1 = DEFAULT_ANTISEEK_VALVE_RECLOSE_DELAY_M cfg
     /\ forall later,
          Forall (steady (maxPCOpen inp)) later ->
          Z.of_nat (length later)
          < DEFAULT_ANTISEEK_VALVE_RECLOSE_DELAY_M cfg ->
          never_closes cfg v1 rs1 later)
    /\ (v1 < v ->
        valveTurndownCountdownM rs1
        = DEFAULT_ANTISEEK_VALVE_REOPEN_DELAY_M cfg
        /\ forall later,
             Forall (fun i => steady (maxPCOpen inp) i
                              /\ inBakeMode i = false) later ->
             Z.of_nat (length later)
             < DEFAULT_ANTISEEK_VALVE_REOPEN_DELAY_M cfg ->
             never_opens cfg v1 rs1 later).
Proof.
  intros cfg v rs inp Hs HM Hclose Hopen v1 rs1. subst v1 rs1.
  unfold is_u8 in *.
  pose proof (compute_step_facts cfg v inp (tickPrepare cfg rs inp) Hs) as F.
  cbv zeta in F. rewrite <- tick_position in F.
  destruct F as (Hr & Hle & _).
  split; intros Hmove.
  - assert (Hc : valveTurnupCountdownM (snd (tick cfg v rs inp))
                 = DEFAULT_ANTISEEK_VALVE_RECLOSE_DELAY_M cfg).
    { rewrite tick_turnup_countdown. apply Z.ltb_lt in Hmove.
      rewrite Hmove. now apply to_u8_small. }
    split; [exact Hc|]. intros later Hall Hlen.
    apply never_closes_while_deferred with (M := maxPCOpen inp);
      try assumption; lia.
  - assert (Hc : valveTurndownCountdownM (snd (tick cfg v rs inp))
                 = DEFAULT_ANTISEEK_VALVE_REOPEN_DELAY_M cfg).
    { rewrite tick_turndown_countdown. apply Z.ltb_lt in Hmove.
      rewrite Hmove. now apply to_u8_small. }
    split; [exact Hc|]. intros later Hall Hlen.
    apply never_opens_while_deferred with (M := maxPCOpen inp);
      try assumption; lia.
Qed.

Lemma hysteresis_window_witness :
  valveTurnupCountdownM
    (snd (tick Sample.cfg 0 Sample.rest (Sample.input 20 319 false))) = 5
  /\ never_closes Sample.cfg
       (fst (tick Sample.cfg 0 Sample.rest (Sample.input 20 319 false)))
       (snd (tick Sample.cfg 0 Sample.rest (Sample.input 20 319 false)))
       [Sample.input 20 400 false; Sample.input 20 400 false].
Proof.
  assert (HM : 0 <= maxPCOpen (Sample.input 20 319 false))
    by (change (0 <= 100); lia).
  assert (Hclose : is_u8 (DEFAULT_ANTISEEK_VALVE_RECLOSE_DELAY_M Sample.cfg))
    by (change (0 <= 5 < 256); lia).
  assert (Hopen : is_u8 (DEFAULT_ANTISEEK_VALVE_REOPEN_DELAY_M Sample.cfg))
    by (change (0 <= 10 < 256); lia).
  pose proof (hysteresis_window Sample.cfg 0 Sample.rest
                (Sample.input 20 319 false)
                (sample_input_sensible 20 319 false 0 ltac:(lia))
                HM Hclose Hopen) as H.
  cbv zeta in H. destruct H as [Hup _].
  destruct Hup as [Hc Hrun]; [vm_compute; reflexivity|].
  split; [exact Hc|]. apply Hrun.
  - repeat constructor; apply sample_input_steady.
  - vm_compute. reflexivity.
Defined.

(** C9 (counterexample). First run: the valve at 50% is turned down to 40%
    just above a 20 C target, which loads the re-opening countdown with 10
    ticks; on the very next tick BAKE mode (target 25 C) opens it to 100%.
    Second run: the reference temperature alternates between 319 and 320
    sixteenths around a 20 C target; the valve opens on the first, third
    and fifth tick, three changes inside the 5-tick window loaded by the
    first. *)
Lemma hysteresis_counterexample :
  (let rs1 := snd (tick Sample.cfg 50 Sample.rest
                     (Sample.input 20 344 false)) in
   positions Sample.cfg 50 Sample.rest
     [Sample.input 20 344 false; Sample.input 25 344 true] = [40; 100]
   /\ valveTurndownCountdownM rs1 = 10
   /\ dontTurnup (tickPrepare Sample.cfg rs1 (Sample.input 25 344 true))
      = true
   /\ ~ never_opens Sample.cfg 40 rs1 [Sample.input 25 344 true])
  /\ (positions Sample.cfg 0 Sample.rest
        [Sample.input 20 319 false; Sample.input 20 320 false;
         Sample.input 20 319 false; Sample.input 20 320 false;
         Sample.input 20 319 false]
      = [10; 10; 15; 15; 20]
      /\ valveTurnupCountdownM
           (snd (tick Sample.cfg 0 Sample.rest
                   (Sample.input 20 319 false))) = 5).
Proof.
  cbv zeta. split; [split; [|split; [|split]] | split];
    try (vm_compute; reflexivity).
  intros [Hle _]. vm_compute in Hle. apply Hle. reflexivity.
Qed.

End ValveFacts.


(** * Further properties of the code *)

(** ** Temperature codec: the codes *)

Section CodecCodes.

Import Codec.

(** Every valid code is a fixed point: compressing what a code expands to
    gives the code back, so re-encoding a stored temperature never drifts. *)
Theorem compress_expand_code :
  forall c, 0 <= c <= COMPRESSION_C16_CEIL_VAL_AFTER ->
    compressTempC16 (expandTempC16 c) = c.
Proof.
  intros c. rewrite ceil_val_after. intros Hc.
  rewrite expandTempC16_eq.
  destruct (Z.ltb_spec c 32); [|destruct (Z.ltb_spec c 96);
    [|destruct (Z.leb_spec c 248); [|lia]]];
    rewrite compressTempC16_eq; cases_cmp; divlia.
Qed.

Lemma compress_expand_code_witness :
  compressTempC16 (expandTempC16 77) = 77.
Proof.
  apply (compress_expand_code 77). rewrite ceil_val_after. lia.
Defined.

(** On the valid codes expansion is strictly increasing: the order of two
    stored bytes is the order of the temperatures they stand for. *)
Theorem expand_strictly_increasing :
  forall c1 c2,
    0 <= c1 -> c1 < c2 -> c2 <= COMPRESSION_C16_CEIL_VAL_AFTER ->
    expandTempC16 c1 < expandTempC16 c2.
Proof.
  intros c1 c2 H1 Hlt. rewrite ceil_val_after. intros H2.
  rewrite !expandTempC16_eq. cases_cmp; lia.
Qed.

Lemma expand_strictly_increasing_witness :
  expandTempC16 31 < expandTempC16 32.
Proof.
  apply (expand_strictly_increasing 31 32); try lia.
  rewrite ceil_val_after. lia.
Defined.

End CodecCodes.


(** ** Statistics: recording *)

Section RecordingFacts.

Import Stats Eeprom StatsStore.

(** The smoothed value lies between its two arguments (shared by the
    facts about recording below). *)
Lemma smooth_between_bytes o n rnd :
  is_u8 o -> is_u8 n ->
  Z.min o n <= Smooth.smoothStatsValue o n rnd <= Z.max o n.
Proof.
  intros Ho Hn. destruct (Z.eq_dec o n) as [->|Hne].
  - unfold Smooth.smoothStatsValue. rewrite Z.eqb_refl. lia.
  - rewrite smoothStatsValue_eq by assumption.
    pose proof (land7_range rnd). unfold is_u8 in *. divlia.
Qed.

Lemma update_same ee p v :
  eeprom_smart_update_byte ee p v p = to_u8 v.
Proof. unfold eeprom_smart_update_byte. now rewrite Z.eqb_refl. Qed.

Lemma update_other ee p v a :
  a <> p -> eeprom_smart_update_byte ee p v a = ee a.
Proof.
  intros H. unfold eeprom_smart_update_byte.
  now destruct (Z.eqb_spec a p).
Qed.

(** The mean of one sample is the sample; the mean of two byte samples is
    their sum halved and rounded up, a byte between the two. *)
Theorem smartDivToU8_mean :
  forall a b,
    is_u8 a -> is_u8 b ->
    smartDivToU8 a 1 = a
    /\ smartDivToU8 (a + b) 2 = (a + b + 1) / 2
    /\ Z.min a b <= smartDivToU8 (a + b) 2 <= Z.max a b.
Proof.
  unfold is_u8, smartDivToU8. intros a b Ha Hb. cbn [Z.eqb Pos.eqb].
  rewrite (to_u8_small a) by lia.
  rewrite (to_u16_small (a + b + 1)) by lia.
  rewrite shiftr1. rewrite to_u8_small by divlia.
  repeat split; divlia.
Qed.

Lemma smartDivToU8_mean_witness :
  smartDivToU8 (10 + 13) 2 = 12.
Proof.
  destruct (smartDivToU8_mean 10 13) as (_ & H & _);
    try (unfold is_u8; lia).
  rewrite H. reflexivity.
Defined.

(** Recording a value below 0xFF sets the 'last' slot to it and leaves the
    smoothed slot set: seeded with the value if it was unset, otherwise
    moved to a byte between its old content and the value. No other byte
    of the EEPROM changes. *)
Theorem simpleUpdateStatsPair_effect :
  forall ee lastEEPtr value rnd,
    0 <= value < 255 ->
    is_u8 (ee (lastEEPtr + 24)) ->
    let ee' := simpleUpdateStatsPair_ ee lastEEPtr value rnd in
    ee' lastEEPtr = value
    /\ ee' (lastEEPtr + 24) <> 255
    /\ (ee (lastEEPtr + 24) = 255 -> ee' (lastEEPtr + 24) = value)
    /\ (ee (lastEEPtr + 24) <> 255 ->
        Z.min (ee (lastEEPtr + 24)) value <= ee' (lastEEPtr + 24)
        <= Z.max (ee (lastEEPtr + 24)) value)
    /\ (forall a, a <> lastEEPtr -> a <> lastEEPtr + 24 -> ee' a = ee a).
Proof.
  intros ee p v rnd Hv Hs ee'. subst ee'.
  unfold simpleUpdateStatsPair_. cbv zeta.
  rewrite (update_other ee p v (p + 24)) by lia.
  pose proof (smooth_between_bytes (ee (p + 24)) v rnd Hs
                ltac:(unfold is_u8; lia)) as Hsm.
  unfold is_u8 in Hs.
  destruct (Z.eqb_spec 255 (ee (p + 24))) as [E|E].
  - rewrite update_other, !update_same by lia.
    rewrite to_u8_small by lia.
    repeat split; try lia.
    intros a Ha1 Ha2. now rewrite !update_other by lia.
  - rewrite update_other, !update_same by lia.
    rewrite !to_u8_small by lia.
    repeat split; try lia.
    intros a Ha1 Ha2. now rewrite !update_other by lia.
Qed.

Lemma simpleUpdateStatsPair_effect_witness :
  simpleUpdateStatsPair_ (fun _ => 255) 300 42 0 300 = 42
  /\ simpleUpdateStatsPair_ (fun _ => 255) 300 42 0 324 = 42.
Proof.
  pose proof (simpleUpdateStatsPair_effect (fun _ => 255) 300 42 0
                ltac:(lia) ltac:(unfold is_u8; lia)) as H.
  cbv zeta in H. destruct H as (Hlast & _ & Hseed & _).
  split; [exact Hlast | apply Hseed; reflexivity].
Defined.

End RecordingFacts.


(** ** Statistics: erasing *)

Section ZapFacts.

Import Stats Eeprom StatsStore.

Lemma span_succ ee a n : span ee a (S n) = ee a :: span ee (a + 1) n.
Proof.
  unfold span. cbn [seq map]. rewrite Z.add_0_r. f_equal.
  rewrite <- seq_shift, map_map. apply map_ext. intros k.
  f_equal. lia.
Qed.

Lemma span_ext ee1 ee2 a n :
  (forall x, a <= x < a + Z.of_nat n -> ee1 x = ee2 x) ->
  span ee1 a n = span ee2 a n.
Proof.
  intros H. unfold span. apply map_ext_in. intros k Hk.
  apply in_seq in Hk. apply H. lia.
Qed.

Lemma set_bytes_succ ee a n :
  set_bytes ee a (S n)
  = (if ee a =? 255 then 0 else 1) + set_bytes ee (a + 1) n.
Proof.
  unfold set_bytes. rewrite span_succ. cbn [filter].
  destruct (ee a =? 255); cbn [negb length]; lia.
Qed.

Lemma set_bytes_ext ee1 ee2 a n :
  (forall x, a <= x < a + Z.of_nat n -> ee1 x = ee2 x) ->
  set_bytes ee1 a n = set_bytes ee2 a n.
Proof. intros H. unfold set_bytes. now rewrite (span_ext ee1 ee2). Qed.

Lemma set_bytes_nonneg ee a n : 0 <= set_bytes ee a n.
Proof. unfold set_bytes. lia. Qed.

Lemma set_bytes_zero ee :
  forall n a, set_bytes ee a n = 0 ->
    forall x, a <= x < a + Z.of_nat n -> ee x = 255.
Proof.
  induction n as [|n IH]; intros a H0 x Hx; [lia|].
  rewrite set_bytes_succ in H0.
  pose proof (set_bytes_nonneg ee (a + 1) n).
  destruct (Z.eqb_spec (ee a) 255) as [E|E]; [|lia].
  destruct (Z.eq_dec x a) as [->|Hne]; [exact E|].
  apply (IH (a + 1)); lia.
Qed.

Lemma allowance_pos b : 0 <= b < 65536 -> 1 <= allowance b <= 65536.
Proof. unfold allowance. intros H. destruct (Z.eqb_spec b 0); lia. Qed.

(** What one pass of the loop does, in terms of the bytes that still need
    erasing and the allowance left. *)
Lemma zapStats_loop_spec :
  forall n ee p b,
    0 <= b < 65536 ->
    fst (zapStats_loop n ee p b) = (set_bytes ee p n <? allowance b)
    /\ set_bytes (snd (zapStats_loop n ee p b)) p n
       = set_bytes ee p n - Z.min (set_bytes ee p n) (allowance b)
    /\ (forall a, a < p \/ p + Z.of_nat n <= a ->
                  snd (zapStats_loop n ee p b) a = ee a)
    /\ (forall a, snd (zapStats_loop n ee p b) a = ee a
                  \/ snd (zapStats_loop n ee p b) a = 255).
Proof.
  induction n as [|n IH]; intros ee p b Hb.
  - pose proof (allowance_pos b Hb). cbn [zapStats_loop fst snd].
    unfold set_bytes. cbn [span seq map filter length Z.of_nat].
    split; [symmetry; apply Z.ltb_lt; lia|].
    split; [lia|]. split; intros; auto.
  - pose proof (allowance_pos b Hb) as HA.
    pose proof (set_bytes_nonneg ee (p + 1) n) as Hs.
    cbn [zapStats_loop]. unfold eeprom_smart_erase_byte.
    set (ee1 := fun a : Z => if a =? p then 255 else ee a).
    assert (Hee1 : forall x, x <> p -> ee1 x = ee x).
    { intros x Hx. unfold ee1. now destruct (Z.eqb_spec x p). }
    assert (Hee1p : ee1 p = 255) by (unfold ee1; now rewrite Z.eqb_refl).
    assert (Hrest : set_bytes ee1 (p + 1) n = set_bytes ee (p + 1) n).
    { apply set_bytes_ext. intros x Hx. apply Hee1. lia. }
    rewrite !set_bytes_succ.
    destruct (Z.eqb_spec (ee p) 255) as [E|E]; cbn [negb].
    + (* nothing to erase here *)
      destruct (IH ee1 (p + 1) b Hb) as (I1 & I2 & I3 & I4).
      rewrite Hrest in I1, I2.
      rewrite (I3 p) by lia. rewrite Hee1p, Z.eqb_refl.
      repeat split.
      * rewrite I1. reflexivity.
      * rewrite I2. lia.
      * intros a Ha. rewrite I3 by lia. apply Hee1. lia.
      * intros a. destruct (I4 a) as [-> | ->]; [|now right].
        destruct (Z.eq_dec a p) as [->|Hne];
          [left; congruence | left; now apply Hee1].
    + (* one byte erased *)
      unfold allowance in HA |- *.
      destruct (Z.eqb_spec b 0) as [Eb|Eb].
      * subst b. change (to_u16 (0 - 1) =? 0) with false. cbv iota.
        destruct (IH ee1 (p + 1) (to_u16 (0 - 1)) ltac:(cbn; lia))
          as (I1 & I2 & I3 & I4).
        rewrite Hrest in I1, I2.
        change (allowance (to_u16 (0 - 1))) with 65535 in I1, I2.
        rewrite (I3 p) by lia. rewrite Hee1p, Z.eqb_refl.
        repeat split.
        -- rewrite I1.
           destruct (Z.ltb_spec (set_bytes ee (p + 1) n) 65535);
             symmetry; [apply Z.ltb_lt | apply Z.ltb_ge]; lia.
        -- rewrite I2. lia.
        -- intros a Ha. rewrite I3 by lia. apply Hee1. lia.
        -- intros a. destruct (I4 a) as [-> | ->]; [|now right].
           destruct (Z.eq_dec a p) as [->|Hne];
             [now right | left; now apply Hee1].
      * rewrite (to_u16_small (b - 1)) by lia.
        destruct (Z.eqb_spec (b - 1) 0) as [E1|E1].
        -- (* allowance used up *)
           cbn [fst snd]. rewrite Hee1p, Z.eqb_refl, Hrest.
           repeat split.
           ++ symmetry. apply Z.ltb_ge. lia.
           ++ lia.
           ++ intros a Ha. apply Hee1. lia.
           ++ intros a. destruct (Z.eq_dec a p) as [->|Hne];
                [now right | left; now apply Hee1].
        -- destruct (IH ee1 (p + 1) (b - 1) ltac:(lia))
             as (I1 & I2 & I3 & I4).
           rewrite Hrest in I1, I2. unfold allowance in I1, I2.
           destruct (Z.eqb_spec (b - 1) 0) as [?|_]; [lia|].
           rewrite (I3 p) by lia. rewrite Hee1p, Z.eqb_refl.
           repeat split.
           ++ rewrite I1.
              destruct (Z.ltb_spec (set_bytes ee (p + 1) n) (b - 1));
                symmetry; [apply Z.ltb_lt | apply Z.ltb_ge]; lia.
           ++ rewrite I2. lia.
           ++ intros a Ha. rewrite I3 by lia. apply Hee1. lia.
           ++ intros a. destruct (I4 a) as [-> | ->]; [|now right].
              destruct (Z.eq_dec a p) as [->|Hne];
                [now right | left; now apply Hee1].
Qed.

Variable cfg : Config.
Variable st : Settings.

Lemma stats_area a :
  (a < EE_START_STATS cfg \/ EE_END_STATS st < a) ->
  a < EE_START_STATS cfg
  \/ EE_START_STATS cfg + Z.of_nat (stats_bytes cfg st) <= a.
Proof. unfold stats_bytes. lia. Qed.

(** [zapStats] reports completion exactly when fewer bytes needed erasing
    than the allowance (an argument of 0 standing for 65536), and then
    every byte of the statistics area reads 0xFF. A call that erases the
    very last set byte with the last unit of its allowance still reports
    [false]. *)
Theorem zapStats_complete :
  forall ee maxBytesToErase,
    0 <= maxBytesToErase < 65536 ->
    fst (zapStats cfg st ee maxBytesToErase)
    = (set_bytes ee (EE_START_STATS cfg) (stats_bytes cfg st)
       <? allowance maxBytesToErase)
    /\ (fst (zapStats cfg st ee maxBytesToErase) = true ->
        forall a, EE_START_STATS cfg <= a <= EE_END_STATS st ->
                  snd (zapStats cfg st ee maxBytesToErase) a = 255).
Proof.
  intros ee m Hm. unfold zapStats.
  destruct (zapStats_loop_spec (stats_bytes cfg st) ee (EE_START_STATS cfg)
              m Hm) as (H1 & H2 & _ & _).
  split; [exact H1|]. intros Htrue a Ha.
  rewrite H1 in Htrue. apply Z.ltb_lt in Htrue.
  apply (set_bytes_zero _ (stats_bytes cfg st) (EE_START_STATS cfg)).
  - rewrite H2. lia.
  - unfold stats_bytes. lia.
Qed.

(** One call erases exactly as many bytes as needed or as allowed,
    whichever is fewer; it changes bytes only to 0xFF and leaves every
    byte outside [EE_START_STATS .. EE_END_STATS] alone. *)
Theorem zapStats_bounded :
  forall ee maxBytesToErase,
    0 <= maxBytesToErase < 65536 ->
    let ee' := snd (zapStats cfg st ee maxBytesToErase) in
    set_bytes ee (EE_START_STATS cfg) (stats_bytes cfg st)
    - set_bytes ee' (EE_START_STATS cfg) (stats_bytes cfg st)
    = Z.min (set_bytes ee (EE_START_STATS cfg) (stats_bytes cfg st))
            (allowance maxBytesToErase)
    /\ (forall a, ee' a = ee a \/ ee' a = 255)
    /\ (forall a, a < EE_START_STATS cfg \/ EE_END_STATS st < a ->
                  ee' a = ee a).
Proof.
  intros ee m Hm ee'. subst ee'. unfold zapStats.
  destruct (zapStats_loop_spec (stats_bytes cfg st) ee (EE_START_STATS cfg)
              m Hm) as (_ & H2 & H3 & H4).
  split; [rewrite H2; lia|]. split; [exact H4|].
  intros a Ha. apply H3. now apply stats_area.
Qed.

Lemma zapStats_repeat_done :
  forall k ee m,
    0 <= m < 65536 ->
    set_bytes ee (EE_START_STATS cfg) (stats_bytes cfg st)
    < Z.of_nat (S k) * allowance m ->
    fst (zapStats_repeat cfg st (S k) ee m) = true
    /\ set_bytes (snd (zapStats_repeat cfg st (S k) ee m))
                 (EE_START_STATS cfg) (stats_bytes cfg st) = 0.
Proof.
  induction k as [|k IH]; intros ee m Hm Hlt.
  - cbn [zapStats_repeat]. unfold zapStats.
    destruct (zapStats_loop_spec (stats_bytes cfg st) ee
                (EE_START_STATS cfg) m Hm) as (H1 & H2 & _).
    rewrite H1, H2. split; [apply Z.ltb_lt|]; lia.
  - change (zapStats_repeat cfg st (S (S k)) ee m)
      with (zapStats_repeat cfg st (S k)
              (snd (zapStats cfg st ee m)) m).
    apply IH; [exact Hm|]. unfold zapStats.
    destruct (zapStats_loop_spec (stats_bytes cfg st) ee
                (EE_START_STATS cfg) m Hm) as (_ & H2 & _).
    rewrite H2. pose proof (allowance_pos m Hm).
    pose proof (set_bytes_nonneg ee (EE_START_STATS cfg)
                  (stats_bytes cfg st)).
    rewrite (Nat2Z.inj_succ (S k)) in Hlt. nia.
Qed.

(** Erasing resumes across calls: with [s] bytes to erase and an allowance
    of [A] per call, [s / A + 1] calls in a row end with a call that
    reports completion, with the whole statistics area erased. *)
Theorem zapStats_resumes :
  forall ee maxBytesToErase,
    0 <= maxBytesToErase < 65536 ->
    let s := set_bytes ee (EE_START_STATS cfg) (stats_bytes cfg st) in
    let calls := S (Z.to_nat (s / allowance maxBytesToErase)) in
    fst (zapStats_repeat cfg st calls ee maxBytesToErase) = true
    /\ forall a, EE_START_STATS cfg <= a <= EE_END_STATS st ->
         snd (zapStats_repeat cfg st calls ee maxBytesToErase) a = 255.
Proof.
  intros ee m Hm s calls. subst calls.
  pose proof (allowance_pos m Hm) as HA.
  pose proof (set_bytes_nonneg ee (EE_START_STATS cfg) (stats_bytes cfg st))
    as Hs. fold s in Hs.
  destruct (zapStats_repeat_done (Z.to_nat (s / allowance m)) ee m Hm)
    as [Hdone Hzero].
  { fold s. rewrite Nat2Z.inj_succ, Z2Nat.id by (apply Z.div_pos; lia).
    pose proof (Z.mul_succ_div_gt s (allowance m) ltac:(lia)). lia. }
  split; [exact Hdone|]. intros a Ha.
  apply (set_bytes_zero _ (stats_bytes cfg st) (EE_START_STATS cfg));
    [exact Hzero | unfold stats_bytes; lia].
Qed.

End ZapFacts.

Lemma zapStats_complete_witness :
  fst (StatsStore.zapStats Sample.cfg SampleMore.settings
         Sample.partial_store 0) = true.
Proof.
  destruct (zapStats_complete Sample.cfg SampleMore.settings
              Sample.partial_store 0 ltac:(lia)) as [H _].
  rewrite H. vm_compute. reflexivity.
Defined.

Lemma zapStats_bounded_witness :
  snd (StatsStore.zapStats Sample.cfg SampleMore.settings
         Sample.partial_store 4) 10 = 255.
Proof.
  destruct (zapStats_bounded Sample.cfg SampleMore.settings
              Sample.partial_store 4 ltac:(lia)) as (_ & _ & H).
  rewrite H by (left; vm_compute; reflexivity). reflexivity.
Defined.

Lemma zapStats_resumes_witness :
  fst (StatsStore.zapStats_repeat Sample.cfg SampleMore.settings 5
         Sample.partial_store 4) = true.
Proof.
  pose proof (zapStats_resumes Sample.cfg SampleMore.settings
                Sample.partial_store 4 ltac:(lia)) as H.
  cbv zeta in H. destruct H as [H _].
  change (S (Z.to_nat
               (StatsStore.set_bytes Sample.partial_store
                  (EE_START_STATS Sample.cfg)
                  (StatsStore.stats_bytes Sample.cfg SampleMore.settings)
                / StatsStore.allowance 4))) with 5%nat in H.
  exact H.
Defined.



(** ** Quartile membership: what an answer of [true] means *)

Section QuartileMore.

Import Stats StatsStore.

Lemma inTopQuartile_loop_true ee sample :
  forall n a k,
    0 <= k < 18 ->
    inTopQuartile_loop n ee a sample k = true ->
    18 <= k + count_below sample (span ee a n).
Proof.
  induction n as [|n IH]; intros a k Hk Htrue; [discriminate|].
  rewrite span_S, count_below_cons. cbn [inTopQuartile_loop] in Htrue.
  pose proof (count_below_nonneg sample (span ee (a + 1) n)).
  destruct (STATS_UNSET_INT =? ee a); [discriminate|].
  destruct (ee a <? sample).
  - rewrite to_u8_small in Htrue by lia. rewrite Z.geb_leb in Htrue.
    destruct (Z.leb_spec 18 (k + 1)); [lia|].
    apply IH in Htrue; lia.
  - apply IH in Htrue; lia.
Qed.

Lemma inBottomQuartile_loop_true ee sample :
  forall n a k,
    0 <= k < 18 ->
    inBottomQuartile_loop n ee a sample k = true ->
    18 <= k + count_above sample (span ee a n).
Proof.
  induction n as [|n IH]; intros a k Hk Htrue; [discriminate|].
  rewrite span_S, count_above_cons. cbn [inBottomQuartile_loop] in Htrue.
  pose proof (count_above_nonneg sample (span ee (a + 1) n)).
  destruct (STATS_UNSET_INT =? ee a); [discriminate|].
  destruct (ee a >? sample).
  - rewrite to_u8_small in Htrue by lia. rewrite Z.geb_leb in Htrue.
    destruct (Z.leb_spec 18 (k + 1)); [lia|].
    apply IH in Htrue; lia.
  - apply IH in Htrue; lia.
Qed.

Lemma count_below_above sample l :
  count_below sample l + count_above sample l <= Z.of_nat (length l).
Proof.
  induction l as [|v l IH]; [cbn; lia|].
  rewrite count_below_cons, count_above_cons. cbn [length].
  rewrite Z.gtb_ltb.
  destruct (Z.ltb_spec v sample), (Z.ltb_spec sample v); lia.
Qed.

Lemma entries_length ee ss : length (entries ee ss) = 24%nat.
Proof. unfold entries, span. now rewrite length_map, length_seq. Qed.

Lemma quartile_sound_pair ee ss sample :
  (inTopQuartile ee ss sample = true ->
   18 <= count_below sample (entries ee ss))
  /\ (inBottomQuartile ee ss sample = true ->
      18 <= count_above sample (entries ee ss)).
Proof.
  unfold inTopQuartile, inBottomQuartile, entries. split; intros H.
  - apply inTopQuartile_loop_true in H; lia.
  - apply inBottomQuartile_loop_true in H; lia.
Qed.



(** No hour is reported both in the top and in the bottom quartile of the
    same statistics set. *)
Theorem outlier_quartiles_exclusive :
  forall cfg ee hoursLT statsSet hour,
    inOutlierQuartile cfg ee hoursLT true statsSet hour = true ->
    inOutlierQuartile cfg ee hoursLT false statsSet hour = false.
Proof.
  intros cfg ee hoursLT statsSet hour. unfold inOutlierQuartile.
  destruct (statsSet >=? EE_STATS_SETS cfg); [discriminate|].
  cbv zeta. destruct (STATS_UNSET_INT =? _); [discriminate|].
  set (ss := EE_STATS_START_ADDR cfg statsSet).
  set (sample := ee _). intros Htop.
  destruct (inBottomQuartile ee ss sample) eqn:Hbot; [|reflexivity].
  apply (proj1 (quartile_sound_pair ee ss sample)) in Htop.
  apply (proj2 (quartile_sound_pair ee ss sample)) in Hbot.
  pose proof (count_below_above sample (entries ee ss)) as Hsum.
  rewrite entries_length in Hsum. lia.
Qed.

Lemma outlier_quartiles_exclusive_witness :
  inOutlierQuartile Sample.cfg SampleMore.ramp_store 0 false 5 20 = false.
Proof.
  apply (outlier_quartiles_exclusive Sample.cfg SampleMore.ramp_store 0 5 20).
  reflexivity.
Defined.

End QuartileMore.


(** ** Persistent settings *)

Section PersistFacts.

Import Stats Eeprom Persist.

Lemma lnot_byte m : 0 <= m < 256 -> to_u8 (Z.lnot m) = 255 - m.
Proof.
  intros H. unfold to_u8, Z.lnot.
  replace (Z.pred (- m)) with ((255 - m) + (-1) * 256) by lia.
  rewrite Z.mod_add by lia. apply Z.mod_small. lia.
Qed.

(** The minimum boiler-on time survives the inverted storage: reading
    after writing a byte returns that byte, an erased EEPROM reads as 0
    (hub mode off), and no other byte is written. *)
Theorem minBoilerOnMinutes_round_trip :
  forall st ee mins,
    is_u8 mins ->
    getMinBoilerOnMinutes st (setMinBoilerOnMinutes st ee mins) = mins
    /\ (ee (EE_START_MIN_BOILER_ON_MINS_INV st) = 255 ->
        getMinBoilerOnMinutes st ee = 0)
    /\ (forall a, a <> EE_START_MIN_BOILER_ON_MINS_INV st ->
                  setMinBoilerOnMinutes st ee mins a = ee a).
Proof.
  unfold is_u8. intros st ee m Hm.
  unfold getMinBoilerOnMinutes, setMinBoilerOnMinutes.
  rewrite update_same, (lnot_byte m) by exact Hm.
  rewrite (lnot_byte (255 - m)) by lia.
  split; [lia|]. split.
  - intros ->. reflexivity.
  - intros a Ha. now apply update_other.
Qed.

Lemma minBoilerOnMinutes_round_trip_witness :
  getMinBoilerOnMinutes SampleMore.settings
    (setMinBoilerOnMinutes SampleMore.settings SampleMore.erased 4) = 4.
Proof.
  destruct (minBoilerOnMinutes_round_trip SampleMore.settings
              SampleMore.erased 4) as [H _]; [unfold is_u8; lia|].
  exact H.
Defined.

Lemma erase_same ee p : snd (eeprom_smart_erase_byte ee p) p = 255.
Proof. unfold eeprom_smart_erase_byte. cbn. now rewrite Z.eqb_refl. Qed.

Lemma erase_other ee p a :
  a <> p -> snd (eeprom_smart_erase_byte ee p) a = ee a.
Proof.
  intros H. unfold eeprom_smart_erase_byte. cbn.
  now destruct (Z.eqb_spec a p).
Qed.

Variable st : Settings.
Hypothesis Hdefault : 1 <= DEFAULT_MIN_VALVE_PC_REALLY_OPEN st <= 100.

Lemma storedMinValvePc_range ee :
  is_u8 (ee (EE_START_MIN_VALVE_PC_REALLY_OPEN st)) ->
  1 <= storedMinValvePc st ee <= 100.
Proof.
  unfold is_u8, storedMinValvePc. intros H. cbv zeta.
  rewrite Z.gtb_ltb.
  destruct (Z.ltb_spec 0 (ee (EE_START_MIN_VALVE_PC_REALLY_OPEN st)));
    destruct (Z.leb_spec (ee (EE_START_MIN_VALVE_PC_REALLY_OPEN st)) 100);
    cbn [andb]; rewrite to_u8_small; lia.
Qed.

(** With a coherent cache [getMinValvePcReallyOpen] returns the stored
    override if that is in [1,100] and the default otherwise, always a
    value in [1,100], and leaves the cache coherent. *)
Theorem getMinValvePcReallyOpen_coherent :
  forall ee cache,
    is_u8 (ee (EE_START_MIN_VALVE_PC_REALLY_OPEN st)) ->
    Inv.cache_coherent st ee cache ->
    fst (getMinValvePcReallyOpen st ee cache) = storedMinValvePc st ee
    /\ 1 <= fst (getMinValvePcReallyOpen st ee cache) <= 100
    /\ Inv.cache_coherent st ee (snd (getMinValvePcReallyOpen st ee cache)).
Proof.
  intros ee cache Hee Hc. pose proof (storedMinValvePc_range ee Hee) as Hr.
  unfold getMinValvePcReallyOpen.
  destruct (Z.eqb_spec 0 cache) as [E|E]; cbn [negb fst snd].
  - repeat split; try lia. now right.
  - destruct Hc as [Hc|Hc]; [lia|]. subst cache.
    repeat split; try lia. now right.
Qed.

(** Setting the minimum really-open percentage and reading it back: a
    percentage in [1,100] is returned as set, anything else selects the
    default; the cache stays coherent, and only the one settings byte is
    written. *)
Theorem setMinValvePcReallyOpen_round_trip :
  forall ee percent,
    is_u8 percent ->
    let ee' := fst (setMinValvePcReallyOpen st ee percent) in
    let cache' := snd (setMinValvePcReallyOpen st ee percent) in
    Inv.cache_coherent st ee' cache'
    /\ fst (getMinValvePcReallyOpen st ee' cache')
       = (if (1 <=? percent) && (percent <=? 100) then percent
          else DEFAULT_MIN_VALVE_PC_REALLY_OPEN st)
    /\ (forall a, a <> EE_START_MIN_VALVE_PC_REALLY_OPEN st ->
                  ee' a = ee a).
Proof.
  intros ee p Hp ee' cache'. subst ee' cache'. unfold is_u8 in Hp.
  unfold setMinValvePcReallyOpen.
  destruct ((p >? 100) || (p =? 0)
            || (p =? DEFAULT_MIN_VALVE_PC_REALLY_OPEN st)) eqn:Hbad;
    cbn [fst snd].
  - (* cleared: the byte is erased and the default cached *)
    assert (Hs : storedMinValvePc st
                   (snd (eeprom_smart_erase_byte ee
                           (EE_START_MIN_VALVE_PC_REALLY_OPEN st)))
                 = DEFAULT_MIN_VALVE_PC_REALLY_OPEN st).
    { unfold storedMinValvePc. rewrite erase_same. cbn.
      apply to_u8_small. lia. }
    rewrite (to_u8_small (DEFAULT_MIN_VALVE_PC_REALLY_OPEN st)) by lia.
    unfold getMinValvePcReallyOpen, Inv.cache_coherent. rewrite Hs.
    destruct (Z.eqb_spec 0 (DEFAULT_MIN_VALVE_PC_REALLY_OPEN st)); [lia|].
    cbn [negb fst]. split; [now right|]. split.
    + rewrite Z.gtb_ltb in Hbad.
      destruct (Z.ltb_spec 100 p); destruct (Z.eqb_spec p 0);
        destruct (Z.eqb_spec p (DEFAULT_MIN_VALVE_PC_REALLY_OPEN st));
        try discriminate;
        destruct (Z.leb_spec 1 p); destruct (Z.leb_spec p 100);
        cbn [andb]; lia.
    + intros a Ha. now apply erase_other.
  - (* a proper override: stored and cached *)
    rewrite Z.gtb_ltb in Hbad.
    destruct (Z.ltb_spec 100 p); [discriminate|].
    destruct (Z.eqb_spec p 0); [discriminate|].
    assert (Hs : storedMinValvePc st
                   (eeprom_smart_update_byte ee
                      (EE_START_MIN_VALVE_PC_REALLY_OPEN st) p) = p).
    { unfold storedMinValvePc. rewrite update_same.
      rewrite (to_u8_small p) by lia. rewrite Z.gtb_ltb.
      destruct (Z.ltb_spec 0 p); [|lia].
      destruct (Z.leb_spec p 100); [|lia]. cbn. apply to_u8_small. lia. }
    unfold getMinValvePcReallyOpen, Inv.cache_coherent. rewrite Hs.
    destruct (Z.eqb_spec 0 p); [lia|]. cbn [negb fst].
    destruct (Z.leb_spec 1 p); [|lia]. destruct (Z.leb_spec p 100); [|lia].
    cbn [andb]. split; [now right|]. split; [reflexivity|].
    intros a Ha. now apply update_other.
Qed.

End PersistFacts.

Lemma getMinValvePcReallyOpen_coherent_witness :
  fst (Persist.getMinValvePcReallyOpen SampleMore.settings
         SampleMore.erased 0) = 10.
Proof.
  destruct (getMinValvePcReallyOpen_coherent SampleMore.settings
              ltac:(cbn; lia) SampleMore.erased 0
              ltac:(unfold is_u8, SampleMore.erased; lia) ltac:(now left)) as [H _].
  rewrite H. reflexivity.
Defined.

Lemma setMinValvePcReallyOpen_round_trip_witness :
  fst (Persist.getMinValvePcReallyOpen SampleMore.settings
         (fst (Persist.setMinValvePcReallyOpen SampleMore.settings
                 SampleMore.erased 25))
         (snd (Persist.setMinValvePcReallyOpen SampleMore.settings
                 SampleMore.erased 25))) = 25.
Proof.
  pose proof (setMinValvePcReallyOpen_round_trip SampleMore.settings
                ltac:(cbn; lia) SampleMore.erased 25
                ltac:(unfold is_u8; lia)) as H.
  cbv zeta in H. destruct H as (_ & H & _). rewrite H. reflexivity.
Defined.



(** ** Settable FROST and WARM targets *)

Section SettableTargets.

Import Stats Eeprom Persist.

Variable cfg : Config.
Variable st : Settings.
Hypothesis Hok : Inv.targets_ok cfg st.
Hypothesis Hdistinct : EE_START_FROST_C st <> EE_START_WARM_C st.

Lemma getFROSTTargetC_cases ee :
  MIN_TARGET_C cfg <= getFROSTTargetC cfg st ee <= MAX_TARGET_C cfg
  /\ (MIN_TARGET_C cfg <= ee (EE_START_FROST_C st) <= MAX_TARGET_C cfg ->
      getFROSTTargetC cfg st ee = ee (EE_START_FROST_C st)).
Proof.
  destruct Hok as (H0 & H1 & H2 & H3 & H4).
  unfold getFROSTTargetC. cbv zeta. rewrite Z.gtb_ltb.
  destruct (Z.ltb_spec (ee (EE_START_FROST_C st)) (MIN_TARGET_C cfg));
    destruct (Z.ltb_spec (MAX_TARGET_C cfg) (ee (EE_START_FROST_C st)));
    cbn [orb]; rewrite ?to_u8_small by lia; split; lia.
Qed.

Lemma getWARMTargetC_cases ee :
  MIN_TARGET_C cfg <= getWARMTargetC cfg st ee <= MAX_TARGET_C cfg
  /\ getFROSTTargetC cfg st ee <= getWARMTargetC cfg st ee
  /\ (MIN_TARGET_C cfg <= ee (EE_START_WARM_C st) <= MAX_TARGET_C cfg ->
      getWARMTargetC cfg st ee
      = Z.max (ee (EE_START_WARM_C st)) (getFROSTTargetC cfg st ee)).
Proof.
  destruct Hok as (H0 & H1 & H2 & H3 & H4).
  destruct (getFROSTTargetC_cases ee) as [Hf _].
  unfold getWARMTargetC, fnmax. cbv zeta. rewrite Z.gtb_ltb.
  destruct (Z.ltb_spec (ee (EE_START_WARM_C st)) (MIN_TARGET_C cfg));
    destruct (Z.ltb_spec (MAX_TARGET_C cfg) (ee (EE_START_WARM_C st)));
    cbn [orb]; rewrite ?to_u8_small by lia; repeat split; lia.
Qed.

Lemma getWARMTargetC_eq ee :
  getWARMTargetC cfg st ee
  = Z.max (if (ee (EE_START_WARM_C st) <? MIN_TARGET_C cfg)
              || (ee (EE_START_WARM_C st) >? MAX_TARGET_C cfg)
           then WARM st else ee (EE_START_WARM_C st))
          (getFROSTTargetC cfg st ee).
Proof.
  destruct Hok as (K0 & K1 & K2 & K3 & K4).
  unfold getWARMTargetC, fnmax. cbv zeta.
  destruct (_ || _); [|reflexivity]. now rewrite to_u8_small by lia.
Qed.

(** Whatever the EEPROM holds, both targets lie in
    [MIN_TARGET_C, MAX_TARGET_C] and the FROST target is never above the
    WARM target. *)
Theorem targets_in_band :
  forall ee,
    MIN_TARGET_C cfg <= getFROSTTargetC cfg st ee
    /\ getFROSTTargetC cfg st ee <= getWARMTargetC cfg st ee
    /\ getWARMTargetC cfg st ee <= MAX_TARGET_C cfg.
Proof.
  intros ee. destruct (getFROSTTargetC_cases ee) as [Hf _].
  destruct (getWARMTargetC_cases ee) as (Hw & Hfw & _). lia.
Qed.

(** [setWARMTargetC] succeeds exactly for a temperature in the band that is
    not below the FROST target; it then reads back as the WARM target and
    leaves the FROST target as it was. A rejected call writes nothing. *)
Theorem setWARMTargetC_round_trip :
  forall ee tempC,
    is_u8 tempC ->
    let r := setWARMTargetC cfg st ee tempC in
    (fst r = true <->
     MIN_TARGET_C cfg <= tempC <= MAX_TARGET_C cfg
     /\ getFROSTTargetC cfg st ee <= tempC)
    /\ (fst r = true ->
        getWARMTargetC cfg st (snd r) = tempC
        /\ getFROSTTargetC cfg st (snd r) = getFROSTTargetC cfg st ee)
    /\ (fst r = false -> snd r = ee).
Proof.
  intros ee t Ht r. subst r. unfold is_u8 in Ht.
  unfold setWARMTargetC. rewrite Z.gtb_ltb.
  destruct (Z.ltb_spec t (MIN_TARGET_C cfg));
    [cbn; repeat split; (discriminate || lia || reflexivity)|].
  destruct (Z.ltb_spec (MAX_TARGET_C cfg) t); cbn [orb];
    [cbn; repeat split; (discriminate || lia || reflexivity)|].
  destruct (Z.ltb_spec t (getFROSTTargetC cfg st ee));
    [cbn; repeat split; (discriminate || lia || reflexivity)|].
  cbn [fst snd].
  set (ee' := eeprom_smart_update_byte ee (EE_START_WARM_C st) t).
  assert (Hf : getFROSTTargetC cfg st ee' = getFROSTTargetC cfg st ee).
  { unfold getFROSTTargetC, ee'. cbv zeta.
    now rewrite update_other by exact Hdistinct. }
  assert (Hs : ee' (EE_START_WARM_C st) = t).
  { unfold ee'. rewrite update_same. apply to_u8_small. lia. }
  split; [split; [intros _; lia | reflexivity]|].
  split; [|discriminate]. intros _. split; [|exact Hf].
  destruct (getWARMTargetC_cases ee') as (_ & _ & Hw).
  rewrite Hw, Hs, Hf by lia. lia.
Qed.

(** [setFROSTTargetC] succeeds exactly for a temperature in the band that
    is not above the WARM target; it then reads back as the FROST target
    and does not raise the WARM target. A rejected call writes nothing. *)
Theorem setFROSTTargetC_round_trip :
  forall ee tempC,
    is_u8 tempC ->
    let r := setFROSTTargetC cfg st ee tempC in
    (fst r = true <->
     MIN_TARGET_C cfg <= tempC <= MAX_TARGET_C cfg
     /\ tempC <= getWARMTargetC cfg st ee)
    /\ (fst r = true ->
        getFROSTTargetC cfg st (snd r) = tempC
        /\ tempC <= getWARMTargetC cfg st (snd r)
           <= getWARMTargetC cfg st ee)
    /\ (fst r = false -> snd r = ee).
Proof.
  intros ee t Ht r. subst r. unfold is_u8 in Ht.
  unfold setFROSTTargetC. rewrite !Z.gtb_ltb.
  destruct (Z.ltb_spec t (MIN_TARGET_C cfg));
    [cbn; repeat split; (discriminate || lia || reflexivity)|].
  destruct (Z.ltb_spec (MAX_TARGET_C cfg) t); cbn [orb];
    [cbn; repeat split; (discriminate || lia || reflexivity)|].
  destruct (Z.ltb_spec (getWARMTargetC cfg st ee) t);
    [cbn; repeat split; (discriminate || lia || reflexivity)|].
  cbn [fst snd].
  set (ee' := eeprom_smart_update_byte ee (EE_START_FROST_C st) t).
  assert (Hs : ee' (EE_START_FROST_C st) = t).
  { unfold ee'. rewrite update_same. apply to_u8_small. lia. }
  assert (Hf : getFROSTTargetC cfg st ee' = t).
  { destruct (getFROSTTargetC_cases ee') as [_ Hc].
    rewrite Hc, Hs; [reflexivity | rewrite Hs; lia]. }
  assert (Hw : ee' (EE_START_WARM_C st) = ee (EE_START_WARM_C st)).
  { unfold ee'. apply update_other. congruence. }
  split; [split; [intros _; lia | reflexivity]|].
  split; [|discriminate]. intros _. split; [exact Hf|].
  destruct (getFROSTTargetC_cases ee) as [Hfr _].
  rewrite !getWARMTargetC_eq in *. rewrite Hf, Hw. lia.
Qed.

End SettableTargets.

Lemma targets_ok_sample : Inv.targets_ok Sample.cfg SampleMore.settings.
Proof. unfold Inv.targets_ok. cbn. lia. Qed.

Lemma targets_in_band_witness :
  Persist.getFROSTTargetC Sample.cfg SampleMore.settings SampleMore.erased
  <= Persist.getWARMTargetC Sample.cfg SampleMore.settings SampleMore.erased.
Proof.
  destruct (targets_in_band Sample.cfg SampleMore.settings targets_ok_sample
              SampleMore.erased) as (_ & H & _).
  exact H.
Defined.

Lemma setWARMTargetC_round_trip_witness :
  Persist.getWARMTargetC Sample.cfg SampleMore.settings
    (snd (Persist.setWARMTargetC Sample.cfg SampleMore.settings
            SampleMore.erased 21)) = 21.
Proof.
  pose proof (setWARMTargetC_round_trip Sample.cfg SampleMore.settings
                targets_ok_sample ltac:(cbn; lia) SampleMore.erased 21
                ltac:(unfold is_u8; lia)) as H.
  cbv zeta in H. destruct H as (_ & H & _).
  destruct H as [H _]; [reflexivity | exact H].
Defined.

Lemma setFROSTTargetC_round_trip_witness :
  Persist.getFROSTTargetC Sample.cfg SampleMore.settings
    (snd (Persist.setFROSTTargetC Sample.cfg SampleMore.settings
            SampleMore.erased 12)) = 12.
Proof.
  pose proof (setFROSTTargetC_round_trip Sample.cfg SampleMore.settings
                targets_ok_sample ltac:(cbn; lia) SampleMore.erased 12
                ltac:(unfold is_u8; lia)) as H.
  cbv zeta in H. destruct H as (_ & H & _).
  destruct H as [H _]; [reflexivity | exact H].
Defined.


(** ** WARM target from the temperature pot *)

Section PotFacts.

Import Pot.

(** The loop counts how many bands, beyond the first two, lie below the pot
    position. *)
Lemma warmLoop_spec band pot R0 :
  0 < band -> 0 <= pot < 256 - band ->
  (forall j, 1 <= j -> (j + 1) * band < pot -> R0 + j < 256) ->
  0 <= R0 ->
  forall fuel k,
    0 <= k ->
    (k = 0 \/ (k + 1) * band < pot) ->
    pot <= Z.of_nat fuel * band + (k + 2) * band ->
    exists k',
      warmLoop fuel band pot ((k + 2) * band) (R0 + k) = Some (R0 + k')
      /\ k <= k' /\ pot <= (k' + 2) * band
      /\ (k' = 0 \/ (k' + 1) * band < pot).
Proof.
  intros Hband Hpot Hno HR0.
  induction fuel as [|fuel IH]; intros k Hk Hprev Hfuel.
  - cbn [warmLoop]. destruct (Z.ltb_spec ((k + 2) * band) pot); [lia|].
    exists k. repeat split; (lia || assumption || reflexivity).
  - cbn [warmLoop]. destruct (Z.ltb_spec ((k + 2) * band) pot) as [Hlt|Hge].
    + assert (Hw : R0 + (k + 1) < 256) by (apply Hno; lia).
      rewrite (to_u8_small ((k + 2) * band + band)) by lia.
      rewrite (to_u8_small (R0 + k + 1)) by lia.
      replace ((k + 2) * band + band) with ((k + 1 + 2) * band) by lia.
      replace (R0 + k + 1) with (R0 + (k + 1)) by lia.
      destruct (IH (k + 1)) as (k' & He & Hle & Hup & Hlow);
        [lia | right; lia | rewrite Nat2Z.inj_succ in Hfuel; lia |].
      exists k'. repeat split; (lia || assumption).
    + exists k. repeat split; (lia || assumption || reflexivity).
Qed.

Lemma band_facts r :
  3 <= r <= 19 ->
  13 <= Z.quot 256 r <= 85
  /\ r * Z.quot 256 r <= 256 <= (r + 1) * Z.quot 256 r.
Proof.
  intros Hr.
  assert (H : r = 3 \/ r = 4 \/ r = 5 \/ r = 6 \/ r = 7 \/ r = 8 \/ r = 9
              \/ r = 10 \/ r = 11 \/ r = 12 \/ r = 13 \/ r = 14 \/ r = 15
              \/ r = 16 \/ r = 17 \/ r = 18 \/ r = 19) by lia.
  repeat (destruct H as [-> | H]); try subst r;
    vm_compute; repeat split; discriminate.
Qed.

Variable cfg : Config.
Hypothesis Hscale : scale_ok cfg.

(** The result as an offset [o] from the bottom of the scale, with what
    fixes the offset in each of the three zones of the pot's travel. *)
Lemma computeWARMTargetC_spec pot :
  0 <= pot < 256 ->
  let range := TEMP_SCALE_MAX cfg - TEMP_SCALE_MIN cfg + 1 in
  let band := Z.quot 256 range in
  exists o,
    computeWARMTargetC cfg pot = Some (TEMP_SCALE_MIN cfg + o)
    /\ 0 <= o <= range - 1
    /\ (pot < band -> o = 0)
    /\ (256 - band <= pot -> o = range - 1)
    /\ (band <= pot < 256 - band ->
        1 <= o
        /\ ((range < 10 /\ pot <= (o + 1) * band
             /\ (o = 1 \/ o * band < pot))
            \/ (10 <= range /\ o = pot / band))).
Proof.
  intros Hpot range band.
  destruct Hscale as (He & Hec & Hce & Hc).
  assert (Hrange : 3 <= range <= 19)
    by (unfold range, TEMP_SCALE_MAX, TEMP_SCALE_MIN; lia).
  destruct (band_facts range Hrange) as (Hb & Hrb & Hrb1). fold band in Hb, Hrb, Hrb1.
  assert (Hmin : 0 <= TEMP_SCALE_MIN cfg) by (unfold TEMP_SCALE_MIN; lia).
  assert (Hmax : TEMP_SCALE_MAX cfg = TEMP_SCALE_MIN cfg + (range - 1))
    by (unfold range; lia).
  assert (Hmax255 : TEMP_SCALE_MAX cfg <= 255)
    by (unfold TEMP_SCALE_MAX; lia).
  unfold computeWARMTargetC. cbv zeta. fold range.
  rewrite (to_u8_small range) by lia. fold band.
  rewrite (to_u8_small band) by lia. rewrite Z.geb_leb.
  destruct (Z.leb_spec (256 - band) pot) as [Htop|Htop].
  { exists (range - 1). rewrite to_u8_small by lia.
    rewrite Hmax. repeat split; try lia. }
  destruct (Z.ltb_spec pot band) as [Hlow|Hlow].
  { exists 0. rewrite to_u8_small by lia.
    rewrite Z.add_0_r. repeat split; try lia. }
  destruct (Z.ltb_spec range 10) as [Hit|Hdiv].
  - (* counted band by band *)
    rewrite shiftl1. rewrite (to_u8_small (band * 2)) by lia.
    rewrite (to_u8_small (TEMP_SCALE_MIN cfg + 1)) by lia.
    destruct (warmLoop_spec band pot (TEMP_SCALE_MIN cfg + 1)
                ltac:(lia) ltac:(lia)) with (fuel := 256%nat) (k := 0)
      as (k' & He' & Hk' & Hup & Hlo); try lia.
    { intros j Hj Hlt.
      assert ((j + 1) * band < range * band) by lia.
      assert (j + 1 < range) by nia. lia. }
    replace ((0 + 2) * band) with (band * 2) in He' by lia.
    rewrite Z.add_0_r in He'.
    assert (Hk'r : k' + 1 <= range - 1).
    { destruct Hlo as [->|Hlo]; [lia|].
      assert ((k' + 1) * band < range * band) by lia. nia. }
    exists (k' + 1). rewrite He'.
    split; [f_equal; lia|]. split; [lia|]. split; [lia|]. split; [lia|].
    intros _. split; [lia|]. left. split; [lia|]. split; [lia|].
    destruct Hlo as [->|Hlo]; [now left | right; lia].
  - (* by division *)
    assert (Hq : 1 <= pot / band <= range - 1).
    { split.
      - apply Z.div_le_lower_bound; lia.
      - assert (pot / band < range); [|lia].
        apply Z.div_lt_upper_bound; lia. }
    rewrite Z.quot_div_nonneg by lia.
    exists (pot / band). rewrite to_u8_small by lia.
    split; [f_equal; lia|]. split; [lia|]. split; [lia|]. split; [lia|].
    intros _. split; [lia|]. right. split; [lia | reflexivity].
Qed.

(** For a scale of at most 19 degrees [computeWARMTargetC] always returns,
    with a temperature on the scale; the two ends of the pot's travel give
    the two ends of the scale. *)
Theorem pot_target_on_scale :
  forall pot,
    0 <= pot < 256 ->
    (exists r, computeWARMTargetC cfg pot = Some r
               /\ TEMP_SCALE_MIN cfg <= r <= TEMP_SCALE_MAX cfg)
    /\ computeWARMTargetC cfg 0 = Some (TEMP_SCALE_MIN cfg)
    /\ computeWARMTargetC cfg 255 = Some (TEMP_SCALE_MAX cfg).
Proof.
  intros pot Hpot.
  destruct Hscale as (He & Hec & Hce & Hc).
  assert (Hrange : 3 <= TEMP_SCALE_MAX cfg - TEMP_SCALE_MIN cfg + 1 <= 19)
    by (unfold TEMP_SCALE_MAX, TEMP_SCALE_MIN; lia).
  destruct (band_facts _ Hrange) as (Hb & _).
  split; [|split].
  - destruct (computeWARMTargetC_spec pot Hpot) as (o & Ho & Hr & _).
    exists (TEMP_SCALE_MIN cfg + o). split; [exact Ho | lia].
  - destruct (computeWARMTargetC_spec 0 ltac:(lia)) as (o & Ho & _ & H0 & _).
    rewrite Ho, H0 by lia. f_equal. lia.
  - destruct (computeWARMTargetC_spec 255 ltac:(lia))
      as (o & Ho & _ & _ & H255 & _).
    rewrite Ho, H255 by lia. f_equal. lia.
Qed.

(** Turning the pot up never lowers the WARM target. *)
Theorem pot_target_monotone :
  forall pot1 pot2,
    0 <= pot1 -> pot1 <= pot2 -> pot2 < 256 ->
    exists r1 r2,
      computeWARMTargetC cfg pot1 = Some r1
      /\ computeWARMTargetC cfg pot2 = Some r2
      /\ r1 <= r2.
Proof.
  intros p1 p2 H1 H12 H2.
  destruct Hscale as (He & Hec & Hce & Hc).
  assert (Hrange : 3 <= TEMP_SCALE_MAX cfg - TEMP_SCALE_MIN cfg + 1 <= 19)
    by (unfold TEMP_SCALE_MAX, TEMP_SCALE_MIN; lia).
  destruct (band_facts _ Hrange) as (Hb & _).
  destruct (computeWARMTargetC_spec p1 ltac:(lia))
    as (o1 & E1 & R1 & L1 & T1 & M1).
  destruct (computeWARMTargetC_spec p2 ltac:(lia))
    as (o2 & E2 & R2 & L2 & T2 & M2).
  exists (TEMP_SCALE_MIN cfg + o1), (TEMP_SCALE_MIN cfg + o2).
  split; [exact E1|]. split; [exact E2|].
  set (band := Z.quot 256 (TEMP_SCALE_MAX cfg - TEMP_SCALE_MIN cfg + 1)) in *.
  assert (o1 <= o2); [|lia].
  destruct (Z.lt_ge_cases p1 band) as [C1|C1]; [rewrite L1; lia|].
  destruct (Z.le_gt_cases (256 - band) p2) as [C2|C2]; [rewrite T2; lia|].
  destruct (M1 ltac:(lia)) as (P1 & [(A1 & B1 & D1)|(A1 & B1)]);
    destruct (M2 ltac:(lia)) as (P2 & [(A2 & B2 & D2)|(A2 & B2)]);
    try lia.
  - destruct D1 as [->|D1]; [lia|].
    assert (o1 * band < (o2 + 1) * band) by lia. nia.
  - subst o1 o2. apply Z.div_le_mono; lia.
Qed.

(** The cached getter is transparent: with a coherent cache it returns
    what [computeWARMTargetC] gives for the current pot position, and the
    cache stays coherent. *)
Theorem getWARMTargetC_cache_transparent :
  forall pot cache,
    0 <= pot < 256 ->
    Inv.pot_cache_coherent cfg cache ->
    exists r cache',
      computeWARMTargetC cfg pot = Some r
      /\ getWARMTargetC cfg pot cache = Some (r, cache')
      /\ Inv.pot_cache_coherent cfg cache'.
Proof.
  intros pot [pl rl] Hpot Hc. unfold Inv.pot_cache_coherent in Hc.
  cbn [fst snd] in Hc.
  destruct (computeWARMTargetC_spec pot Hpot) as (o & Ho & _).
  unfold getWARMTargetC.
  destruct (Z.eqb_spec pl pot) as [E|E]; cbn [negb orb].
  - destruct (Z.eqb_spec 0 rl) as [E0|E0].
    + rewrite Ho. eexists _, _. split; [reflexivity|].
      split; [reflexivity|]. right. exact Ho.
    + destruct Hc as [Hc|Hc]; [lia|]. subst pl.
      exists rl, (pot, rl). split; [exact Hc|].
      split; [reflexivity|]. right. exact Hc.
  - rewrite Ho. eexists _, _. split; [reflexivity|].
    split; [reflexivity|]. right. exact Ho.
Qed.

End PotFacts.

Lemma scale_ok_sample : Pot.scale_ok Sample.cfg.
Proof. unfold Pot.scale_ok. cbn. lia. Qed.

Lemma pot_target_on_scale_witness :
  Pot.computeWARMTargetC Sample.cfg 0 = Some 16
  /\ Pot.computeWARMTargetC Sample.cfg 255 = Some 22.
Proof.
  destruct (pot_target_on_scale Sample.cfg scale_ok_sample 128 ltac:(lia))
    as (_ & H0 & H255).
  split; [rewrite H0 | rewrite H255]; reflexivity.
Defined.

Lemma pot_target_monotone_witness :
  exists r1 r2,
    Pot.computeWARMTargetC Sample.cfg 100 = Some r1
    /\ Pot.computeWARMTargetC Sample.cfg 200 = Some r2
    /\ r1 <= r2.
Proof.
  apply (pot_target_monotone Sample.cfg scale_ok_sample 100 200); lia.
Defined.

Lemma getWARMTargetC_cache_transparent_witness :
  exists r cache',
    Pot.computeWARMTargetC Sample.cfg 128 = Some r
    /\ Pot.getWARMTargetC Sample.cfg 128 (0, 0) = Some (r, cache')
    /\ Inv.pot_cache_coherent Sample.cfg cache'.
Proof.
  apply (getWARMTargetC_cache_transparent Sample.cfg scale_ok_sample 128
           (0, 0)); [lia | now left].
Defined.



(** ** Occupancy: decay and vacancy *)

Section OccupancyRuns.

Import Occupancy Runs.

Variable cfg : Config.
Hypothesis Htimeout : timeout_supported cfg.

Lemma spec_confidence_monotone c1 c2 :
  c1 <= c2 -> spec_confidence cfg c1 <= spec_confidence cfg c2.
Proof.
  intros Hle. unfold spec_confidence.
  destruct (shift_factor cfg) as [[-> ?]|[[-> ?]|[-> ?]]]; lia.
Qed.

Lemma spec_confidence_nonneg c : 0 <= spec_confidence cfg c.
Proof. unfold spec_confidence. lia. Qed.

Lemma reads_wf n : forall o, wf cfg o -> wf cfg (reads cfg n o).
Proof.
  induction n as [|n IH]; intros o Hwf; [exact Hwf|].
  cbn [reads]. apply IH. now apply read_preserves_wf.
Qed.

(** Without new activity the reported confidence never rises from one
    minute to the next. *)
Theorem confidence_never_rises :
  forall o, wf cfg o ->
    fst (read cfg (snd (read cfg o))) <= fst (read cfg o).
Proof.
  intros o Hwf.
  pose proof (read_effect cfg Htimeout o Hwf) as H. cbv zeta in H.
  destruct H as (H0 & Hne & _ & Hr & Hpos & Hzero).
  pose proof (read_effect cfg Htimeout _
                (read_preserves_wf cfg Htimeout o Hwf)) as H'.
  cbv zeta in H'. destruct H' as (H0' & Hne' & _ & Hr' & _).
  destruct Hwf as (_ & Hc & _).
  destruct (Z.eq_dec (occupationCountdownM o) 0) as [E|E].
  - destruct (Hzero E) as (Ez & _). rewrite (H0' Ez). lia.
  - destruct (Hpos ltac:(lia)) as (Ed & _).
    destruct (Z.eq_dec (occupationCountdownM o) 1) as [E1|E1].
    + rewrite H0' by lia. lia.
    + rewrite Hne' by lia. rewrite Hne by exact E. rewrite Ed.
      apply spec_confidence_monotone. lia.
Qed.

Lemma reads_countdown n :
  forall o, wf cfg o ->
    occupationCountdownM (reads cfg n o)
    = Z.max 0 (occupationCountdownM o - Z.of_nat n).
Proof.
  induction n as [|n IH]; intros o Hwf.
  - cbn [reads]. destruct Hwf as (_ & Hc & _). lia.
  - cbn [reads]. rewrite IH by now apply read_preserves_wf.
    pose proof (read_effect cfg Htimeout o Hwf) as H. cbv zeta in H.
    destruct H as (_ & _ & _ & _ & Hpos & Hzero).
    destruct Hwf as (_ & Hc & _).
    destruct (Z.eq_dec (occupationCountdownM o) 0) as [E|E].
    + destruct (Hzero E) as (-> & _). lia.
    + destruct (Hpos ltac:(lia)) as (-> & _). lia.
Qed.

Lemma reads_last n :
  forall o, reads cfg (S n) o = snd (read cfg (reads cfg n o)).
Proof.
  induction n as [|n IH]; intros o; [reflexivity|].
  change (reads cfg (S (S n)) o)
    with (reads cfg (S n) (snd (read cfg o))).
  now rewrite IH.
Qed.

(** The occupation countdown runs down by one per minute, so after as many
    minutes as it held the room counts as vacant: the countdown is 0, the
    next tick reports a confidence of 0, and the vacancy counters start
    from 0. *)
Theorem occupancy_expires :
  forall o n,
    wf cfg o -> occupationCountdownM o <= Z.of_nat n ->
    occupationCountdownM (reads cfg n o) = 0
    /\ fst (read cfg (reads cfg n o)) = 0
    /\ (occupationCountdownM o = Z.of_nat n -> 0 < occupationCountdownM o ->
        vacancy_minutes (reads cfg n o) = 0).
Proof.
  intros o n Hwf Hn.
  assert (Hz : occupationCountdownM (reads cfg n o) = 0)
    by (rewrite reads_countdown by exact Hwf; lia).
  split; [exact Hz|]. split.
  - pose proof (read_effect cfg Htimeout _ (reads_wf n o Hwf)) as H.
    cbv zeta in H. destruct H as (H0 & _). now apply H0.
  - intros Heq Hpos. destruct n as [|n]; [lia|].
    rewrite reads_last.
    pose proof (read_effect cfg Htimeout _ (reads_wf n o Hwf)) as H.
    cbv zeta in H. destruct H as (_ & _ & _ & _ & Hp & _).
    rewrite reads_countdown in Hp by exact Hwf.
    destruct Hp as (_ & Hm & Hh); [lia|].
    unfold vacancy_minutes. rewrite Hm, Hh. reflexivity.
Qed.

Lemma reads_vacancy n :
  forall o, wf cfg o ->
    occupationCountdownM o = 0 -> vacancy_minutes o <= 255 * 60 ->
    vacancy_minutes (reads cfg n o)
    = Z.min (vacancy_minutes o + Z.of_nat n) (255 * 60)
    /\ occupationCountdownM (reads cfg n o) = 0.
Proof.
  induction n as [|n IH]; intros o Hwf Hc Hv.
  - cbn [reads]. split; [lia | exact Hc].
  - cbn [reads].
    pose proof (read_effect cfg Htimeout o Hwf) as H. cbv zeta in H.
    destruct H as (_ & _ & _ & _ & _ & Hzero).
    destruct (Hzero Hc) as (Hc' & Hv' & _).
    assert (Hstep : vacancy_minutes (snd (read cfg o))
                    = Z.min (vacancy_minutes o + 1) (255 * 60)).
    { rewrite Hv'. destruct Hwf as (_ & _ & _ & Hm & Hh).
      unfold vacancy_minutes, is_u8 in *.
      destruct (Z.ltb_spec (vacancyH o) 255); lia. }
    destruct (IH _ (read_preserves_wf cfg Htimeout o Hwf) Hc'
                ltac:(lia)) as [Hr Hcr].
    split; [|exact Hcr]. rewrite Hr, Hstep. lia.
Qed.

(** While the room stays vacant every minute adds one to the vacancy time
    held by the two counters, up to 255 hours, where it stays. *)
Theorem vacancy_time_saturates :
  forall o n,
    wf cfg o -> occupationCountdownM o = 0 ->
    vacancy_minutes o <= 255 * 60 ->
    vacancy_minutes (reads cfg n o)
    = Z.min (vacancy_minutes o + Z.of_nat n) (255 * 60).
Proof. intros o n Hwf Hc Hv. now apply reads_vacancy. Qed.

(** Marking the room as possibly occupied never lowers the confidence that
    the next tick reports, and marking twice is the same as marking
    once. *)
Theorem marking_never_lowers_confidence :
  forall o,
    wf cfg o ->
    0 <= OCCUPATION_TIMEOUT_1_M cfg <= OCCUPATION_TIMEOUT_M cfg ->
    fst (read cfg o) <= fst (read cfg (markAsPossiblyOccupied cfg o))
    /\ occupationCountdownM o
       <= occupationCountdownM (markAsPossiblyOccupied cfg o)
    /\ markAsPossiblyOccupied cfg (markAsPossiblyOccupied cfg o)
       = markAsPossiblyOccupied cfg o.
Proof.
  intros o Hwf H1.
  pose proof Htimeout as Ht. unfold timeout_supported in Ht.
  pose proof (markAsPossiblyOccupied_preserves_wf cfg Htimeout o H1 Hwf)
    as Hwf'.
  pose proof (read_effect cfg Htimeout o Hwf) as H. cbv zeta in H.
  destruct H as (H0 & Hne & _ & Hr & _).
  pose proof (read_effect cfg Htimeout _ Hwf') as H'. cbv zeta in H'.
  destruct H' as (H0' & Hne' & _ & Hr' & _).
  destruct Hwf as (_ & Hc & _).
  assert (Hm : occupationCountdownM (markAsPossiblyOccupied cfg o)
               = Z.max (occupationCountdownM o)
                       (OCCUPATION_TIMEOUT_1_M cfg)).
  { unfold markAsPossiblyOccupied, fnmax. cbn.
    now rewrite !to_u8_small by lia. }
  split; [|split].
  - destruct (Z.eq_dec (occupationCountdownM o) 0) as [E|E].
    + rewrite (H0 E). lia.
    + rewrite Hne by exact E. rewrite Hne' by lia. rewrite Hm.
      apply spec_confidence_monotone. lia.
  - rewrite Hm. lia.
  - unfold markAsPossiblyOccupied at 1 3. cbn [value vacancyM vacancyH].
    f_equal. rewrite Hm. unfold fnmax.
    rewrite !to_u8_small by lia. lia.
Qed.

End OccupancyRuns.

Lemma sample_tracker_wf : Occupancy.wf Sample.cfg Sample.tracker.
Proof. unfold Occupancy.wf, is_u8. cbn. lia. Qed.

Lemma sample_timeout : Occupancy.timeout_supported Sample.cfg.
Proof. unfold Occupancy.timeout_supported. cbn. lia. Qed.

Lemma confidence_never_rises_witness :
  fst (Occupancy.read Sample.cfg
         (snd (Occupancy.read Sample.cfg Sample.tracker)))
  <= fst (Occupancy.read Sample.cfg Sample.tracker).
Proof.
  exact (confidence_never_rises Sample.cfg sample_timeout Sample.tracker
           sample_tracker_wf).
Defined.

Lemma occupancy_expires_witness :
  fst (Occupancy.read Sample.cfg (Runs.reads Sample.cfg 20 Sample.tracker))
  = 0.
Proof.
  destruct (occupancy_expires Sample.cfg sample_timeout Sample.tracker 20
              sample_tracker_wf ltac:(cbn; lia)) as (_ & H & _).
  exact H.
Defined.

Lemma vacancy_time_saturates_witness :
  Occupancy.vacancy_minutes
    (Runs.reads Sample.cfg 90
       {| Occupancy.value := 0; Occupancy.occupationCountdownM := 0;
          Occupancy.activityCountdownM := 0;
          Occupancy.vacancyM := 30; Occupancy.vacancyH := 254 |})
  = 15300.
Proof.
  rewrite (vacancy_time_saturates Sample.cfg sample_timeout).
  - reflexivity.
  - unfold Occupancy.wf, is_u8. cbn. lia.
  - reflexivity.
  - cbn. lia.
Defined.

Lemma marking_never_lowers_confidence_witness :
  fst (Occupancy.read Sample.cfg Sample.tracker)
  <= fst (Occupancy.read Sample.cfg
            (Occupancy.markAsPossiblyOccupied Sample.cfg Sample.tracker)).
Proof.
  destruct (marking_never_lowers_confidence Sample.cfg sample_timeout
              Sample.tracker sample_tracker_wf ltac:(cbn; lia))
    as (H & _).
  exact H.
Defined.


(** ** Target temperature: bounds over all modes *)

Section TargetBounds.

Import Target.

(** Outside BAKE mode the target is never below the FROST target and never
    above the WARM target, provided no setback exceeds the WARM target:
    the setbacks and the FROST-mode pre-warm only ever lower it. *)
Theorem target_between_frost_and_warm :
  forall cfg env,
  0 <= getFROSTTargetC env <= getWARMTargetC env ->
  getWARMTargetC env < 256 ->
  0 <= SETBACK_DEFAULT cfg <= getWARMTargetC env ->
  0 <= SETBACK_ECO cfg <= getWARMTargetC env ->
  0 <= SETBACK_FULL cfg <= getWARMTargetC env ->
  inBakeMode env = false ->
  getFROSTTargetC env <= computeTargetTemp cfg env <= getWARMTargetC env.
Proof.
  intros cfg env Hfrost Hwarm Hd He Hf Hbake.
  unfold computeTargetTemp, setbackChosen, fnmax.
  rewrite Hbake. cbv zeta.
  repeat match goal with
         | |- context [to_u8 (if ?b then _ else _)] => destruct b
         end;
    repeat match goal with
           | |- context [if ?b then _ else _] => destruct b
           end;
    unfold to_u8; divlia.
Qed.

(** In BAKE mode the target is the WARM target plus the uplift, capped at
    [MAX_TARGET_C]: never below the WARM target while that is within the
    cap, and never above the cap. *)
Theorem bake_target_capped :
  forall cfg env,
  0 <= getWARMTargetC env ->
  0 <= BAKE_UPLIFT cfg -> getWARMTargetC env + BAKE_UPLIFT cfg < 256 ->
  0 <= MAX_TARGET_C cfg < 256 ->
  inBakeMode env = true ->
  computeTargetTemp cfg env
  = Z.min (getWARMTargetC env + BAKE_UPLIFT cfg) (MAX_TARGET_C cfg)
  /\ computeTargetTemp cfg env <= MAX_TARGET_C cfg
  /\ (getWARMTargetC env <= MAX_TARGET_C cfg ->
      getWARMTargetC env <= computeTargetTemp cfg env).
Proof.
  intros cfg env Hw0 Hu Hsum Hmax Hbake. unfold computeTargetTemp.
  assert (Hw : inWarmMode env = true).
  { unfold inBakeMode in Hbake. unfold inWarmMode.
    now destruct (isWarmMode env). }
  rewrite Hw, Hbake. cbn [negb]. unfold fnmin.
  rewrite !to_u8_small by lia. repeat split; lia.
Qed.

End TargetBounds.

Lemma target_between_frost_and_warm_witness :
  Target.getFROSTTargetC Sample.env
  <= Target.computeTargetTemp Sample.cfg Sample.env
  <= Target.getWARMTargetC Sample.env.
Proof.
  apply (target_between_frost_and_warm Sample.cfg Sample.env);
    try (cbn; lia); reflexivity.
Defined.

Lemma bake_target_capped_witness :
  Target.computeTargetTemp Sample.cfg
    (Heat.startBakeDebounced SampleMore.settings Sample.env) = 25.
Proof.
  pose proof (bake_target_capped Sample.cfg
                (Heat.startBakeDebounced SampleMore.settings Sample.env)
                ltac:(cbn; lia) ltac:(cbn; lia) ltac:(cbn; lia)
                ltac:(cbn; lia) eq_refl) as H.
  destruct H as (H & _). rewrite H. reflexivity.
Defined.


(** ** The valve: direction of travel, history and steady rooms *)

Section ValveMore.

Import Valve Steady.

Ltac facts_of_tests :=
  repeat match goal with
    | H : (_ <? _) = true |- _ => apply Z.ltb_lt in H
    | H : (_ <? _) = false |- _ => apply Z.ltb_ge in H
    | H : (_ <=? _) = true |- _ => apply Z.leb_le in H
    | H : (_ <=? _) = false |- _ => apply Z.leb_gt in H
    | H : (_ >? _) = _ |- _ => rewrite Z.gtb_ltb in H
    | H : (_ >=? _) = _ |- _ => rewrite Z.geb_leb in H
    | H : (_ =? _) = true |- _ => apply Z.eqb_eq in H
    | H : (_ =? _) = false |- _ => apply Z.eqb_neq in H
    | H : negb _ = true |- _ => apply negb_true_iff in H
    | H : negb _ = false |- _ => apply negb_false_iff in H
    | H : andb _ _ = true |- _ => apply andb_true_iff in H; destruct H
    | H : orb _ _ = false |- _ => apply orb_false_iff in H; destruct H
    end.

Ltac split_test :=
  match goal with
  | |- context [if ?b then _ else _] =>
      lazymatch b with
      | context [if _ then _ else _] => fail
      | _ => let E := fresh "E" in destruct b eqn:E
      end
  end.

(** How one call moves the valve, by the sign of the temperature error. *)
Lemma valve_direction :
  forall cfg v inp rs,
    sensible v inp ->
    let r := computeRequiredTRVPercentOpen cfg v inp rs in
    (adjustedTempC cfg inp rs > targetTempC inp ->
     r <= v /\ (v = 0 -> r = 0))
    /\ (adjustedTempC cfg inp rs < targetTempC inp ->
        v <= maxPCOpen inp -> v <= r)
    /\ (adjustedTempC cfg inp rs = targetTempC inp ->
        inBakeMode inp = false ->
        Z.min v (targetPO cfg inp rs) <= r <= Z.max v (targetPO cfg inp rs)).
Proof.
  intros cfg v inp rs (Hv & Hmin & Hmax) r. subst r.
  unfold TRV_SLEW_PC_PER_MIN_FAST, TRV_MAX_SLEW_PC_PER_MIN in Hmax.
  cbn in Hmax.
  unfold computeRequiredTRVPercentOpen, targetPO. cbv zeta.
  pose proof (land15_range (adjustedTempC16 cfg inp rs)) as Hl.
  generalize dependent (Z.land (adjustedTempC16 cfg inp rs) 15). intros l Hl.
  generalize (adjustedTempC cfg inp rs). intros tc.
  generalize (getRawDelta rs). intros rd.
  unfold constrain, TRV_SLEW_PC_PER_MIN_FAST, TRV_MAX_SLEW_PC_PER_MIN,
    TRV_MIN_SLEW_PC.
  change (Z.min 20 (2 * 5)) with 10.
  rewrite (to_u8_small l) by lia.
  rewrite (to_u8_small (16 - l)) by lia.
  rewrite (to_u8_small ((16 - l) * 6)) by lia.
  destruct (dontTurnup rs), (dontTurndown rs), (inBakeMode inp);
    repeat split_test; facts_of_tests; unfold fnmax, fnmin in *;
    repeat split; intros; try discriminate;
    rewrite ?to_u8_small in * by lia; try lia.
  all: unfold to_u8 in *; divlia.
Qed.

(** The valve follows the sign of the temperature error. Above target a
    call never opens it and keeps a closed valve closed; below target it
    never closes a valve that respects the upper limit; and inside the
    proportional band, outside BAKE mode, the result lies between the
    current position and the proportional target, so it never overshoots
    that target. *)
Theorem valve_follows_error :
  forall cfg v inp rs,
    sensible v inp ->
    let r := computeRequiredTRVPercentOpen cfg v inp rs in
    (adjustedTempC cfg inp rs > targetTempC inp ->
     r <= v /\ (v = 0 -> r = 0))
    /\ (adjustedTempC cfg inp rs < targetTempC inp ->
        v <= maxPCOpen inp -> v <= r)
    /\ (adjustedTempC cfg inp rs = targetTempC inp ->
        inBakeMode inp = false ->
        Z.min v (targetPO cfg inp rs) <= r <= Z.max v (targetPO cfg inp rs)).
Proof. exact valve_direction. Qed.

Lemma valve_follows_error_witness :
  computeRequiredTRVPercentOpen Sample.cfg 50 (Sample.input 20 400 false)
    Sample.rest <= 50.
Proof.
  pose proof (valve_follows_error Sample.cfg 50 (Sample.input 20 400 false)
                Sample.rest
                (sample_input_sensible 20 400 false 50 ltac:(lia))) as H.
  cbv zeta in H. destruct H as (H & _).
  destruct H as [H _]; [vm_compute; reflexivity | exact H].
Defined.

Lemma removelast_repeat (x : Z) n : removelast (repeat x (S n)) = repeat x n.
Proof.
  induction n as [|n IH]; [reflexivity|].
  change (repeat x (S (S n))) with (x :: repeat x (S n)).
  change (removelast (x :: repeat x (S n)))
    with (x :: removelast (repeat x (S n))).
  now rewrite IH.
Qed.

Lemma shiftIn_repeat x n : shiftIn x (repeat x n) = repeat x n.
Proof.
  destruct n as [|n]; [reflexivity|].
  cbn [repeat shiftIn]. f_equal. exact (removelast_repeat x n).
Qed.

Lemma anyAdjacentJump_repeat x n : anyAdjacentJump (repeat x n) = false.
Proof.
  induction n as [|n IH]; [reflexivity|].
  destruct n as [|n]; [reflexivity|].
  change (repeat x (S (S n))) with (x :: x :: repeat x n).
  cbn [anyAdjacentJump]. rewrite Z.sub_diag.
  change (Z.abs (to_i16 0) >? MAX_TEMP_JUMP_C16) with false. cbv iota.
  exact IH.
Qed.

(** *** A steady room *)

Lemma tick_keeps_filter_state cfg v rs inp :
  initialised (snd (tick cfg v rs inp)) = true
  /\ isFiltering (snd (tick cfg v rs inp))
     = isFiltering (tickPrepare cfg rs inp)
  /\ prevRawTempC16 (snd (tick cfg v rs inp))
     = prevRawTempC16 (tickPrepare cfg rs inp).
Proof.
  unfold tick. cbv zeta.
  destruct (negb _); [destruct (_ >? _)|]; repeat split.
Qed.

Lemma above_target_branch cfg v inp rs :
  adjustedTempC cfg inp rs > targetTempC inp ->
  computeRequiredTRVPercentOpen cfg v inp rs
  = if negb (0 =? v) then
      if dontTurndown rs then v
      else
        let justOverTemp := adjustedTempC cfg inp rs =? targetTempC inp + 1 in
        if justOverTemp && widenDeadband inp && (getRawDelta rs <? 0)
        then v
        else if justOverTemp && isFiltering rs then to_u8 (v - 1)
        else
          let lingerThreshold :=
            to_u8 (if minPCOpen inp >? 0 then minPCOpen inp - 1 else 0) in
          if v <? minPCOpen inp then
            if (DEFAULT_MAX_RUN_ON_TIME_M cfg <? minPCOpen inp)
               && (v <? minPCOpen inp - DEFAULT_MAX_RUN_ON_TIME_M cfg)
            then 0
            else to_u8 (v - 1)
          else if (negb (hasEcoBias inp) || justOverTemp || isFiltering rs)
                  && (v >?
                      constrain (lingerThreshold + TRV_SLEW_PC_PER_MIN_FAST)
                                TRV_SLEW_PC_PER_MIN_FAST (maxPCOpen inp))
          then to_u8 (v - TRV_SLEW_PC_PER_MIN_FAST)
          else lingerThreshold
    else 0.
Proof.
  intros Habove. unfold computeRequiredTRVPercentOpen. cbv zeta.
  destruct (Z.ltb_spec (adjustedTempC cfg inp rs) (targetTempC inp)); [lia|].
  rewrite Z.gtb_ltb.
  destruct (Z.ltb_spec (targetTempC inp) (adjustedTempC cfg inp rs)); [|lia].
  now rewrite Z.gtb_ltb.
Qed.

(** Above target, with a steady raw temperature, the filter off and
    closing not deferred, every call closes an open valve further. *)
Lemma closing_progress cfg v inp rs :
  sensible v inp ->
  adjustedTempC cfg inp rs > targetTempC inp ->
  isFiltering rs = false -> getRawDelta rs = 0 ->
  dontTurndown rs = false -> 0 < v ->
  computeRequiredTRVPercentOpen cfg v inp rs < v.
Proof.
  intros (Hv & Hmin & Hmax) Habove Hf Hd Hdt Hpos.
  unfold TRV_SLEW_PC_PER_MIN_FAST, TRV_MAX_SLEW_PC_PER_MIN in Hmax.
  cbn in Hmax.
  rewrite above_target_branch by exact Habove. cbv zeta.
  rewrite Hf, Hd, Hdt. rewrite !andb_false_r. cbn [andb orb].
  unfold constrain, TRV_SLEW_PC_PER_MIN_FAST, TRV_MAX_SLEW_PC_PER_MIN.
  change (Z.min 20 (2 * 5)) with 10.
  repeat split_test; facts_of_tests; unfold to_u8 in *; divlia.
Qed.

(** Below target, with re-opening not deferred, every call opens a valve
    that is below the upper limit further. *)
Lemma opening_progress cfg v inp rs :
  sensible v inp ->
  adjustedTempC cfg inp rs < targetTempC inp ->
  dontTurnup rs = false -> v < maxPCOpen inp ->
  v < computeRequiredTRVPercentOpen cfg v inp rs.
Proof.
  intros (Hv & Hmin & Hmax) Hbelow Hdt Hlt.
  unfold TRV_SLEW_PC_PER_MIN_FAST, TRV_MAX_SLEW_PC_PER_MIN in Hmax.
  cbn in Hmax.
  rewrite below_target_branch by exact Hbelow. cbv zeta. rewrite Hdt.
  unfold TRV_SLEW_PC_PER_MIN_FAST, TRV_MAX_SLEW_PC_PER_MIN.
  change (Z.min 20 (2 * 5)) with 10.
  destruct (Z.ltb_spec v (maxPCOpen inp)); [|lia].
  destruct (inBakeMode inp); [lia|].
  match goal with
  | |- context [if ?b then to_u8 (v + 1) else _] => destruct b
  end; [rewrite to_u8_small; lia|].
  match goal with
  | |- context [to_u8 (if ?b then 5 else 10)] => destruct b
  end; unfold fnmax, fnmin;
    rewrite ?(to_u8_small 5), ?(to_u8_small 10) by lia;
    rewrite to_u8_small by lia; split_test; facts_of_tests; lia.
Qed.

Lemma nth_repeat_Z (x : Z) n k :
  (k < n)%nat -> nth k (repeat x n) 0 = x.
Proof.
  revert k. induction n as [|n IH]; intros k Hk; [lia|].
  destruct k as [|k]; [reflexivity|]. cbn [repeat nth]. apply IH. lia.
Qed.

Section SteadyRoom.

Variable cfg : Config.
Variable inp : ModelledRadValveInputState.
Hypothesis Hlen : (2 <= filterLength cfg)%nat.

Lemma dec_byte c :
  is_u8 c -> (if c >? 0 then to_u8 (c - 1) else c) = Z.max 0 (c - 1).
Proof.
  unfold is_u8. intros H. rewrite Z.gtb_ltb.
  destruct (Z.ltb_spec 0 c); [rewrite to_u8_small|]; lia.
Qed.

Lemma prepare_settled rs :
  settled cfg inp rs ->
  isFiltering (tickPrepare cfg rs inp) = false
  /\ prevRawTempC16 (tickPrepare cfg rs inp)
     = repeat (to_i16 (refTempC16 inp - refTempOffsetC16))
              (filterLength cfg)
  /\ adjustedTempC cfg inp (tickPrepare cfg rs inp)
     = to_i8 (Z.shiftr (refTempC16 inp) 4)
  /\ getRawDelta (tickPrepare cfg rs inp) = 0
  /\ valveTurnupCountdownM (tickPrepare cfg rs inp)
     = Z.max 0 (valveTurnupCountdownM rs - 1)
  /\ valveTurndownCountdownM (tickPrepare cfg rs inp)
     = Z.max 0 (valveTurndownCountdownM rs - 1).
Proof.
  intros (Hi & Hf & Hp & Hd & Hu).
  assert (Hprev : prevRawTempC16 (tickPrepare cfg rs inp)
                  = repeat (to_i16 (refTempC16 inp - refTempOffsetC16))
                           (filterLength cfg)).
  { unfold tickPrepare. cbn [prevRawTempC16]. rewrite Hi. cbn [negb].
    rewrite Hp. apply shiftIn_repeat. }
  assert (Hfilt : isFiltering (tickPrepare cfg rs inp) = false).
  { unfold tickPrepare. cbn [isFiltering]. rewrite Hi, Hf. cbn [negb].
    rewrite Hp, shiftIn_repeat. apply anyAdjacentJump_repeat. }
  split; [exact Hfilt|]. split; [exact Hprev|]. split; [|split; [|split]].
  - unfold adjustedTempC, adjustedTempC16. now rewrite Hfilt.
  - unfold getRawDelta. rewrite Hprev, !nth_repeat_Z by lia.
    now rewrite Z.sub_diag.
  - rewrite prepare_turnup_countdown. now apply dec_byte.
  - rewrite prepare_turndown_countdown. now apply dec_byte.
Qed.

Lemma tick_settled v rs :
  settled cfg inp rs -> settled cfg inp (snd (tick cfg v rs inp)).
Proof.
  intros Hs. destruct (prepare_settled rs Hs) as (Hf & Hp & _ & _ & Hu & Hd).
  destruct Hs as (_ & _ & _ & Hdb & Hub). unfold is_u8 in *.
  destruct (tick_keeps_filter_state cfg v rs inp) as (Ti & Tf & Tp).
  unfold settled. rewrite Ti, Tf, Tp, Hf, Hp.
  rewrite tick_turndown_countdown, tick_turnup_countdown, Hu, Hd.
  repeat split; unfold is_u8;
    destruct (_ <? _); try apply to_u8_range; lia.
Qed.

(** One minute in a steady room that is too warm. *)
Lemma steady_close_step v rs :
  settled cfg inp rs -> sensible v inp ->
  to_i8 (Z.shiftr (refTempC16 inp) 4) > targetTempC inp ->
  0 <= fst (tick cfg v rs inp) <= v
  /\ (valveTurnupCountdownM rs <= 1 -> 0 < v -> fst (tick cfg v rs inp) < v)
  /\ valveTurnupCountdownM (snd (tick cfg v rs inp))
     = Z.max 0 (valveTurnupCountdownM rs - 1).
Proof.
  intros Hs Hsens Hhot.
  destruct (prepare_settled rs Hs) as (Hf & Hp & Ha & Hrd & Hu & Hd).
  destruct Hs as (_ & _ & _ & Hdb & Hub). unfold is_u8 in *.
  pose proof (valve_direction cfg v inp (tickPrepare cfg rs inp) Hsens)
    as (Hdir & _).
  rewrite Ha in Hdir. specialize (Hdir Hhot).
  pose proof (compute_step_facts cfg v inp (tickPrepare cfg rs inp) Hsens)
    as (Hr & _).
  rewrite tick_turnup_countdown, tick_position, Hu.
  split; [lia|]. split.
  - intros Hup Hpos. apply closing_progress; try assumption.
    + now rewrite Ha.
    + unfold dontTurndown. rewrite Hu.
      replace (Z.max 0 (valveTurnupCountdownM rs - 1)) with 0 by lia.
      reflexivity.
  - destruct (Z.ltb_spec v (computeRequiredTRVPercentOpen cfg v inp
                              (tickPrepare cfg rs inp))); [lia|reflexivity].
Qed.

(** One minute in a steady room that is too cold. *)
Lemma steady_open_step v rs :
  settled cfg inp rs -> sensible v inp -> v <= maxPCOpen inp ->
  to_i8 (Z.shiftr (refTempC16 inp) 4) < targetTempC inp ->
  v <= fst (tick cfg v rs inp) <= maxPCOpen inp
  /\ (valveTurndownCountdownM rs <= 1 -> v < maxPCOpen inp ->
      v < fst (tick cfg v rs inp))
  /\ valveTurndownCountdownM (snd (tick cfg v rs inp))
     = Z.max 0 (valveTurndownCountdownM rs - 1).
Proof.
  intros Hs Hsens HM Hcold.
  destruct (prepare_settled rs Hs) as (Hf & Hp & Ha & Hrd & Hu & Hd).
  destruct Hs as (_ & _ & _ & Hdb & Hub). unfold is_u8 in *.
  pose proof (valve_direction cfg v inp (tickPrepare cfg rs inp) Hsens)
    as (_ & Hdir & _).
  rewrite Ha in Hdir. specialize (Hdir Hcold HM).
  pose proof (compute_step_facts cfg v inp (tickPrepare cfg rs inp) Hsens)
    as (Hr & Hle & _). specialize (Hle HM).
  rewrite tick_turndown_countdown, tick_position, Hd.
  split; [lia|]. split.
  - intros Hdown Hlt. apply opening_progress; try assumption.
    + now rewrite Ha.
    + unfold dontTurnup. rewrite Hd.
      replace (Z.max 0 (valveTurndownCountdownM rs - 1)) with 0 by lia.
      reflexivity.
  - destruct (Z.ltb_spec (computeRequiredTRVPercentOpen cfg v inp
                            (tickPrepare cfg rs inp)) v);
      [lia|reflexivity].
Qed.

Lemma sensible_step v r :
  sensible v inp -> 0 <= r <= 100 -> sensible r inp.
Proof. intros (_ & Hl) Hr. split; assumption. Qed.

(** In a steady room above target the valve shuts completely: once the
    re-closing deferral has run out it closes further every minute, so
    after as many minutes as the countdown plus the current percentage it
    is at exactly 0, and it stays there. *)
Theorem steady_room_closes :
  forall n v rs,
    settled cfg inp rs -> sensible v inp ->
    to_i8 (Z.shiftr (refTempC16 inp) 4) > targetTempC inp ->
    v + valveTurnupCountdownM rs <= Z.of_nat n ->
    fst (ticks cfg n v rs inp) = 0.
Proof.
  induction n as [|n IH]; intros v rs Hs Hsens Hhot Hn.
  - destruct Hs as (_ & _ & _ & _ & Hub). destruct Hsens as (Hv & _).
    unfold is_u8 in Hub. cbn [ticks fst]. cbn in Hn. lia.
  - cbn [ticks].
    destruct (steady_close_step v rs Hs Hsens Hhot) as (Hr & Hprog & Hup).
    pose proof Hs as (_ & _ & _ & _ & Hub). unfold is_u8 in Hub.
    pose proof Hsens as (Hv & _).
    apply IH.
    + now apply tick_settled.
    + apply (sensible_step v); [exact Hsens | lia].
    + exact Hhot.
    + rewrite Hup. rewrite Nat2Z.inj_succ in Hn.
      destruct (Z.le_gt_cases (valveTurnupCountdownM rs) 1) as [C|C].
      * destruct (Z.eq_dec v 0) as [->|Hv0]; [lia|].
        specialize (Hprog C ltac:(lia)). lia.
      * lia.
Qed.

(** In a steady room below target the valve opens fully: once the
    re-opening deferral has run out it opens further every minute until it
    is at the upper limit, where it stays. *)
Theorem steady_room_opens :
  forall n v rs,
    settled cfg inp rs -> sensible v inp -> v <= maxPCOpen inp ->
    to_i8 (Z.shiftr (refTempC16 inp) 4) < targetTempC inp ->
    (maxPCOpen inp - v) + valveTurndownCountdownM rs <= Z.of_nat n ->
    fst (ticks cfg n v rs inp) = maxPCOpen inp.
Proof.
  induction n as [|n IH]; intros v rs Hs Hsens HM Hcold Hn.
  - destruct Hs as (_ & _ & _ & Hdb & _).
    unfold is_u8 in Hdb. cbn [ticks fst]. cbn in Hn. lia.
  - cbn [ticks].
    destruct (steady_open_step v rs Hs Hsens HM Hcold) as (Hr & Hprog & Hdn).
    pose proof Hs as (_ & _ & _ & Hdb & _). unfold is_u8 in Hdb.
    pose proof Hsens as (Hv & _ & Hmax).
    apply IH.
    + now apply tick_settled.
    + apply (sensible_step v); [exact Hsens | lia].
    + lia.
    + exact Hcold.
    + rewrite Hdn. rewrite Nat2Z.inj_succ in Hn.
      destruct (Z.le_gt_cases (valveTurndownCountdownM rs) 1) as [C|C].
      * destruct (Z.eq_dec v (maxPCOpen inp)) as [E|E]; [lia|].
        specialize (Hprog C ltac:(lia)). lia.
      * lia.
Qed.

End SteadyRoom.

Lemma settled_at_settled target ref bake down up :
  0 <= down < 256 -> 0 <= up < 256 ->
  settled Sample.cfg (Sample.input target ref bake)
          (SampleMore.settled_at ref down up).
Proof.
  intros Hd Hu. unfold settled, is_u8. cbn.
  repeat split; try reflexivity; lia.
Qed.

Lemma sample_history_length : (2 <= filterLength Sample.cfg)%nat.
Proof. cbn. lia. Qed.

Lemma steady_room_closes_witness :
  fst (ticks Sample.cfg 63 60 (SampleMore.settled_at 340 0 3)
             (Sample.input 20 340 false)) = 0.
Proof.
  apply (steady_room_closes Sample.cfg (Sample.input 20 340 false)
           sample_history_length).
  - apply settled_at_settled; lia.
  - apply sample_input_sensible; lia.
  - vm_compute. reflexivity.
  - vm_compute. discriminate.
Defined.

Lemma steady_room_opens_witness :
  fst (ticks Sample.cfg 104 0 (SampleMore.settled_at 300 4 0)
             (Sample.input 20 300 false)) = 100.
Proof.
  apply (steady_room_opens Sample.cfg (Sample.input 20 300 false)
           sample_history_length).
  - apply settled_at_settled; lia.
  - apply sample_input_sensible; lia.
  - vm_compute. discriminate.
  - vm_compute. reflexivity.
  - vm_compute. discriminate.
Defined.

End ValveMore.


(** ** The per-minute entry point *)

Section HeatFacts.

Import Target Valve Heat.

Lemma call_modes cfg env rv :
  isWarmMode (fst (computeCallForHeat cfg env rv)) = isWarmMode env
  /\ bakeCountdownM (fst (computeCallForHeat cfg env rv))
     = (if negb (callingForHeat rv) then 0
        else if bakeCountdownM env >? 0 then to_u8 (bakeCountdownM env - 1)
             else bakeCountdownM env)
  /\ getMinPercentOpen (fst (computeCallForHeat cfg env rv))
     = getMinPercentOpen env
  /\ getMaxPercentageOpenAllowed (fst (computeCallForHeat cfg env rv))
     = getMaxPercentageOpenAllowed env.
Proof.
  unfold computeCallForHeat. cbv zeta. cbn [fst].
  destruct (negb (callingForHeat rv)); [repeat split|].
  destruct (bakeCountdownM env >? 0); repeat split.
Qed.

Lemma call_input cfg env rv :
  let r := computeCallForHeat cfg env rv in
  minPCOpen (inputState (snd r)) = getMinPercentOpen (fst r)
  /\ maxPCOpen (inputState (snd r)) = getMaxPercentageOpenAllowed (fst r)
  /\ inBakeMode (inputState (snd r)) = Target.inBakeMode (fst r)
  /\ value (snd r)
     = computeRequiredTRVPercentOpen cfg (value rv) (inputState (snd r))
         (tickPrepare cfg (retainedState rv) (inputState (snd r))).
Proof.
  cbv zeta. unfold computeCallForHeat. cbv zeta. cbn [fst snd].
  cbn [value inputState]. rewrite tick_position.
  unfold computeTargetTemperature. cbv zeta.
  cbn [value inputState retainedState setReferenceTemperatures minPCOpen
       maxPCOpen inBakeMode].
  repeat split.
Qed.

(** One call of [computeCallForHeat] and the BAKE countdown: the WARM flag
    is left alone; when the previous call found the target reached the
    countdown is zeroed, otherwise it runs down by one; and the BAKE flag
    handed to the valve model is the one of the countdown after that step,
    so a countdown of 1 at entry gives no BAKE minute. *)
Theorem bake_countdown_step :
  forall cfg env rv,
    0 <= bakeCountdownM env < 256 ->
    let r := computeCallForHeat cfg env rv in
    isWarmMode (fst r) = isWarmMode env
    /\ (callingForHeat rv = false -> bakeCountdownM (fst r) = 0)
    /\ (callingForHeat rv = true ->
        bakeCountdownM (fst r) = Z.max 0 (bakeCountdownM env - 1))
    /\ inBakeMode (inputState (snd r))
       = isWarmMode env && negb (0 =? bakeCountdownM (fst r))
    /\ (bakeCountdownM env <= 1 -> inBakeMode (inputState (snd r)) = false).
Proof.
  intros cfg env rv Hb. cbv zeta.
  destruct (call_modes cfg env rv) as (Hw & Hc & _).
  destruct (call_input cfg env rv) as (_ & _ & Hi & _). cbv zeta in Hi.
  assert (Hstep : bakeCountdownM (fst (computeCallForHeat cfg env rv))
                  <= Z.max 0 (bakeCountdownM env - 1)).
  { rewrite Hc. destruct (negb (callingForHeat rv)); [lia|].
    rewrite Z.gtb_ltb. destruct (Z.ltb_spec 0 (bakeCountdownM env));
      [rewrite to_u8_small|]; lia. }
  assert (Hnn : 0 <= bakeCountdownM (fst (computeCallForHeat cfg env rv))).
  { rewrite Hc. destruct (negb (callingForHeat rv)); [lia|].
    rewrite Z.gtb_ltb. destruct (Z.ltb_spec 0 (bakeCountdownM env));
      [rewrite to_u8_small|]; lia. }
  split; [exact Hw|]. split; [|split; [|split]].
  - intros Hcall. rewrite Hc, Hcall. reflexivity.
  - intros Hcall. rewrite Hc, Hcall. cbn [negb]. rewrite Z.gtb_ltb.
    destruct (Z.ltb_spec 0 (bakeCountdownM env));
      [rewrite to_u8_small|]; lia.
  - rewrite Hi. unfold Target.inBakeMode. now rewrite Hw.
  - intros Hle. rewrite Hi. unfold Target.inBakeMode.
    replace (bakeCountdownM (fst (computeCallForHeat cfg env rv))) with 0
      by lia.
    cbn [Z.eqb negb]. apply andb_false_r.
Qed.

Lemma withMode_modes e warm bake :
  isWarmMode (withMode e warm bake) = warm
  /\ bakeCountdownM (withMode e warm bake) = bake
  /\ getMinPercentOpen (withMode e warm bake) = getMinPercentOpen e
  /\ getMaxPercentageOpenAllowed (withMode e warm bake)
     = getMaxPercentageOpenAllowed e.
Proof. repeat split. Qed.

Lemma call_countdown_bound cfg env rv :
  0 <= bakeCountdownM env < 256 ->
  0 <= bakeCountdownM (fst (computeCallForHeat cfg env rv))
    <= Z.max 0 (bakeCountdownM env - 1).
Proof.
  intros Hb. destruct (call_modes cfg env rv) as (_ & Hc & _). rewrite Hc.
  destruct (negb (callingForHeat rv)); [lia|].
  rewrite Z.gtb_ltb. destruct (Z.ltb_spec 0 (bakeCountdownM env));
    [rewrite to_u8_small|]; lia.
Qed.

(** BAKE mode is bounded in time whatever the readings: over successive
    minutes the WARM flag stays as it was and the countdown, started at
    [bake], is at most [bake] less the number of minutes, and 0 from then
    on. *)
Theorem bake_runs_down :
  forall cfg readings warm bake rv,
    0 <= bake < 256 ->
    let r := runMinutes cfg readings warm bake rv in
    fst (fst r) = warm
    /\ 0 <= snd (fst r) <= Z.max 0 (bake - Z.of_nat (length readings)).
Proof.
  intros cfg readings. induction readings as [|e rest IH];
    intros warm bake rv Hb; cbv zeta.
  - cbn. split; [reflexivity | lia].
  - cbn [runMinutes length]. cbv zeta.
    pose proof (call_modes cfg (withMode e warm bake) rv) as (Hw & _).
    pose proof (call_countdown_bound cfg (withMode e warm bake) rv Hb)
      as Hc.
    cbn [isWarmMode bakeCountdownM withMode] in Hw, Hc.
    specialize (IH (isWarmMode (fst (computeCallForHeat cfg
                                       (withMode e warm bake) rv)))
                   (bakeCountdownM (fst (computeCallForHeat cfg
                                           (withMode e warm bake) rv)))
                   (snd (computeCallForHeat cfg (withMode e warm bake) rv))
                   ltac:(lia)).
    cbv zeta in IH. destruct IH as (IHw & IHc).
    split; [now rewrite IHw|]. rewrite Nat2Z.inj_succ. lia.
Qed.

(** The valve percentage stays a percentage: over successive minutes with
    sensible limits reported, a position within 0..100 stays within
    0..100, and one that respects a common upper limit [M] keeps
    respecting it. *)
Theorem valve_stays_in_range :
  forall cfg M readings warm bake rv,
    Forall (limits_reported M) readings ->
    0 <= value rv <= 100 ->
    let rv' := snd (runMinutes cfg readings warm bake rv) in
    0 <= value rv' <= 100
    /\ (value rv <= M -> value rv' <= M).
Proof.
  intros cfg M readings. induction readings as [|e rest IH];
    intros warm bake rv Hall Hv; cbv zeta.
  - cbn. lia.
  - cbn [runMinutes]. cbv zeta.
    inversion Hall as [|e' rest' (Hmin & Hmax & HM) Hrest]; subst e' rest'.
    set (env := withMode e warm bake).
    destruct (call_modes cfg env rv) as (_ & _ & Hlo & Hhi).
    destruct (call_input cfg env rv) as (Hmn & Hmx & _ & Hval).
    cbv zeta in Hmn, Hmx, Hval.
    rewrite Hlo in Hmn. rewrite Hhi in Hmx.
    change (getMinPercentOpen env) with (getMinPercentOpen e) in Hmn.
    change (getMaxPercentageOpenAllowed env)
      with (getMaxPercentageOpenAllowed e) in Hmx.
    assert (Hs : sensible (value rv)
                   (inputState (snd (computeCallForHeat cfg env rv)))).
    { split; [exact Hv|]. unfold limits. rewrite Hmn, Hmx. split; lia. }
    pose proof (compute_step_facts cfg (value rv) _
                  (tickPrepare cfg (retainedState rv)
                     (inputState (snd (computeCallForHeat cfg env rv)))) Hs)
      as (Hr & Hle & _).
    rewrite <- Hval in Hr, Hle. rewrite Hmx in Hle.
    specialize (IH (isWarmMode (fst (computeCallForHeat cfg env rv)))
                   (bakeCountdownM (fst (computeCallForHeat cfg env rv)))
                   (snd (computeCallForHeat cfg env rv)) Hrest Hr).
    cbv zeta in IH. destruct IH as (IHr & IHle).
    split; [exact IHr|]. intros HvM. apply IHle. lia.
Qed.

End HeatFacts.

Lemma bake_countdown_step_witness :
  Valve.inBakeMode
    (Valve.inputState
       (snd (Heat.computeCallForHeat Sample.cfg
               (Heat.withMode Sample.env true 1) Sample.valve))) = false.
Proof.
  pose proof (bake_countdown_step Sample.cfg
                (Heat.withMode Sample.env true 1) Sample.valve
                ltac:(cbn; lia)) as H.
  cbv zeta in H. destruct H as (_ & _ & _ & _ & H).
  apply H. cbn. lia.
Defined.

Lemma bake_runs_down_witness :
  snd (fst (Heat.runMinutes Sample.cfg (repeat Sample.env 30) true 30
              Sample.valve)) = 0.
Proof.
  pose proof (bake_runs_down Sample.cfg (repeat Sample.env 30) true 30
                Sample.valve ltac:(lia)) as H.
  cbv zeta in H. destruct H as (_ & H).
  rewrite repeat_length in H. lia.
Defined.

Lemma sample_env_limits : Heat.limits_reported 100 Sample.env.
Proof.
  unfold Heat.limits_reported, Valve.TRV_SLEW_PC_PER_MIN_FAST. cbn. lia.
Qed.

Lemma valve_stays_in_range_witness :
  0 <= Valve.value
         (snd (Heat.runMinutes Sample.cfg [Sample.env; Sample.env] true 0
                 Sample.valve)) <= 100.
Proof.
  pose proof (valve_stays_in_range Sample.cfg 100 [Sample.env; Sample.env]
                true 0 Sample.valve
                ltac:(repeat constructor; apply sample_env_limits)
                ltac:(cbn; lia)) as H.
  cbv zeta in H. exact (proj1 H).
Defined.
